(** * deploy_magma.py: the interactive Magma deployment wizard

    A shallow embedding of [src/deploy_magma.py].  The wizard asks the
    operator a fixed sequence of questions, stores the answers in the
    dictionary [self.config], renders one shell script per selected
    component and hands commands to [subprocess.run].

    Modelling choices.
    - A Python [str] is a [string]: the UTF-8 bytes of the text.  The
      string methods the wizard uses ([strip], [lower], [upper], [split],
      [in], [join]) are written out below.  [strip] takes away the white
      space of Unicode, [split] and [in] go by bytes, which in UTF-8 is
      the same as going by characters.  [lower] and [upper] change the
      ASCII letters; see there for the others.
    - [self.config] is a Python value [pyval]: [None], a string, a list
      or a dictionary with string keys.  A dictionary keeps its keys in
      insertion order, as Python's does, so it is an association list.
    - Effects are explicit: a computation [M A] takes the [world] (the
      configuration object, the operator's pending answers, the files,
      the commands handed to the shell, the log and the terminal output)
      and returns a [result] together with the new world.  Exceptions are
      values of [exn]; [try_except] plays the part of [try]/[except].
    - What the wizard reaches only through libraries is a field of the
      environment [env]: the shell ([subprocess.run]), the address parser
      ([ipaddress.ip_address]) and the YAML reader and writer.  The
      general theorems hold for every environment; the worked runs use
      the sample environment [Sample.E0].
    - [while] loops take fuel.  The fuel handed to a loop is one more than
      the number of pending answers; every trip round a loop of the wizard
      reads an answer, so the fuel never runs out ([main_terminates]). *)

From Stdlib Require Import Ascii String DecimalString.
From stdpp Require Import base option list strings gmap.

Open Scope string_scope.
Open Scope list_scope.
Set Warnings "-register-all".

(** ** Python strings *)

Module Str.

Definition chr (n : nat) : string := String (Ascii.ascii_of_nat n) "".

(** The double quote, the line feed and the backslash. *)
Definition dq : string := chr 34.
Definition nl : string := chr 10.
Definition bs : string := chr 92.

Definition bytes (l : list nat) : string :=
  foldr (fun n s => String (Ascii.ascii_of_nat n) s) "" l.

(** [sub in s] for strings: [sub] occurs in [s] as a substring. *)
Fixpoint contains (sub s : string) : bool :=
  if String.prefix sub s then true
  else match s with
       | "" => false
       | String _ s' => contains sub s'
       end.

(** [s.split(c)] for a separator of one character. *)
Fixpoint split (c : ascii) (s : string) : list string :=
  match s with
  | "" => [""]
  | String a s' =>
      if Ascii.eqb a c then "" :: split c s'
      else match split c s' with
           | h :: t => String a h :: t
           | [] => [String a ""]
           end
  end.

Definition is_upper (a : ascii) : bool :=
  let n := Ascii.nat_of_ascii a in (65 <=? n)%nat && (n <=? 90)%nat.
Definition is_lower (a : ascii) : bool :=
  let n := Ascii.nat_of_ascii a in (97 <=? n)%nat && (n <=? 122)%nat.

Definition lower_char (a : ascii) : ascii :=
  if is_upper a then Ascii.ascii_of_nat (Ascii.nat_of_ascii a + 32) else a.
Definition upper_char (a : ascii) : ascii :=
  if is_lower a then Ascii.ascii_of_nat (Ascii.nat_of_ascii a - 32) else a.

Fixpoint map_chars (f : ascii -> ascii) (s : string) : string :=
  match s with
  | "" => ""
  | String a s' => String (f a) (map_chars f s')
  end.

(** [s.lower()] and [s.upper()], on the ASCII letters; a letter outside
    ASCII keeps its case.  The wizard lower-cases an answer to compare
    it with "y", "yes", "n" and "no", and the text of [/etc/os-release]
    to look for "ubuntu", "debian", "centos" and "rhel"; the one
    character outside ASCII that Python lower-cases to an ASCII letter
    is the Kelvin sign, to "k", which is in none of these words (U+0130
    gives "i" with a combining dot after it, which is in none either),
    so these tests come out as Python's.  It upper-cases the names of
    the components for the messages only. *)
Definition lower : string -> string := map_chars lower_char.
Definition upper : string -> string := map_chars upper_char.

(** White space, as [str.strip] and [str.isspace] take it.  In ASCII:
    tab, line feed, vertical tab, form feed, carriage return, the four
    separators 28 to 31 and the blank. *)
Definition is_space (a : ascii) : bool :=
  let n := Ascii.nat_of_ascii a in
  ((9 <=? n)%nat && (n <=? 13)%nat) || ((28 <=? n)%nat && (n <=? 32)%nat).

(** Outside ASCII, by the bytes of the UTF-8 encoding: U+0085 and U+00A0
    (two bytes, 194 133 and 194 160); U+1680 (225 154 128), U+2000 to
    U+200A (226 128 128 to 226 128 138), U+2028, U+2029 and U+202F
    (226 128 168, 169 and 175), U+205F (226 129 159) and U+3000
    (227 128 128). *)
Definition is_space2 (a b : ascii) : bool :=
  (Ascii.nat_of_ascii a =? 194)%nat
  && ((Ascii.nat_of_ascii b =? 133)%nat || (Ascii.nat_of_ascii b =? 160)%nat).

Definition is_space3 (a b c : ascii) : bool :=
  let x := Ascii.nat_of_ascii a in
  let y := Ascii.nat_of_ascii b in
  let z := Ascii.nat_of_ascii c in
  ((x =? 225)%nat && (y =? 154)%nat && (z =? 128)%nat)
  || ((x =? 226)%nat && (y =? 128)%nat
      && (((128 <=? z)%nat && (z <=? 138)%nat)
          || (z =? 168)%nat || (z =? 169)%nat || (z =? 175)%nat))
  || ((x =? 226)%nat && (y =? 129)%nat && (z =? 159)%nat)
  || ((x =? 227)%nat && (y =? 128)%nat && (z =? 128)%nat).

(** [s.lstrip()]: the white space characters at the head go, of one, two
    or three bytes. *)
Fixpoint lstrip (s : string) : string :=
  match s with
  | "" => ""
  | String a s1 =>
      if is_space a then lstrip s1
      else match s1 with
           | String b s2 =>
               if is_space2 a b then lstrip s2
               else match s2 with
                    | String c s3 => if is_space3 a b c then lstrip s3 else s
                    | "" => s
                    end
           | "" => s
           end
  end.

(** [s.rstrip()]: the text is cut where what follows is white space
    only.  In UTF-8 a character starts at a byte that no character has
    inside, so the cut falls between two characters. *)
Fixpoint rstrip (s : string) : string :=
  match s with
  | "" => ""
  | String a s' =>
      if String.eqb (lstrip s) "" then "" else String a (rstrip s')
  end.

Definition strip (s : string) : string := rstrip (lstrip s).

(** [sep.join(l)]. *)
Fixpoint join (sep : string) (l : list string) : string :=
  match l with
  | [] => ""
  | [x] => x
  | x :: rest => x +:+ sep +:+ join sep rest
  end.

(** [s * n]. *)
Fixpoint repeat (s : string) (n : nat) : string :=
  match n with
  | O => ""
  | S n' => s +:+ repeat s n'
  end.

Definition of_N (n : N) : string := NilZero.string_of_uint (N.to_uint n).

(** [repr(s)] for a string: single quotes unless the text holds a
    single quote and no double quote; the backslash, the chosen quote
    and the control characters are escaped. *)
Definition hex_digit (n : nat) : string :=
  chr (if (n <? 10)%nat then 48 + n else 87 + n).

Definition repr_char (quote : ascii) (a : ascii) : string :=
  let n := Ascii.nat_of_ascii a in
  if Ascii.eqb a quote then bs +:+ String a ""
  else if (n =? 92)%nat then bs +:+ bs
  else if (n =? 10)%nat then bs +:+ "n"
  else if (n =? 13)%nat then bs +:+ "r"
  else if (n =? 9)%nat then bs +:+ "t"
  else if (n <? 32)%nat || (n =? 127)%nat
       then bs +:+ "x" +:+ hex_digit (n / 16) +:+ hex_digit (n mod 16)
  else String a "".

Fixpoint repr_body (quote : ascii) (s : string) : string :=
  match s with
  | "" => ""
  | String a s' => repr_char quote a +:+ repr_body quote s'
  end.

Definition repr (s : string) : string :=
  if contains "'" s && negb (contains dq s)
  then dq +:+ repr_body (Ascii.ascii_of_nat 34) s +:+ dq
  else "'" +:+ repr_body "'"%char s +:+ "'".

(** Two readings of a string around a separator, used to state what
    [split] returns: the text after the first occurrence of [c] and the
    text before it; the text after the last occurrence. *)
Fixpoint after_first (c : ascii) (s : string) : string :=
  match s with
  | "" => ""
  | String a s' => if Ascii.eqb a c then s' else after_first c s'
  end.

Fixpoint before_first (c : ascii) (s : string) : string :=
  match s with
  | "" => ""
  | String a s' => if Ascii.eqb a c then "" else String a (before_first c s')
  end.

Fixpoint after_last (c : ascii) (s : string) : string :=
  match s with
  | "" => ""
  | String a s' =>
      if contains (String c "") s' then after_last c s'
      else if Ascii.eqb a c then s' else s
  end.

Fixpoint count (c : ascii) (s : string) : nat :=
  match s with
  | "" => 0
  | String a s' => (if Ascii.eqb a c then 1 else 0) + count c s'
  end.

End Str.

(** ** Python values and exceptions *)

(** The values [self.config] can hold: what the questionnaire stores
    (strings, lists, dictionaries) and [None], which [yaml.safe_load]
    returns for an empty document. *)
Inductive pyval :=
| PNone
| PStr (s : string)
| PList (l : list pyval)
| PDict (d : list (string * pyval)).

Inductive exn :=
| KeyError (key : string)
| TypeError (msg : string)
| AttributeError (msg : string)
| IndexError (msg : string)
| EOFError
| FileNotFoundError (path : string)
| YAMLError (msg : string)
| CalledProcessError (cmd : string) (returncode : N) (stderr : string)
| KeyboardInterrupt
| SystemExit (code : N).

(** [except Exception] catches every exception but the two that derive
    from [BaseException] only. *)
Definition is_Exception (e : exn) : bool :=
  match e with
  | KeyboardInterrupt | SystemExit _ => false
  | _ => true
  end.

Definition is_CalledProcessError (e : exn) : bool :=
  match e with
  | CalledProcessError _ _ _ => true
  | _ => false
  end.

Definition is_KeyboardInterrupt (e : exn) : bool :=
  match e with
  | KeyboardInterrupt => true
  | _ => false
  end.

(** [str(e)], as the f-strings of the wizard print it. *)
Definition str_exn (e : exn) : string :=
  match e with
  | KeyError k => Str.repr k
  | TypeError m | AttributeError m | IndexError m | YAMLError m => m
  | EOFError => "EOF when reading a line"
  | FileNotFoundError p => "[Errno 2] No such file or directory: " +:+ Str.repr p
  | CalledProcessError c rc _ =>
      "Command '" +:+ c +:+ "' returned non-zero exit status " +:+ Str.of_N rc +:+ "."
  | KeyboardInterrupt => ""
  | SystemExit c => Str.of_N c
  end.

(** The outcome of a computation: a value, an exception, or no answer
    within the fuel of a loop. *)
Inductive result (A : Type) :=
| Ret (a : A)
| Raise (e : exn)
| Timeout.
Arguments Ret {A} a.
Arguments Raise {A} e.
Arguments Timeout {A}.

Module Py.

Definition type_name (v : pyval) : string :=
  match v with
  | PNone => "NoneType"
  | PStr _ => "str"
  | PList _ => "list"
  | PDict _ => "dict"
  end.

(** Dictionaries: [d[k]] on a present key, and [d[k] = v], which keeps
    the place of a key already present and appends a new one. *)
Fixpoint dict_get (d : list (string * pyval)) (k : string) : option pyval :=
  match d with
  | [] => None
  | (k', v) :: d' => if String.eqb k' k then Some v else dict_get d' k
  end.

Fixpoint dict_set (d : list (string * pyval)) (k : string) (v : pyval)
  : list (string * pyval) :=
  match d with
  | [] => [(k, v)]
  | (k', v') :: d' =>
      if String.eqb k' k then (k', v) :: d' else (k', v') :: dict_set d' k v
  end.

(** The entry of [v] under [k], when [v] is a dictionary that has one. *)
Definition lookup (v : pyval) (k : string) : option pyval :=
  match v with
  | PDict d => dict_get d k
  | _ => None
  end.

(** [v[k]] for a string [k]. *)
Definition getitem (v : pyval) (k : string) : result pyval :=
  match v with
  | PDict d =>
      match dict_get d k with
      | Some x => Ret x
      | None => Raise (KeyError k)
      end
  | PStr _ => Raise (TypeError "string indices must be integers, not 'str'")
  | PList _ => Raise (TypeError "list indices must be integers or slices, not str")
  | PNone => Raise (TypeError "'NoneType' object is not subscriptable")
  end.

(** [v[k] = x] for a string [k]. *)
Definition setitem (v : pyval) (k : string) (x : pyval) : result pyval :=
  match v with
  | PDict d => Ret (PDict (dict_set d k x))
  | PList _ => Raise (TypeError "list indices must be integers or slices, not str")
  | _ => Raise (TypeError ("'" +:+ type_name v +:+ "' object does not support item assignment"))
  end.

(** [v.get(k, default)]. *)
Definition get (v : pyval) (k : string) (dflt : pyval) : result pyval :=
  match v with
  | PDict d => Ret (default dflt (dict_get d k))
  | _ => Raise (AttributeError ("'" +:+ type_name v +:+ "' object has no attribute 'get'"))
  end.

Definition is_str (s : string) (v : pyval) : bool :=
  match v with
  | PStr s' => String.eqb s' s
  | _ => false
  end.

(** [s in v] for a string [s]. *)
Definition contains (s : string) (v : pyval) : result bool :=
  match v with
  | PDict d => Ret (bool_decide (is_Some (dict_get d s)))
  | PList l => Ret (existsb (is_str s) l)
  | PStr t => Ret (Str.contains s t)
  | PNone => Raise (TypeError "argument of type 'NoneType' is not iterable")
  end.

Fixpoint chars (s : string) : list pyval :=
  match s with
  | "" => []
  | String a s' => PStr (String a "") :: chars s'
  end.

(** The items [for x in v] runs through. *)
Definition iter (v : pyval) : result (list pyval) :=
  match v with
  | PList l => Ret l
  | PStr s => Ret (chars s)
  | PDict d => Ret (map (fun kv => PStr kv.1) d)
  | PNone => Raise (TypeError "'NoneType' object is not iterable")
  end.

(** [v.upper()] and [v.append(x)]. *)
Definition upper (v : pyval) : result string :=
  match v with
  | PStr s => Ret (Str.upper s)
  | _ => Raise (AttributeError ("'" +:+ type_name v +:+ "' object has no attribute 'upper'"))
  end.

Definition append (v : pyval) (x : pyval) : result pyval :=
  match v with
  | PList l => Ret (PList (l ++ [x]))
  | _ => Raise (AttributeError ("'" +:+ type_name v +:+ "' object has no attribute 'append'"))
  end.

(** [repr(v)] and [str(v)]; an f-string field [{v}] prints [str(v)]. *)
Fixpoint repr (v : pyval) : string :=
  match v with
  | PNone => "None"
  | PStr s => Str.repr s
  | PList l => "[" +:+ Str.join ", " (map repr l) +:+ "]"
  | PDict d =>
      "{" +:+ Str.join ", " (map (fun kv => Str.repr kv.1 +:+ ": " +:+ repr kv.2) d) +:+ "}"
  end.

Definition str (v : pyval) : string :=
  match v with
  | PStr s => s
  | _ => repr v
  end.

(** A value handed to a function that works on [str]. *)
Definition as_str (v : pyval) : result string :=
  match v with
  | PStr s => Ret s
  | _ => Raise (TypeError ("expected str, got " +:+ type_name v))
  end.

End Py.

(** ** The world and the environment *)

(** What the operator does at a prompt: types a line, or interrupts. *)
Inductive event :=
| Line (s : string)
| CtrlC.

Inductive level := INFO | ERROR.

Record world := World {
  config : pyval;                  (* self.config *)
  stdin : list event;              (* the operator's pending answers *)
  files : gmap string string;      (* regular files: path to content *)
  dirs : gset string;              (* directories that exist *)
  cmds : list string;              (* commands handed to subprocess.run *)
  logged : list (level * string);  (* records of the logger: they go to
                                      magma_deploy.log and, by the stream
                                      handler, to standard error *)
  out : list string                (* what print and input wrote to
                                      standard output *)
}.

Definition set_config (c : pyval) (w : world) : world :=
  World c (stdin w) (files w) (dirs w) (cmds w) (logged w) (out w).
Definition set_stdin (i : list event) (w : world) : world :=
  World (config w) i (files w) (dirs w) (cmds w) (logged w) (out w).
Definition set_files (f : gmap string string) (w : world) : world :=
  World (config w) (stdin w) f (dirs w) (cmds w) (logged w) (out w).
Definition set_dirs (d : gset string) (w : world) : world :=
  World (config w) (stdin w) (files w) d (cmds w) (logged w) (out w).
Definition set_cmds (c : list string) (w : world) : world :=
  World (config w) (stdin w) (files w) (dirs w) c (logged w) (out w).
Definition set_logged (l : list (level * string)) (w : world) : world :=
  World (config w) (stdin w) (files w) (dirs w) (cmds w) l (out w).
Definition set_out (o : list string) (w : world) : world :=
  World (config w) (stdin w) (files w) (dirs w) (cmds w) (logged w) o.

(** How a command handed to the shell ends: it completes with an exit
    status and its captured output, or the operator interrupts it.  These
    are the outcomes the wizard tells apart.  A [subprocess.run] that
    fails in another way (no shell to start, output that is not text) and
    the negative status of a command that a signal ended are not among
    them: the theorems speak of commands that end in one of these two
    ways. *)
Inductive run_result :=
| Completed (returncode : N) (stdout stderr : string)
| Interrupted.

Record env := Env {
  (* Path(__file__).parent *)
  deployment_dir : string;
  (* the system behind subprocess.run(command, shell=True, ...) *)
  sh : world -> string -> run_result;
  (* ipaddress.ip_address(ip) returns rather than raising ValueError *)
  ip_address : string -> bool;
  (* yaml.dump and yaml.safe_load; the latter fails with a message *)
  yaml_dump : pyval -> string;
  yaml_safe_load : string -> string + pyval
}.

Record CompletedProcess := Proc {
  returncode : N;
  stdout : string;
  stderr : string
}.

(** ** Computations *)

Definition M (A : Type) : Type := world -> result A * world.

Global Instance M_ret : MRet M := fun A a w => (Ret a, w).

Global Instance M_bind : MBind M := fun A B k m w =>
  match m w with
  | (Ret a, w') => k a w'
  | (Raise e, w') => (Raise e, w')
  | (Timeout, w') => (Timeout, w')
  end.

Definition raise {A} (e : exn) : M A := fun w => (Raise e, w).

Definition lift {A} (r : result A) : M A := fun w => (r, w).

(** [try: m  except <class> as e: h e], where [catch] tells the class. *)
Definition try_except {A} (m : M A) (catch : exn -> bool) (h : exn -> M A) : M A :=
  fun w =>
    match m w with
    | (Raise e, w') => if catch e then h e w' else (Raise e, w')
    | r => r
    end.

(** A loop whose body says [Some a] to leave with [a] and [None] to go
    round again. *)
Fixpoint loop {A} (fuel : nat) (body : M (option A)) : M A :=
  match fuel with
  | O => fun w => (Timeout, w)
  | S n =>
      r ← body;
      match r with
      | Some a => mret a
      | None => loop n body
      end
  end.

(** [while True: body], with the fuel the pending answers allow. *)
Definition while_true {A} (body : M (option A)) : M A :=
  fun w => loop (S (length (stdin w))) body w.

(** [while cond: body]. *)
Definition while_ (cond : M bool) (body : M unit) : M unit :=
  while_true (c ← cond; if c : bool then body;; mret None else mret (Some tt)).

(** [not c]. *)
Definition not_ (c : M bool) : M bool := b ← c; mret (negb b).

(** [for x in l: body x]. *)
Fixpoint for_ {A} (l : list A) (body : A -> M unit) : M unit :=
  match l with
  | [] => mret tt
  | x :: l' => body x;; for_ l' body
  end.

(** ** Primitive effects *)

Definition print (s : string) : M unit :=
  fun w => (Ret tt, set_out (out w ++ [s]) w).

(** [input(prompt)]: the prompt goes to the terminal and the next answer
    is taken; with no answer left the call raises [EOFError]. *)
Definition input (prompt : string) : M string :=
  fun w =>
    let w' := set_out (out w ++ [prompt]) w in
    match stdin w with
    | [] => (Raise EOFError, w')
    | Line s :: rest => (Ret s, set_stdin rest w')
    | CtrlC :: rest => (Raise KeyboardInterrupt, set_stdin rest w')
    end.

(** [getpass.getpass(prompt)]: the same channel as [input], without echo. *)
Definition getpass (prompt : string) : M string := input prompt.

Definition logger (l : level) (msg : string) : M unit :=
  fun w => (Ret tt, set_logged (logged w ++ [(l, msg)]) w).

Definition get_config : M pyval := fun w => (Ret (config w), w).
Definition put_config (c : pyval) : M unit := fun w => (Ret tt, set_config c w).

(** [with open(path, 'w') as f: f.write(content)]. *)
Definition write_file (path content : string) : M unit :=
  fun w => (Ret tt, set_files (<[path := content]> (files w)) w).

(** [with open(path, 'r') as f: ... f.read()]. *)
Definition read_file (path : string) : M string :=
  fun w =>
    match files w !! path with
    | Some content => (Ret content, w)
    | None => (Raise (FileNotFoundError path), w)
    end.

(** [path.mkdir(exist_ok=True)]. *)
Definition mkdir (path : string) : M unit :=
  fun w => (Ret tt, set_dirs ({[path]} ∪ dirs w) w).

Definition sys_exit {A} (code : N) : M A := raise (SystemExit code).

(** [subprocess.run(command, shell=True, check=check, capture_output=True,
    text=True)]. *)
Definition subprocess_run (E : env) (command : string) (check : bool)
  : M CompletedProcess :=
  fun w =>
    let w' := set_cmds (cmds w ++ [command]) w in
    match sh E w command with
    | Interrupted => (Raise KeyboardInterrupt, w')
    | Completed rc so se =>
        if check && negb (N.eqb rc 0)
        then (Raise (CalledProcessError command rc se), w')
        else (Ret (Proc rc so se), w')
    end.

(** [self.config[k]], [self.config[k1][k2]] and the two assignments. *)
Definition cfg (k : string) : M pyval :=
  c ← get_config; lift (Py.getitem c k).

Definition cfg2 (k1 k2 : string) : M pyval :=
  d ← cfg k1; lift (Py.getitem d k2).

Definition set_cfg (k : string) (v : pyval) : M unit :=
  c ← get_config; c' ← lift (Py.setitem c k v); put_config c'.

Definition set_cfg2 (k1 k2 : string) (v : pyval) : M unit :=
  d ← cfg k1; d' ← lift (Py.setitem d k2 v); set_cfg k1 d'.

(** [s in self.config[k]]. *)
Definition in_cfg (s k : string) : M bool :=
  v ← cfg k; lift (Py.contains s v).

(** Paths: [a / b]. *)
Definition path_join (a b : string) : string := a +:+ "/" +:+ b.
Definition config_dir (E : env) : string := path_join (deployment_dir E) "config".
Definition scripts_dir (E : env) : string := path_join (deployment_dir E) "scripts".
Definition templates_dir (E : env) : string := path_join (deployment_dir E) "templates".

(** ** The icons of the messages, byte for byte as the source has them *)

Module Icon.
Definition target := Str.bytes [195; 176; 197; 184; 197; 189; 194; 175].
Definition antenna := Str.bytes [195; 176; 197; 184; 226; 128; 156; 194; 161].
Definition globe := Str.bytes [195; 176; 197; 184; 197; 146].
Definition link := Str.bytes [195; 176; 197; 184; 226; 128; 157; 226; 128; 148].
Definition laptop := Str.bytes [195; 176; 197; 184; 226; 128; 153; 194; 187].
Definition glass := Str.bytes [195; 176; 197; 184; 226; 128; 157].
Definition check := Str.bytes [195; 162; 197; 147; 226; 128; 166].
Definition cross := Str.bytes [195; 162; 197; 146].
Definition warning := Str.bytes [195; 162; 197; 161; 194; 160; 195; 175; 194; 184].
Definition package := Str.bytes [195; 176; 197; 184; 226; 128; 156; 194; 166].
Definition clipboard := Str.bytes [195; 176; 197; 184; 226; 128; 156; 226; 128; 185].
Definition crane := Str.bytes [195; 176; 197; 184; 226; 128; 148; 195; 175; 194; 184].
Definition rocket := Str.bytes [195; 176; 197; 184; 197; 161; 226; 130; 172].
Definition party := Str.bytes [195; 176; 197; 184; 197; 189; 226; 128; 176].
Definition folder := Str.bytes [195; 176; 197; 184; 226; 128; 156].
End Icon.

(** [for x in l] with a local variable the body updates. *)
Fixpoint for_fold {A S} (l : list A) (s : S) (body : S -> A -> M S) : M S :=
  match l with
  | [] => mret s
  | x :: l' => s' ← body s x; for_fold l' s' body
  end.

(** [for x in l] whose body may [return]: [Some r] is the value returned
    from inside the loop, [None] says the loop ran to its end. *)
Fixpoint for_return {A R} (l : list A) (body : A -> M (option R)) : M (option R) :=
  match l with
  | [] => mret None
  | x :: l' =>
      r ← body x;
      match r with
      | Some v => mret (Some v)
      | None => for_return l' body
      end
  end.

(** ** class MagmaDeployment: input and validation *)

(** [__init__]. *)
Definition init (E : env) : M unit :=
  put_config (PDict []);;
  mkdir (config_dir E);;
  mkdir (scripts_dir E);;
  mkdir (templates_dir E).

Definition confirm_action (message : string) : M bool :=
  while_true (
    answer ← input (message +:+ " [y/N]: ");
    let response := Str.strip (Str.lower answer) in
    if bool_decide (response ∈ ["y"; "yes"]) then mret (Some true)
    else if bool_decide (response ∈ ["n"; "no"; ""]) then mret (Some false)
    else print "Please enter 'y' for yes or 'n' for no.";; mret None).

(** A string is true when it is not empty; [None] is false. *)
Definition truthy (s : option string) : bool :=
  match s with
  | Some s => negb (String.eqb s "")
  | None => false
  end.

Definition get_user_input (prompt : string) (dflt : option string) (required : bool)
  : M string :=
  let full_prompt :=
    if truthy dflt then prompt +:+ " [" +:+ default "" dflt +:+ "]: "
    else prompt +:+ ": " in
  while_true (
    answer ← input full_prompt;
    let response := Str.strip answer in
    if truthy (Some response) then mret (Some response)
    else if truthy dflt then mret (Some (default "" dflt))
    else if negb required then mret (Some "")
    else print "This field is required. Please enter a value.";; mret None).

Definition get_password (prompt : string) : M string :=
  getpass (prompt +:+ ": ").

Definition validate_ip_address (E : env) (ip : string) : bool :=
  ip_address E ip.

(** ["@" in email and "." in email.split("@")[1]]. *)
Definition validate_email (email : string) : result bool :=
  if Str.contains "@" email then
    match Str.split "@" email !! 1%nat with
    | Some domain => Ret (Str.contains "." domain)
    | None => Raise (IndexError "list index out of range")
    end
  else Ret false.

(** ** Running commands *)

Definition run_command (E : env) (command : string) (check : bool)
  : M CompletedProcess :=
  logger INFO ("Executing command: " +:+ command);;
  try_except
    (res ← subprocess_run E command check;
     (if truthy (Some (stdout res))
      then logger INFO ("Command output: " +:+ stdout res)
      else mret tt);;
     mret res)
    is_CalledProcessError
    (fun e =>
       logger ERROR ("Command failed: " +:+ str_exn e);;
       logger ERROR ("Error output: " +:+
                     match e with CalledProcessError _ _ se => se | _ => "" end);;
       raise e).

(** ** Prerequisites *)

Definition install_docker (E : env) (package_manager : string) : M unit :=
  let commands :=
    if String.eqb package_manager "apt" then
      [ "sudo apt-get update";
        "sudo apt-get install -y apt-transport-https ca-certificates curl gnupg lsb-release";
        "curl -fsSL https://download.docker.com/linux/ubuntu/gpg | sudo gpg --dearmor -o /usr/share/keyrings/docker-archive-keyring.gpg";
        "echo " +:+ Str.dq +:+ "deb [arch=amd64 signed-by=/usr/share/keyrings/docker-archive-keyring.gpg] https://download.docker.com/linux/ubuntu $(lsb_release -cs) stable" +:+ Str.dq +:+ " | sudo tee /etc/apt/sources.list.d/docker.list > /dev/null";
        "sudo apt-get update";
        "sudo apt-get install -y docker-ce docker-ce-cli containerd.io" ]
    else
      [ "sudo yum install -y yum-utils";
        "sudo yum-config-manager --add-repo https://download.docker.com/linux/centos/docker-ce.repo";
        "sudo yum install -y docker-ce docker-ce-cli containerd.io" ] in
  for_ commands (fun c => run_command E c true;; mret tt);;
  run_command E "sudo systemctl start docker" true;;
  run_command E "sudo systemctl enable docker" true;;
  who ← run_command E "whoami" true;
  let username := Str.strip (stdout who) in
  run_command E ("sudo usermod -aG docker " +:+ username) true;;
  print (Icon.warning +:+ "  Please log out and log back in to use Docker without sudo").

Definition install_docker_compose (E : env) : M unit :=
  run_command E ("sudo curl -L " +:+ Str.dq +:+ "https://github.com/docker/compose/releases/download/1.29.2/docker-compose-$(uname -s)-$(uname -m)" +:+ Str.dq +:+ " -o /usr/local/bin/docker-compose") true;;
  run_command E "sudo chmod +x /usr/local/bin/docker-compose" true;;
  mret tt.

Definition install_kubectl (E : env) : M unit :=
  let commands :=
    [ "curl -LO " +:+ Str.dq +:+ "https://dl.k8s.io/release/$(curl -L -s https://dl.k8s.io/release/stable.txt)/bin/linux/amd64/kubectl" +:+ Str.dq;
      "sudo install -o root -g root -m 0755 kubectl /usr/local/bin/kubectl" ] in
  for_ commands (fun c => run_command E c true;; mret tt).

Definition install_helm (E : env) : M unit :=
  let commands :=
    [ "curl https://raw.githubusercontent.com/helm/helm/main/scripts/get-helm-3 | bash" ] in
  for_ commands (fun c => run_command E c true;; mret tt).

Definition install_prerequisites (E : env) (missing_deps : list string) : M bool :=
  print (Str.nl +:+ Icon.package +:+ " Installing prerequisites...");;
  (* Detect OS: [inl] is the package manager, [inr] a value returned early *)
  detected ← try_except
    (res ← run_command E "cat /etc/os-release" true;
     let os_release := stdout res in
     if Str.contains "ubuntu" (Str.lower os_release)
        || Str.contains "debian" (Str.lower os_release)
     then mret (inl "apt")
     else if Str.contains "centos" (Str.lower os_release)
             || Str.contains "rhel" (Str.lower os_release)
     then mret (inl "yum")
     else print "Unsupported OS. Please install prerequisites manually.";;
          mret (inr false))
    (fun _ => true)
    (fun _ =>
       print "Could not detect OS. Please install prerequisites manually.";;
       mret (inr false));
  match detected with
  | inr b => mret b
  | inl package_manager =>
      (* Install packages *)
      r ← for_return missing_deps (fun dep =>
        try_except
          ((if String.eqb dep "docker" then install_docker E package_manager
            else if String.eqb dep "docker-compose" then install_docker_compose E
            else if String.eqb dep "kubectl" then install_kubectl E
            else if String.eqb dep "helm" then install_helm E
            else if String.eqb dep "git" then
              (if String.eqb package_manager "apt"
               then run_command E "sudo apt-get update && sudo apt-get install -y git" true
               else run_command E "sudo yum install -y git" true);;
              mret tt
            else mret tt);;
           mret None)
          is_Exception
          (fun e =>
             logger ERROR ("Failed to install " +:+ dep +:+ ": " +:+ str_exn e);;
             mret (Some false)));
      mret (default true r)
  end.

Definition prerequisites : list (string * string) :=
  [ ("docker", "Docker is required for container deployment");
    ("docker-compose", "Docker Compose is required for multi-container deployment");
    ("kubectl", "Kubernetes CLI is required for orchestrator deployment");
    ("helm", "Helm is required for Kubernetes deployments");
    ("git", "Git is required for cloning repositories") ].

Definition check_prerequisites (E : env) : M bool :=
  print (Str.nl +:+ Icon.glass +:+ " Checking prerequisites...");;
  missing_deps ← for_fold prerequisites [] (fun missing_deps '(cmd, description) =>
    try_except
      (res ← run_command E ("which " +:+ cmd) false;
       if N.eqb (returncode res) 0
       then print (Icon.check +:+ " " +:+ cmd +:+ " found");; mret missing_deps
       else print (Icon.cross +:+ " " +:+ cmd +:+ " not found - " +:+ description);;
            mret (missing_deps ++ [cmd]))
      is_Exception
      (fun e =>
         print (Icon.cross +:+ " Error checking " +:+ cmd +:+ ": " +:+ str_exn e);;
         mret (missing_deps ++ [cmd])));
  match missing_deps with
  | _ :: _ =>
      print (Str.nl +:+ Icon.warning +:+ "  Missing dependencies: "
             +:+ Str.join ", " missing_deps);;
      install ← confirm_action "Do you want to install missing dependencies automatically?";
      if install : bool then install_prerequisites E missing_deps
      else print "Please install missing dependencies manually and run the script again.";;
           mret false
  | [] =>
      print (Icon.check +:+ " All prerequisites are available!");;
      mret true
  end.

Definition welcome_message : M unit :=
  print (Str.repeat "=" 60);;
  print (Icon.target +:+ " MAGMA CORE DEPLOYMENT TOOL");;
  print (Str.repeat "=" 60);;
  print (Str.nl +:+ "This tool will guide you through deploying Magma Core components:");;
  print (Icon.antenna +:+ " Orchestrator (ORC8R) - Central management plane");;
  print (Icon.globe +:+ " Access Gateway (AGW) - Radio access network gateway");;
  print (Icon.link +:+ " Federated Gateway (FGW) - Federation with external networks");;
  print (Icon.laptop +:+ " Network Management System (NMS) - Web-based management");;
  print (Str.nl +:+ "Prerequisites:");;
  print "- Docker and Docker Compose installed";;
  print "- Kubernetes cluster (for orchestrator)";;
  print "- Sufficient system resources (8GB+ RAM recommended)";;
  print "- Network connectivity for downloading images";;
  print (Str.repeat "=" 60);;
  go ← confirm_action "Do you want to continue with the deployment?";
  if go : bool then mret tt
  else print "Deployment cancelled.";; sys_exit 0.

(** ** Collecting the configuration *)

(** [self.config[k].append(x)]. *)
Definition append_cfg (k : string) (x : pyval) : M unit :=
  l ← cfg k; l' ← lift (Py.append l x); set_cfg k l'.

Definition collect_orchestrator_config : M unit :=
  print (Str.nl +:+ Icon.crane +:+ "  Orchestrator Configuration");;
  set_cfg "orchestrator" (PDict []);;
  (* Kubernetes configuration *)
  v ← get_user_input "Kubernetes namespace" (Some "magma") true;
  set_cfg2 "orchestrator" "namespace" (PStr v);;
  v ← get_user_input "Storage class" (Some "standard") true;
  set_cfg2 "orchestrator" "storage_class" (PStr v);;
  (* Database configuration *)
  v ← get_user_input "Database host" (Some "postgresql") true;
  set_cfg2 "orchestrator" "db_host" (PStr v);;
  v ← get_user_input "Database port" (Some "5432") true;
  set_cfg2 "orchestrator" "db_port" (PStr v);;
  v ← get_user_input "Database user" (Some "magma") true;
  set_cfg2 "orchestrator" "db_user" (PStr v);;
  v ← get_password "Database password";
  set_cfg2 "orchestrator" "db_password" (PStr v);;
  v ← get_user_input "Database name" (Some "magma") true;
  set_cfg2 "orchestrator" "db_name" (PStr v);;
  (* TLS configuration *)
  v ← get_user_input "TLS certificate path" (Some "/opt/magma/certs/tls.crt") false;
  set_cfg2 "orchestrator" "tls_cert_path" (PStr v);;
  v ← get_user_input "TLS key path" (Some "/opt/magma/certs/tls.key") false;
  set_cfg2 "orchestrator" "tls_key_path" (PStr v).

(** [self.validate_ip_address(self.config[k1][k2])]. *)
Definition ip_ok (E : env) (k1 k2 : string) : M bool :=
  v ← cfg2 k1 k2; s ← lift (Py.as_str v); mret (validate_ip_address E s).

Definition collect_agw_config (E : env) : M unit :=
  print (Str.nl +:+ Icon.antenna +:+ " Access Gateway Configuration");;
  set_cfg "agw" (PDict []);;
  (* Network configuration *)
  v ← get_user_input "Network interface" (Some "eth0") true;
  set_cfg2 "agw" "interface" (PStr v);;
  v ← get_user_input "AGW IP address" None true;
  set_cfg2 "agw" "ip_address" (PStr v);;
  while_ (not_ (ip_ok E "agw" "ip_address"))
    (print "Invalid IP address format.";;
     v ← get_user_input "AGW IP address" None true;
     set_cfg2 "agw" "ip_address" (PStr v));;
  (* LTE configuration *)
  v ← get_user_input "Mobile Country Code (MCC)" (Some "001") true;
  set_cfg2 "agw" "mcc" (PStr v);;
  v ← get_user_input "Mobile Network Code (MNC)" (Some "01") true;
  set_cfg2 "agw" "mnc" (PStr v);;
  v ← get_user_input "Tracking Area Code (TAC)" (Some "1") true;
  set_cfg2 "agw" "tac" (PStr v);;
  (* S1AP configuration *)
  ip ← cfg2 "agw" "ip_address";
  ip ← lift (Py.as_str ip);
  v ← get_user_input "S1AP IP address" (Some ip) true;
  set_cfg2 "agw" "s1ap_ip" (PStr v);;
  v ← get_user_input "S1AP port" (Some "36412") true;
  set_cfg2 "agw" "s1ap_port" (PStr v).

Definition collect_fgw_config : M unit :=
  print (Str.nl +:+ Icon.link +:+ " Federated Gateway Configuration");;
  set_cfg "fgw" (PDict []);;
  (* Federation configuration *)
  v ← get_user_input "Federation ID" (Some "fgw01") true;
  set_cfg2 "fgw" "federation_id" (PStr v);;
  v ← get_user_input "Served network IDs (comma-separated)" (Some "network1,network2") true;
  set_cfg2 "fgw" "served_network_ids" (PList (PStr <$> Str.split "," v));;
  (* Diameter configuration *)
  v ← get_user_input "Diameter host" (Some "fgw.magma.local") true;
  set_cfg2 "fgw" "diameter_host" (PStr v);;
  v ← get_user_input "Diameter realm" (Some "magma.local") true;
  set_cfg2 "fgw" "diameter_realm" (PStr v);;
  v ← get_user_input "Diameter port" (Some "3868") true;
  set_cfg2 "fgw" "diameter_port" (PStr v).

(** [collect_deployment_config], in the four parts its comments name:
    the selection of the components (source lines 270 to 296), the general
    and network configuration (298 to 311), the component-specific
    configuration (313 to 321) and the saving (323 to 328). *)
Definition select_components : M unit :=
  print (Str.nl +:+ Icon.clipboard +:+ " DEPLOYMENT CONFIGURATION");;
  print (Str.repeat "=" 40);;
  (* Deployment type selection *)
  print (Str.nl +:+ "Select components to deploy:");;
  print "1. Full Magma Stack (Orchestrator + AGW + FGW + NMS)";;
  print "2. Orchestrator only";;
  print "3. Access Gateway only";;
  print "4. Federated Gateway only";;
  print "5. Custom selection";;
  choice ← get_user_input "Enter your choice (1-5)" (Some "1") true;
  if String.eqb choice "1" then
    set_cfg "components" (PList [PStr "orchestrator"; PStr "agw"; PStr "fgw"; PStr "nms"])
  else if String.eqb choice "2" then
    set_cfg "components" (PList [PStr "orchestrator"])
  else if String.eqb choice "3" then
    set_cfg "components" (PList [PStr "agw"])
  else if String.eqb choice "4" then
    set_cfg "components" (PList [PStr "fgw"])
  else if String.eqb choice "5" then
    set_cfg "components" (PList []);;
    let components := ["orchestrator"; "agw"; "fgw"; "nms"] in
    for_ components (fun comp =>
      yes ← confirm_action ("Deploy " +:+ Str.upper comp +:+ "?");
      if yes : bool then append_cfg "components" (PStr comp) else mret tt)
  else mret tt.

(** [self.validate_email(self.config["admin_email"])]. *)
Definition email_ok : M bool :=
  v ← cfg "admin_email"; s ← lift (Py.as_str v); lift (validate_email s).

Definition collect_general_config (E : env) : M unit :=
  (* General configuration *)
  v ← get_user_input "Domain name" (Some "magma.local") true;
  set_cfg "domain" (PStr v);;
  v ← get_user_input "Admin email address" None true;
  set_cfg "admin_email" (PStr v);;
  while_ (not_ email_ok)
    (print "Invalid email format.";;
     v ← get_user_input "Admin email address" None true;
     set_cfg "admin_email" (PStr v));;
  (* Network configuration *)
  print (Str.nl +:+ Icon.globe +:+ " Network Configuration");;
  set_cfg "network" (PDict []);;
  v ← get_user_input "External IP address" None true;
  set_cfg2 "network" "external_ip" (PStr v);;
  while_ (not_ (ip_ok E "network" "external_ip"))
    (print "Invalid IP address format.";;
     v ← get_user_input "External IP address" None true;
     set_cfg2 "network" "external_ip" (PStr v)).

Definition collect_component_config (E : env) : M unit :=
  sel ← in_cfg "orchestrator" "components";
  (if sel : bool then collect_orchestrator_config else mret tt);;
  sel ← in_cfg "agw" "components";
  (if sel : bool then collect_agw_config E else mret tt);;
  sel ← in_cfg "fgw" "components";
  (if sel : bool then collect_fgw_config else mret tt).

Definition save_config (E : env) : M unit :=
  let config_file := path_join (config_dir E) "deployment_config.yaml" in
  c ← get_config;
  write_file config_file (yaml_dump E c);;
  print (Str.nl +:+ Icon.check +:+ " Configuration saved to " +:+ config_file).

Definition collect_deployment_config (E : env) : M unit :=
  select_components;;
  collect_general_config E;;
  collect_component_config E;;
  save_config E.

(** ** Script generation *)

(** An f-string is a sequence of literal text and fields.  The fields of
    the script templates are [self.config[k]], [self.config[k1][k2]] and
    [self.config[k1].get(k2, default)]. *)
Inductive piece :=
| Lit (s : string)
| Sub1 (k : string)
| Sub2 (k1 k2 : string)
| Get2 (k1 k2 dflt : string).

Definition Quote : piece := Lit Str.dq.
Definition Bsl : piece := Lit Str.bs.

(** A computation on a [result], for the pure parts. *)
Definition rbind {A B} (r : result A) (k : A -> result B) : result B :=
  match r with
  | Ret a => k a
  | Raise e => Raise e
  | Timeout => Timeout
  end.

Definition eval_piece (c : pyval) (p : piece) : result string :=
  match p with
  | Lit s => Ret s
  | Sub1 k => rbind (Py.getitem c k) (fun v => Ret (Py.str v))
  | Sub2 k1 k2 =>
      rbind (Py.getitem c k1) (fun d =>
      rbind (Py.getitem d k2) (fun v => Ret (Py.str v)))
  | Get2 k1 k2 dflt =>
      rbind (Py.getitem c k1) (fun d =>
      rbind (Py.get d k2 (PStr dflt)) (fun v => Ret (Py.str v)))
  end.

(** The fields are evaluated from left to right; the first that fails
    decides the exception. *)
Fixpoint format (c : pyval) (t : list piece) : result string :=
  match t with
  | [] => Ret ""
  | p :: t' =>
      rbind (eval_piece c p) (fun s =>
      rbind (format c t') (fun rest => Ret (s +:+ rest)))
  end.

(** A template is written line by line; every line ends in a line feed. *)
Definition pieces (lines : list (list piece)) : list piece :=
  concat ((fun l => l ++ [Lit Str.nl]) <$> lines).

Definition orchestrator_template : list (list piece) :=
  [ [Lit "#!/bin/bash"];
    [Lit "set -e"];
    [];
    [Lit "echo "; Quote; Lit Icon.crane; Lit "  Deploying Magma Orchestrator..."; Quote];
    [];
    [Lit "# Add Magma Helm repository"];
    [Lit "helm repo add magma https://magma.github.io/magma/helm-charts"];
    [Lit "helm repo update"];
    [];
    [Lit "# Create TLS certificates if not provided"];
    [Lit "if [[ ! -f "; Quote; Get2 "orchestrator" "tls_cert_path" "/opt/magma/certs/tls.crt"; Quote; Lit " ]]; then"];
    [Lit "    echo "; Quote; Lit "Generating TLS certificates..."; Quote];
    [Lit "    mkdir -p /opt/magma/certs"];
    [Lit "    openssl req -x509 -newkey rsa:4096 -keyout /opt/magma/certs/tls.key -out /opt/magma/certs/tls.crt -days 365 -nodes -subj "; Quote; Lit "/CN="; Sub1 "domain"; Quote];
    [Lit "fi"];
    [];
    [Lit "# Deploy PostgreSQL"];
    [Lit "helm upgrade --install postgresql oci://registry-1.docker.io/bitnamicharts/postgresql "; Bsl];
    [Lit "    --namespace "; Sub2 "orchestrator" "namespace"; Lit " "; Bsl];
    [Lit "    --set auth.postgresPassword="; Sub2 "orchestrator" "db_password"; Lit " "; Bsl];
    [Lit "    --set auth.database="; Sub2 "orchestrator" "db_name"; Lit " "; Bsl];
    [Lit "    --set auth.username="; Sub2 "orchestrator" "db_user"; Lit " "; Bsl];
    [Lit "    --set primary.persistence.storageClass="; Sub2 "orchestrator" "storage_class"];
    [];
    [Lit "# Wait for PostgreSQL to be ready"];
    [Lit "kubectl wait --for=condition=ready pod -l app.kubernetes.io/name=postgresql -n "; Sub2 "orchestrator" "namespace"; Lit " --timeout=300s"];
    [];
    [Lit "# Deploy Orchestrator"];
    [Lit "helm upgrade --install orc8r magma/orc8r "; Bsl];
    [Lit "    --namespace "; Sub2 "orchestrator" "namespace"; Lit " "; Bsl];
    [Lit "    --set global.domain="; Sub1 "domain"; Lit " "; Bsl];
    [Lit "    --set postgresql.host="; Sub2 "orchestrator" "db_host"; Lit " "; Bsl];
    [Lit "    --set postgresql.port="; Sub2 "orchestrator" "db_port"; Lit " "; Bsl];
    [Lit "    --set postgresql.user="; Sub2 "orchestrator" "db_user"; Lit " "; Bsl];
    [Lit "    --set postgresql.password="; Sub2 "orchestrator" "db_password"; Lit " "; Bsl];
    [Lit "    --set postgresql.database="; Sub2 "orchestrator" "db_name"; Lit " "; Bsl];
    [Lit "    --set-file tls.crt="; Get2 "orchestrator" "tls_cert_path" "/opt/magma/certs/tls.crt"; Lit " "; Bsl];
    [Lit "    --set-file tls.key="; Get2 "orchestrator" "tls_key_path" "/opt/magma/certs/tls.key"];
    [];
    [Lit "echo "; Quote; Lit Icon.check; Lit " Orchestrator deployment completed"; Quote] ].

Definition agw_template : list (list piece) :=
  [ [Lit "#!/bin/bash"];
    [Lit "set -e"];
    [];
    [Lit "echo "; Quote; Lit Icon.antenna; Lit " Deploying Access Gateway..."; Quote];
    [];
    [Lit "# Clone Magma repository"];
    [Lit "if [[ ! -d "; Quote; Lit "magma"; Quote; Lit " ]]; then"];
    [Lit "    git clone https://github.com/magma/magma.git"];
    [Lit "fi"];
    [];
    [Lit "cd magma"];
    [];
    [Lit "# Build AGW"];
    [Lit "cd lte/gateway"];
    [Lit "make build"];
    [];
    [Lit "# Configure AGW"];
    [Lit "mkdir -p /etc/magma"];
    [Lit "cat > /etc/magma/gateway.mconfig << EOF"];
    [Lit "---"];
    [Lit "magmad_config:"];
    [Lit "  checkin_interval: 60"];
    [Lit "  checkin_timeout: 30"];
    [Lit "  autoupgrade_enabled: false"];
    [Lit "  autoupgrade_poll_interval: 300"];
    [Lit "  package_version: "; Quote; Lit "0.0.0-0"; Quote];
    [Lit "  images: []"];
    [Lit "  tier: "; Quote; Lit "default"; Quote];
    [Lit "  feature_flags: {}"];
    [Lit "  dynamic_services: []"];
    [];
    [Lit "mconfig:"];
    [Lit "  mobility_config:"];
    [Lit "    ip_pool: "; Quote; Lit "192.168.128.0/24"; Quote];
    [Lit "    static_ip_enabled: false"];
    [Lit "    multi_apn_ip_alloc: false"];
    [Lit "    nat_enabled: true"];
    [Lit "    enable_static_ip_assignments: false"];
    [Lit "    "];
    [Lit "  mme_config:"];
    [Lit "    mcc: "; Quote; Sub2 "agw" "mcc"; Quote];
    [Lit "    mnc: "; Quote; Sub2 "agw" "mnc"; Quote];
    [Lit "    tac: "; Sub2 "agw" "tac"];
    [Lit "    mme_code: 1"];
    [Lit "    mme_gid: 1"];
    [Lit "    enable_dns_caching: false"];
    [Lit "    non_eps_service_control: 0"];
    [Lit "    csfb_mcc: "; Quote; Sub2 "agw" "mcc"; Quote];
    [Lit "    csfb_mnc: "; Quote; Sub2 "agw" "mnc"; Quote];
    [Lit "    lac: 1"];
    [Lit "    s1ap_ip: "; Quote; Sub2 "agw" "s1ap_ip"; Quote];
    [Lit "    s1ap_port: "; Sub2 "agw" "s1ap_port"];
    [Lit "    "];
    [Lit "  spgw_config:"];
    [Lit "    enable_nat: true"];
    [Lit "    gtpu_endpoint: "; Quote; Sub2 "agw" "ip_address"; Quote];
    [Lit "    "];
    [Lit "  enodebd_config:"];
    [Lit "    earfcndl: 44490"];
    [Lit "    subframe_assignment: 2"];
    [Lit "    special_subframe_pattern: 7"];
    [Lit "    pci: 260"];
    [Lit "    plmn_ids:"];
    [Lit "      - mcc: "; Quote; Sub2 "agw" "mcc"; Quote];
    [Lit "        mnc: "; Quote; Sub2 "agw" "mnc"; Quote];
    [Lit "EOF"];
    [];
    [Lit "# Start AGW services"];
    [Lit "sudo systemctl enable magma@*"];
    [Lit "sudo systemctl start magma@*"];
    [];
    [Lit "echo "; Quote; Lit Icon.check; Lit " Access Gateway deployment completed"; Quote] ].

Definition fgw_template : list (list piece) :=
  [ [Lit "#!/bin/bash"];
    [Lit "set -e"];
    [];
    [Lit "echo "; Quote; Lit Icon.link; Lit " Deploying Federated Gateway..."; Quote];
    [];
    [Lit "# Clone Magma repository"];
    [Lit "if [[ ! -d "; Quote; Lit "magma"; Quote; Lit " ]]; then"];
    [Lit "    git clone https://github.com/magma/magma.git"];
    [Lit "fi"];
    [];
    [Lit "cd magma"];
    [];
    [Lit "# Build FGW"];
    [Lit "cd feg/gateway"];
    [Lit "make build"];
    [];
    [Lit "# Configure FGW"];
    [Lit "mkdir -p /etc/magma"];
    [Lit "cat > /etc/magma/feg_gateway.mconfig << EOF"];
    [Lit "---"];
    [Lit "magmad_config:"];
    [Lit "  checkin_interval: 60"];
    [Lit "  checkin_timeout: 30"];
    [Lit "  autoupgrade_enabled: false"];
    [Lit "  autoupgrade_poll_interval: 300"];
    [Lit "  package_version: "; Quote; Lit "0.0.0-0"; Quote];
    [Lit "  images: []"];
    [Lit "  tier: "; Quote; Lit "default"; Quote];
    [Lit "  feature_flags: {}"];
    [Lit "  dynamic_services: []"];
    [];
    [Lit "mconfig:"];
    [Lit "  federation_config:"];
    [Lit "    federation_id: "; Quote; Sub2 "fgw" "federation_id"; Quote];
    [Lit "    served_network_ids: "; Sub2 "fgw" "served_network_ids"];
    [Lit "    "];
    [Lit "  diameter_config:"];
    [Lit "    host: "; Quote; Sub2 "fgw" "diameter_host"; Quote];
    [Lit "    realm: "; Quote; Sub2 "fgw" "diameter_realm"; Quote];
    [Lit "    port: "; Sub2 "fgw" "diameter_port"];
    [Lit "    "];
    [Lit "  health_config:"];
    [Lit "    health_service_enabled: true"];
    [Lit "    update_interval_secs: 10"];
    [Lit "    cloud_disable_period_secs: 10"];
    [Lit "    local_disable_period_secs: 1"];
    [Lit "    "];
    [Lit "  session_proxy_config:"];
    [Lit "    request_timeout: 30"];
    [Lit "    endpoint_timeout: 30"];
    [Lit "EOF"];
    [];
    [Lit "# Start FGW services"];
    [Lit "sudo systemctl enable magma@*"];
    [Lit "sudo systemctl start magma@*"];
    [];
    [Lit "echo "; Quote; Lit Icon.check; Lit " Federated Gateway deployment completed"; Quote] ].

Definition nms_template : list (list piece) :=
  [ [Lit "#!/bin/bash"];
    [Lit "set -e"];
    [];
    [Lit "echo "; Quote; Lit Icon.laptop; Lit " Deploying Network Management System..."; Quote];
    [];
    [Lit "# Add Magma Helm repository"];
    [Lit "helm repo add magma https://magma.github.io/magma/helm-charts"];
    [Lit "helm repo update"];
    [];
    [Lit "# Deploy NMS"];
    [Lit "helm upgrade --install nms magma/nms "; Bsl];
    [Lit "    --namespace "; Sub2 "orchestrator" "namespace"; Lit " "; Bsl];
    [Lit "    --set global.domain="; Sub1 "domain"; Lit " "; Bsl];
    [Lit "    --set nms.admin.email="; Sub1 "admin_email"; Lit " "; Bsl];
    [Lit "    --set nms.host="; Sub1 "domain"; Lit " "; Bsl];
    [Lit "    --set nms.port=8080"];
    [];
    [Lit "echo "; Quote; Lit Icon.check; Lit " Network Management System deployment completed"; Quote] ].

Definition generate_script (lines : list (list piece)) (script_path : string) : M unit :=
  c ← get_config;
  script_content ← lift (format c (pieces lines));
  write_file script_path script_content.

Definition generate_orchestrator_script : string -> M unit :=
  generate_script orchestrator_template.
Definition generate_agw_script : string -> M unit :=
  generate_script agw_template.
Definition generate_fgw_script : string -> M unit :=
  generate_script fgw_template.
Definition generate_nms_script : string -> M unit :=
  generate_script nms_template.

(** ** Deployment *)

Definition deploy_orchestrator (E : env) : M unit :=
  print "Setting up Orchestrator...";;
  (* Create namespace *)
  try_except
    (ns ← cfg2 "orchestrator" "namespace";
     run_command E ("kubectl create namespace " +:+ Py.str ns) true;;
     mret tt)
    is_CalledProcessError
    (fun _ => print "Namespace already exists or error creating it");;
  (* Generate orchestrator deployment script *)
  let orc8r_script := path_join (scripts_dir E) "deploy_orchestrator.sh" in
  generate_orchestrator_script orc8r_script;;
  (* Execute deployment *)
  run_command E ("chmod +x " +:+ orc8r_script) true;;
  run_command E orc8r_script true;;
  mret tt.

Definition deploy_agw (E : env) : M unit :=
  print "Setting up Access Gateway...";;
  let agw_script := path_join (scripts_dir E) "deploy_agw.sh" in
  generate_agw_script agw_script;;
  run_command E ("chmod +x " +:+ agw_script) true;;
  run_command E agw_script true;;
  mret tt.

Definition deploy_fgw (E : env) : M unit :=
  print "Setting up Federated Gateway...";;
  let fgw_script := path_join (scripts_dir E) "deploy_fgw.sh" in
  generate_fgw_script fgw_script;;
  run_command E ("chmod +x " +:+ fgw_script) true;;
  run_command E fgw_script true;;
  mret tt.

Definition deploy_nms (E : env) : M unit :=
  print "Setting up Network Management System...";;
  let nms_script := path_join (scripts_dir E) "deploy_nms.sh" in
  generate_nms_script nms_script;;
  run_command E ("chmod +x " +:+ nms_script) true;;
  run_command E nms_script true;;
  mret tt.

Definition display_deployment_summary (E : env) : M unit :=
  print (Str.nl +:+ Icon.party +:+ " DEPLOYMENT SUMMARY");;
  print (Str.repeat "=" 40);;
  sel ← in_cfg "orchestrator" "components";
  (if sel : bool then
     d ← cfg "domain";
     print (Icon.antenna +:+ " Orchestrator: https://" +:+ Py.str d);;
     ns ← cfg2 "orchestrator" "namespace";
     print ("   Namespace: " +:+ Py.str ns)
   else mret tt);;
  sel ← in_cfg "nms" "components";
  (if sel : bool then
     d ← cfg "domain";
     print (Icon.laptop +:+ " NMS Portal: https://" +:+ Py.str d +:+ ":8080");;
     e ← cfg "admin_email";
     print ("   Admin Email: " +:+ Py.str e)
   else mret tt);;
  sel ← in_cfg "agw" "components";
  (if sel : bool then
     ip ← cfg2 "agw" "ip_address";
     print (Icon.antenna +:+ " Access Gateway: " +:+ Py.str ip);;
     mcc ← cfg2 "agw" "mcc";
     mnc ← cfg2 "agw" "mnc";
     print ("   Network: " +:+ Py.str mcc +:+ "-" +:+ Py.str mnc)
   else mret tt);;
  sel ← in_cfg "fgw" "components";
  (if sel : bool then
     fid ← cfg2 "fgw" "federation_id";
     print (Icon.link +:+ " Federated Gateway: " +:+ Py.str fid);;
     host ← cfg2 "fgw" "diameter_host";
     port ← cfg2 "fgw" "diameter_port";
     print ("   Diameter: " +:+ Py.str host +:+ ":" +:+ Py.str port)
   else mret tt);;
  print (Str.nl +:+ Icon.clipboard +:+ " Next Steps:");;
  print "1. Verify all services are running";;
  print "2. Configure your network devices to connect to the gateways";;
  print "3. Access the NMS portal to manage your network";;
  print "4. Monitor logs for any issues";;
  print (Str.nl +:+ Icon.folder +:+ " Configuration saved in: " +:+ config_dir E);;
  print (Icon.folder +:+ " Logs available in: magma_deploy.log").

Definition deploy_component (E : env) (component : pyval) : M unit :=
  name ← lift (Py.upper component);
  print (Str.nl +:+ Icon.package +:+ " Deploying " +:+ name +:+ "...");;
  (if Py.is_str "orchestrator" component then deploy_orchestrator E
   else if Py.is_str "agw" component then deploy_agw E
   else if Py.is_str "fgw" component then deploy_fgw E
   else if Py.is_str "nms" component then deploy_nms E
   else mret tt);;
  name ← lift (Py.upper component);
  print (Icon.check +:+ " " +:+ name +:+ " deployment completed").

Definition deploy_components (E : env) : M unit :=
  print (Str.nl +:+ Icon.rocket +:+ " STARTING DEPLOYMENT");;
  print (Str.repeat "=" 40);;
  comps ← cfg "components";
  items ← lift (Py.iter comps);
  for_ items (deploy_component E);;
  print (Str.nl +:+ Icon.party +:+ " All selected components deployed successfully!");;
  display_deployment_summary E.

(** The body of the [try] of [run_deployment]. *)
Definition deployment_workflow (E : env) : M bool :=
  welcome_message;;
  ready ← check_prerequisites E;
  if negb ready then mret false
  else
    collect_deployment_config E;;
    go ← confirm_action "Do you want to proceed with the deployment?";
    if go : bool then deploy_components E;; mret true
    else print "Deployment cancelled by user.";; mret false.

Definition run_deployment (E : env) : M bool :=
  try_except (deployment_workflow E)
    (fun e => is_KeyboardInterrupt e || is_Exception e)
    (fun e =>
       if is_KeyboardInterrupt e then
         print (Str.nl +:+ Str.nl +:+ Icon.warning +:+ "  Deployment interrupted by user.");;
         mret false
       else
         logger ERROR ("Deployment failed: " +:+ str_exn e);;
         print (Str.nl +:+ Icon.cross +:+ " Deployment failed: " +:+ str_exn e);;
         mret false).

(** ** The entry point *)

(** The namespace [parser.parse_args()] returns. *)
Record args := Args {
  args_config : option string;
  args_skip_prerequisites : bool;
  args_dry_run : bool
}.

(** [with open(path, 'r') as f: deployment.config = yaml.safe_load(f)]. *)
Definition load_config (E : env) (path : string) : M unit :=
  content ← read_file path;
  match yaml_safe_load E content with
  | inr v => put_config v
  | inl msg => raise (YAMLError msg)
  end.

(** The part of [main] under "Load configuration if provided". *)
Definition load_if_provided (E : env) (a : args) : M unit :=
  if truthy (args_config a) then
    let path := default "" (args_config a) in
    try_except
      (load_config E path;;
       print (Icon.check +:+ " Configuration loaded from " +:+ path))
      is_Exception
      (fun e =>
         print (Icon.cross +:+ " Error loading configuration: " +:+ str_exn e);;
         sys_exit 1)
  else mret tt.

(** [main] once [parser.parse_args()] has returned the namespace [a]: from
    "Create deployment instance" to the end.  The lines before are in
    [main_argv] below. *)
Definition main (E : env) (a : args) : M unit :=
  (* Create deployment instance *)
  init E;;
  (* Load configuration if provided *)
  load_if_provided E a;;
  (* Run deployment *)
  ok ← run_deployment E;
  if ok : bool then
    print (Str.nl +:+ Icon.party +:+ " Deployment completed successfully!");;
    sys_exit 0
  else
    print (Str.nl +:+ Icon.cross +:+ " Deployment failed!");;
    sys_exit 1.

(** What [parser.parse_args()] makes of the command line: the namespace,
    or one of the two ways argparse ends the process itself.  For [-h] and
    [--help] it prints the help on standard output and calls [sys.exit(0)];
    for a command line it refuses (an option it does not know, [--config]
    without a value) it writes the usage and the error to standard error
    and calls [sys.exit(2)].  Which command line gives what is argparse's
    matter: the parser is a parameter. *)
Inductive parsed :=
| Namespace (a : args)
| HelpRequested (help : string)
| UsageError (message : string).

(** [main()] for the command line [argv], source lines 733 to 759.  The
    message of a usage error goes to standard error only, so [out] does
    not get it. *)
Definition main_argv (parse_args : list string -> parsed) (E : env)
    (argv : list string) : M unit :=
  match parse_args argv with
  | Namespace a => main E a
  | HelpRequested help => print help;; sys_exit 0
  | UsageError message => sys_exit 2
  end.

(** The status the process ends with: the argument of [sys.exit]. *)
Definition exit_status (r : result unit * world) : option N :=
  match r.1 with
  | Raise (SystemExit code) => Some code
  | _ => None
  end.

(** ** A sample environment

    Every command succeeds without output, addresses are dotted quads,
    the configuration is written in Python's notation (which YAML reads
    as a flow mapping) and two small documents can be loaded. *)

Module Sample.

Definition is_digit (a : ascii) : bool :=
  let n := Ascii.nat_of_ascii a in (48 <=? n)%nat && (n <=? 57)%nat.

Fixpoint all_digits (s : string) : bool :=
  match s with
  | "" => true
  | String a s' => is_digit a && all_digits s'
  end.

Fixpoint value (acc : nat) (s : string) : nat :=
  match s with
  | "" => acc
  | String a s' => value (10 * acc + (Ascii.nat_of_ascii a - 48)) s'
  end.

Definition octet (s : string) : bool :=
  match s with
  | "" => false
  | String a s' =>
      all_digits s && (String.length s <=? 3)%nat && (value 0 s <=? 255)%nat
      && (negb (Ascii.eqb a "0") || String.eqb s' "")
  end.

Definition dotted_quad (s : string) : bool :=
  match Str.split "." s with
  | [a; b; c; d] => octet a && octet b && octet c && octet d
  | _ => false
  end.

Definition orchestrator_document : string :=
  "orchestrator:" +:+ Str.nl +:+ "  namespace: magma" +:+ Str.nl.

Definition components_document : string :=
  "components:" +:+ Str.nl +:+ "- agw" +:+ Str.nl.

Definition safe_load (doc : string) : string + pyval :=
  if String.eqb doc orchestrator_document
  then inr (PDict [("orchestrator", PDict [("namespace", PStr "magma")])])
  else if String.eqb doc components_document
  then inr (PDict [("components", PList [PStr "agw"])])
  else inl "could not parse the document".

Definition E0 : env :=
  Env "/opt/magma-deploy" (fun _ _ => Completed 0 "" "") dotted_quad Py.repr safe_load.




(** A reader that takes a one-item list. *)
Definition E_list : env :=
  Env "/opt/magma-deploy" (fun _ _ => Completed 0 "" "") dotted_quad Py.repr
      (fun doc => if String.eqb doc "- agw" then inr (PList [PStr "agw"])
                  else safe_load doc).

(** A machine whose [/etc/os-release] names a system the installer does
    not know. *)
Definition E_arch : env :=
  Env "/opt/magma-deploy"
      (fun _ c => if String.eqb c "cat /etc/os-release"
                  then Completed 0 "ID=arch" "" else Completed 0 "" "")
      dotted_quad Py.repr safe_load.

(** A cluster that has the namespace already, and a machine on which
    the build of the access gateway fails. *)
Definition E_namespace_exists : env :=
  Env "/opt/magma-deploy"
      (fun _ c => if String.prefix "kubectl create namespace " c
                  then Completed 1 "" "Error from server (AlreadyExists)"
                  else Completed 0 "" "")
      dotted_quad Py.repr safe_load.

Definition E_agw_fails : env :=
  Env "/opt/magma-deploy"
      (fun _ c => if String.eqb c "/opt/magma-deploy/scripts/deploy_agw.sh"
                  then Completed 2 "" "make: *** [build] Error 2"
                  else Completed 0 "" "")
      dotted_quad Py.repr safe_load.

(** An Ubuntu machine on which the installation of kubectl fails at its
    second command; the operator's account is "deploy". *)
Definition ubuntu_rc (c : string) : N :=
  if String.eqb c "sudo install -o root -g root -m 0755 kubectl /usr/local/bin/kubectl"
  then 1%N else 0%N.

Definition ubuntu_so (c : string) : string :=
  if String.eqb c "cat /etc/os-release" then "ID=ubuntu"
  else if String.eqb c "whoami" then "deploy" +:+ Str.nl
  else "".

Definition E_ubuntu : env :=
  Env "/opt/magma-deploy" (fun _ c => Completed (ubuntu_rc c) (ubuntu_so c) "")
      dotted_quad Py.repr safe_load.

(** A machine without Docker: the probe for it ends with status 1. *)
Definition E_no_docker : env :=
  Env "/opt/magma-deploy"
      (fun _ c => if String.eqb c "which docker" then Completed 1 "" ""
                  else Completed 0 "" "")
      dotted_quad Py.repr safe_load.

(** A machine on which nothing has happened yet, and the operator's
    answers. *)
Definition fresh (answers : list string) : world :=
  World PNone (Line <$> answers) ∅ ∅ [] [] [].

Definition no_flags : args := Args None false false.

End Sample.

(** ** Vocabulary of the statements

    The definitions below are not part of the program: they name what the
    theorems talk about. *)

(** *** Prompts *)

(** An answer as a confirmation prompt reads it. *)
Definition response (answer : string) : string := Str.strip (Str.lower answer).

(** What the first answer that a confirmation prompt accepts says. *)
Fixpoint answer_of (evs : list event) : option bool :=
  match evs with
  | Line s :: rest =>
      if bool_decide (response s ∈ ["y"; "yes"]) then Some true
      else if bool_decide (response s ∈ ["n"; "no"; ""]) then Some false
      else answer_of rest
  | _ => None
  end.

(** The world once a prompt was written and its answer taken. *)
Definition asked (prompt : string) (rest : list event) (w : world) : world :=
  set_stdin rest (set_out (out w ++ [prompt]) w).

(** The world once a line was printed. *)
Definition said (s : string) (w : world) : world := set_out (out w ++ [s]) w.

(** *** The run *)

(** The first two statements of [main]: the instance is created and the
    configuration file, if one was given, is loaded. *)
Definition startup (E : env) (a : args) : M unit :=
  init E;; load_if_provided E a.

(** No configuration file was asked for, or the file is there and the
    YAML reader accepts it. *)
Definition loads (E : env) (a : args) (w : world) : Prop :=
  truthy (args_config a) = true ->
  exists content v,
    files w !! default "" (args_config a) = Some content /\
    yaml_safe_load E content = inr v.

(** What a run that argparse ends leaves as it was: the configuration,
    the pending answers, the files, the directories, the commands and the
    log. *)
Definition untouched_by_parser (w w' : world) : Prop :=
  config w' = config w /\ stdin w' = stdin w /\ files w' = files w /\
  dirs w' = dirs w /\ cmds w' = cmds w /\ logged w' = logged w.

(** The run goes through every step of the workflow. *)
Definition deployment_completes (E : env) (w : world) : Prop :=
  exists w1 w2 w3 w4 w5,
    welcome_message w = (Ret (), w1) /\
    check_prerequisites E w1 = (Ret true, w2) /\
    collect_deployment_config E w2 = (Ret (), w3) /\
    confirm_action "Do you want to proceed with the deployment?" w3 = (Ret true, w4) /\
    deploy_components E w4 = (Ret (), w5).

(** The workflow after the welcome message. *)
Definition after_welcome (E : env) : M bool :=
  ready ← check_prerequisites E;
  if negb ready then mret false
  else
    collect_deployment_config E;;
    go ← confirm_action "Do you want to proceed with the deployment?";
    if go : bool then deploy_components E;; mret true
    else print "Deployment cancelled by user.";; mret false.

(** *** The configuration and the scripts *)

Definition is_dict (v : pyval) : Prop :=
  match v with
  | PDict _ => True
  | _ => False
  end.

(** The file [save_config] writes. *)
Definition config_file (E : env) : string :=
  path_join (config_dir E) "deployment_config.yaml".

(** The four components, as the menu and the deployment loop name them. *)
Inductive component := Orchestrator | AccessGateway | FederatedGateway | Console.

Definition tag (c : component) : string :=
  match c with
  | Orchestrator => "orchestrator"
  | AccessGateway => "agw"
  | FederatedGateway => "fgw"
  | Console => "nms"
  end.

Definition template (c : component) : list (list piece) :=
  match c with
  | Orchestrator => orchestrator_template
  | AccessGateway => agw_template
  | FederatedGateway => fgw_template
  | Console => nms_template
  end.

Definition script_name (c : component) : string :=
  match c with
  | Orchestrator => "deploy_orchestrator.sh"
  | AccessGateway => "deploy_agw.sh"
  | FederatedGateway => "deploy_fgw.sh"
  | Console => "deploy_nms.sh"
  end.

Definition script_path (E : env) (c : component) : string :=
  path_join (scripts_dir E) (script_name c).

(** The generator of a component, called as its [deploy_] method calls it. *)
Definition generate (E : env) (c : component) : M unit :=
  match c with
  | Orchestrator => generate_orchestrator_script (script_path E c)
  | AccessGateway => generate_agw_script (script_path E c)
  | FederatedGateway => generate_fgw_script (script_path E c)
  | Console => generate_nms_script (script_path E c)
  end.

(** The configuration is a mapping whose component entries, where there
    are any, are mappings. *)
Definition nested_mapping (cfg : pyval) : bool :=
  match cfg with
  | PDict d =>
      forallb (fun k => match Py.dict_get d k with
                        | Some (PDict _) | None => true
                        | Some _ => false
                        end) ["orchestrator"; "agw"; "fgw"]
  | _ => false
  end.

(** The field a piece of a template reads is in the configuration.  A field
    read with [get] has a default: only its sub-record is required. *)
Definition present (cfg : pyval) (p : piece) : bool :=
  match p with
  | Lit _ => true
  | Sub1 k => bool_decide (is_Some (Py.lookup cfg k))
  | Sub2 k1 k2 =>
      match Py.lookup cfg k1 with
      | Some d => bool_decide (is_Some (Py.lookup d k2))
      | None => false
      end
  | Get2 k1 _ _ => bool_decide (is_Some (Py.lookup cfg k1))
  end.

(** The sub-records the templates read from. *)
Definition reads_components (p : piece) : bool :=
  match p with
  | Sub2 k1 _ | Get2 k1 _ _ => bool_decide (k1 ∈ ["orchestrator"; "agw"; "fgw"])
  | _ => true
  end.

(** The text of the script of [c] for a configuration. *)
Definition rendered (cfg : pyval) (c : component) : string :=
  match format cfg (pieces (template c)) with
  | Ret text => text
  | _ => ""
  end.

(** Every command handed to the shell completes with status 0. *)
Definition commands_succeed (E : env) : Prop :=
  forall w c, exists so se, sh E w c = Completed 0 so se.

(** The [deploy_] method of a component. *)
Definition deploy_of (E : env) (c : component) : M unit :=
  match c with
  | Orchestrator => deploy_orchestrator E
  | AccessGateway => deploy_agw E
  | FederatedGateway => deploy_fgw E
  | Console => deploy_nms E
  end.

Global Instance piece_eq_dec : EqDecision piece.
Proof. solve_decision. Defined.

Global Instance component_eq_dec : EqDecision component.
Proof. solve_decision. Defined.

(** *** What a computation leaves alone, and how it ends *)

(** A part [f] of the world that a computation leaves as it is. *)
Definition untouched {S A} (f : world -> S) (m : M A) : Prop :=
  forall w, f (m w).2 = f w.

(** [Q] holds of the part [f] of the world after [m] if it held before. *)
Definition inv_on {S A} (f : world -> S) (Q : S -> Prop) (m : M A) : Prop :=
  forall w, Q (f w) -> Q (f (m w).2).

(** The number of answers the operator has still to give. *)
Definition pending (w : world) : nat := length (stdin w).

(** [m] never reads more answers than there are, and [lt_in m] reads at
    least one before it returns. *)
Definition le_in {A} (m : M A) : Prop :=
  forall w, pending (m w).2 <= pending w.

Definition lt_in {A} (m : M A) : Prop :=
  forall w a, (m w).1 = Ret a -> pending (m w).2 < pending w.

Definition is_SystemExit (e : exn) : bool :=
  match e with
  | SystemExit _ => true
  | _ => false
  end.

(** An outcome other than running out of fuel and leaving through
    [sys.exit]. *)
Definition fine {A} (r : result A) : Prop :=
  match r with
  | Ret _ => True
  | Raise e => is_SystemExit e = false
  | Timeout => False
  end.

Definition clean {A} (m : M A) : Prop := forall w, fine (m w).1.

(** *** Further vocabulary *)

(** Two worlds that differ in the log and the terminal output only. *)
Definition quiet (w w' : world) : Prop :=
  config w' = config w /\ stdin w' = stdin w /\ files w' = files w /\ cmds w' = cmds w.

(** What a prompt with a default returns for an answer. *)
Definition pick (answer dflt : string) : string :=
  if truthy (Some (Str.strip answer)) then Str.strip answer else dflt.

(** The world once a record went to the log, and once a command was
    handed to the shell. *)
Definition noted (l : level) (s : string) (w : world) : world :=
  set_logged (logged w ++ [(l, s)]) w.

Definition ran (c : string) (w : world) : world := set_cmds (cmds w ++ [c]) w.

(** The shell always comes back: no command is interrupted. *)
Definition never_interrupted (E : env) : Prop :=
  forall w c, exists rc so se, sh E w c = Completed rc so se.

(** The probe for a tool ends with a status other than 0. *)
Definition missing_tool (E : env) (tool : string) : Prop :=
  forall w, exists rc so se,
    sh E w ("which " +:+ tool) = Completed rc so se /\ rc <> 0%N.

(** The probes of [check_prerequisites], in the order they run. *)
Definition probes (l : list (string * string)) : list string :=
  (fun p => "which " +:+ p.1) <$> l.

(** The body of the loop of [check_prerequisites], and what follows the
    loop. *)
Definition probe (E : env) (missing_deps : list string) (p : string * string)
  : M (list string) :=
  let '(cmd, description) := p in
  try_except
    (res ← run_command E ("which " +:+ cmd) false;
     if N.eqb (returncode res) 0
     then print (Icon.check +:+ " " +:+ cmd +:+ " found");; mret missing_deps
     else print (Icon.cross +:+ " " +:+ cmd +:+ " not found - " +:+ description);;
          mret (missing_deps ++ [cmd]))
    is_Exception
    (fun e =>
       print (Icon.cross +:+ " Error checking " +:+ cmd +:+ ": " +:+ str_exn e);;
       mret (missing_deps ++ [cmd])).

Definition after_probes (E : env) (missing_deps : list string) : M bool :=
  match missing_deps with
  | _ :: _ =>
      print (Str.nl +:+ Icon.warning +:+ "  Missing dependencies: "
             +:+ Str.join ", " missing_deps);;
      install ← confirm_action "Do you want to install missing dependencies automatically?";
      if install : bool then install_prerequisites E missing_deps
      else print "Please install missing dependencies manually and run the script again.";;
           mret false
  | [] =>
      print (Icon.check +:+ " All prerequisites are available!");;
      mret true
  end.

(** The operating system [/etc/os-release] names is one the installer
    knows. *)
Definition supported_os (os_release : string) : bool :=
  Str.contains "ubuntu" (Str.lower os_release)
  || Str.contains "debian" (Str.lower os_release)
  || Str.contains "centos" (Str.lower os_release)
  || Str.contains "rhel" (Str.lower os_release).

(** The package manager the installer takes for an [/etc/os-release]. *)
Definition package_manager_of (os_release : string) : option string :=
  if Str.contains "ubuntu" (Str.lower os_release)
     || Str.contains "debian" (Str.lower os_release)
  then Some "apt"
  else if Str.contains "centos" (Str.lower os_release)
          || Str.contains "rhel" (Str.lower os_release)
  then Some "yum"
  else None.

(** The commands the installer has for a tool, in the order it runs
    them; [username] is what [whoami] printed. *)
Definition install_commands (package_manager username dep : string) : list string :=
  if String.eqb dep "docker" then
    (if String.eqb package_manager "apt" then
       [ "sudo apt-get update";
         "sudo apt-get install -y apt-transport-https ca-certificates curl gnupg lsb-release";
         "curl -fsSL https://download.docker.com/linux/ubuntu/gpg | sudo gpg --dearmor -o /usr/share/keyrings/docker-archive-keyring.gpg";
         "echo " +:+ Str.dq +:+ "deb [arch=amd64 signed-by=/usr/share/keyrings/docker-archive-keyring.gpg] https://download.docker.com/linux/ubuntu $(lsb_release -cs) stable" +:+ Str.dq +:+ " | sudo tee /etc/apt/sources.list.d/docker.list > /dev/null";
         "sudo apt-get update";
         "sudo apt-get install -y docker-ce docker-ce-cli containerd.io" ]
     else
       [ "sudo yum install -y yum-utils";
         "sudo yum-config-manager --add-repo https://download.docker.com/linux/centos/docker-ce.repo";
         "sudo yum install -y docker-ce docker-ce-cli containerd.io" ])
    ++ [ "sudo systemctl start docker";
         "sudo systemctl enable docker";
         "whoami";
         "sudo usermod -aG docker " +:+ username ]
  else if String.eqb dep "docker-compose" then
    [ "sudo curl -L " +:+ Str.dq +:+ "https://github.com/docker/compose/releases/download/1.29.2/docker-compose-$(uname -s)-$(uname -m)" +:+ Str.dq +:+ " -o /usr/local/bin/docker-compose";
      "sudo chmod +x /usr/local/bin/docker-compose" ]
  else if String.eqb dep "kubectl" then
    [ "curl -LO " +:+ Str.dq +:+ "https://dl.k8s.io/release/$(curl -L -s https://dl.k8s.io/release/stable.txt)/bin/linux/amd64/kubectl" +:+ Str.dq;
      "sudo install -o root -g root -m 0755 kubectl /usr/local/bin/kubectl" ]
  else if String.eqb dep "helm" then
    [ "curl https://raw.githubusercontent.com/helm/helm/main/scripts/get-helm-3 | bash" ]
  else if String.eqb dep "git" then
    [ if String.eqb package_manager "apt"
      then "sudo apt-get update && sudo apt-get install -y git"
      else "sudo yum install -y git" ]
  else [].

(** The commands of a list that run when each is run only if those
    before it succeeded. *)
Fixpoint until_failure (ok : string -> bool) (l : list string) : list string :=
  match l with
  | [] => []
  | c :: l' => c :: if ok c then until_failure ok l' else []
  end.

(** [m] runs the commands of [l] in order and stops at the first that
    fails, with [CalledProcessError]; it touches nothing else. *)
Definition runs_in_order (E : env) (ok : string -> bool) (l : list string) (m : M unit)
  : Prop :=
  forall w, exists w',
    cmds w' = cmds w ++ until_failure ok l /\
    config w' = config w /\ files w' = files w /\ stdin w' = stdin w /\
    if forallb ok l then m w = (Ret (), w')
    else exists c rc se, m w = (Raise (CalledProcessError c rc se), w').

(** * Proofs *)

(** ** Strings *)

Section strings.
Variable c : ascii.

Lemma contains_char_cons a s :
  Str.contains (String c "") (String a s)
  = Ascii.eqb a c || Str.contains (String c "") s.
Proof.
  cbn [Str.contains String.prefix].
  destruct (ascii_dec c a) as [->|Hne].
  - rewrite Ascii.eqb_refl. by destruct s.
  - destruct (Ascii.eqb_spec a c) as [->|_]; [done|]. done.
Qed.

Lemma contains_char_nil : Str.contains (String c "") "" = false.
Proof. reflexivity. Qed.

Lemma split_head s : head (Str.split c s) = Some (Str.before_first c s).
Proof.
  induction s as [|a s IH]; [done|]. cbn [Str.split Str.before_first].
  destruct (Ascii.eqb a c); [done|].
  destruct (Str.split c s) as [|h t]; [done|]. cbn in *. congruence.
Qed.

Lemma split_second s :
  Str.split c s !! 1%nat
  = if Str.contains (String c "") s
    then Some (Str.before_first c (Str.after_first c s)) else None.
Proof.
  induction s as [|a s IH]; [done|].
  rewrite contains_char_cons. cbn [Str.split Str.after_first].
  destruct (Ascii.eqb a c); cbn [orb].
  - pose proof (split_head s) as Hh.
    destruct (Str.split c s) as [|h t]; [done|]. exact Hh.
  - pose proof (split_head s) as Hh.
    destruct (Str.split c s) as [|h t]; [done|]. exact IH.
Qed.

Lemma count_zero_contains s :
  Str.count c s = 0%nat -> Str.contains (String c "") s = false.
Proof.
  induction s as [|a s IH]; [done|]. rewrite contains_char_cons. cbn.
  destruct (Ascii.eqb a c); [done|]. cbn. exact IH.
Qed.

Lemma count_zero_before_first s :
  Str.count c s = 0%nat -> Str.before_first c s = s.
Proof.
  induction s as [|a s IH]; [done|]. cbn.
  destruct (Ascii.eqb a c); [done|]. cbn. intros H. by rewrite IH.
Qed.

Lemma count_one_after_first s :
  Str.count c s = 1%nat ->
  Str.contains (String c "") s = true /\ Str.count c (Str.after_first c s) = 0%nat.
Proof.
  induction s as [|a s IH]; [done|]. rewrite contains_char_cons. cbn.
  destruct (Ascii.eqb a c); cbn.
  - intros H. split; [done|]. lia.
  - exact IH.
Qed.

End strings.

Lemma validate_email_eq email :
  validate_email email
  = Ret (Str.contains "@" email
         && Str.contains "." (Str.before_first "@" (Str.after_first "@" email))).
Proof.
  unfold validate_email. rewrite split_second.
  by destruct (Str.contains "@" email).
Qed.

(** C2, as the code has it: an address without "@" is refused; so is one
    whose text between the first "@" and the next "@" (or the end) holds no
    "."; an address with exactly one "@" and a "." after it is accepted. *)
Theorem validate_email_spec email :
  (Str.contains "@" email = false -> validate_email email = Ret false) /\
  (Str.contains "." (Str.before_first "@" (Str.after_first "@" email)) = false ->
   validate_email email = Ret false) /\
  (Str.count "@" email = 1%nat ->
   Str.contains "." (Str.after_first "@" email) = true ->
   validate_email email = Ret true).
Proof.
  rewrite validate_email_eq. split; [|split].
  - by intros ->.
  - intros ->. by rewrite andb_false_r.
  - intros Hone Hdot.
    destruct (count_one_after_first _ _ Hone) as [-> Hz].
    by rewrite (count_zero_before_first _ _ Hz), Hdot.
Qed.

Lemma validate_email_spec_witness :
  validate_email "ops" = Ret false /\
  validate_email "ops@localhost@example.org" = Ret false /\
  validate_email "ops@example.org" = Ret true.
Proof.
  split; [|split].
  - apply (validate_email_spec "ops"). reflexivity.
  - apply (validate_email_spec "ops@localhost@example.org"). reflexivity.
  - apply (validate_email_spec "ops@example.org"); reflexivity.
Defined.

(** The validator looks at the text after the first "@", not after the
    last: "a@b.c@d" has no "." after its last "@" and is accepted. *)
Lemma email_dot_before_second_at :
  ~ (forall email,
       Str.contains "." (Str.after_last "@" email) = false ->
       validate_email email = Ret false).
Proof.
  intros H. specialize (H "a@b.c@d"). discriminate H. reflexivity.
Qed.

(** ** Reasoning about computations *)

(** *** Running a computation step by step *)

Lemma bind_run {A B} (m : M A) (k : A -> M B) w :
  (m ≫= k) w =
  match m w with
  | (Ret a, w') => k a w'
  | (Raise e, w') => (Raise e, w')
  | (Timeout, w') => (Timeout, w')
  end.
Proof. reflexivity. Qed.

Lemma bind_ret_inv {A B} (m : M A) (k : A -> M B) w b w' :
  (m ≫= k) w = (Ret b, w') ->
  exists a w1, m w = (Ret a, w1) /\ k a w1 = (Ret b, w').
Proof.
  rewrite bind_run. destruct (m w) as [[a|e|] w1]; [eauto|done|done].
Qed.

Lemma mret_run {A} (a : A) (w : world) : (mret a : M A) w = (Ret a, w).
Proof. reflexivity. Qed.

Lemma raise_run {A} e (w : world) : raise (A:=A) e w = (Raise e, w).
Proof. reflexivity. Qed.

Lemma lift_run {A} (r : result A) (w : world) : lift r w = (r, w).
Proof. reflexivity. Qed.

Lemma print_bind {A} s (k : unit -> M A) w : (print s ≫= k) w = k () (said s w).
Proof. reflexivity. Qed.

Lemma print_run s w : print s w = (Ret (), said s w).
Proof. reflexivity. Qed.

Lemma logger_bind {A} l s (k : unit -> M A) w :
  (logger l s ≫= k) w = k () (set_logged (logged w ++ [(l, s)]) w).
Proof. reflexivity. Qed.

Lemma logger_run l s w : logger l s w = (Ret (), set_logged (logged w ++ [(l, s)]) w).
Proof. reflexivity. Qed.

Lemma if_negb_run {A} (b : bool) (m1 m2 : M A) w :
  (if negb b then m1 else m2) w = if b then m2 w else m1 w.
Proof. by destruct b. Qed.

Lemma try_except_run {A} (m : M A) catch h w :
  try_except m catch h w =
  match m w with
  | (Raise e, w') => if catch e then h e w' else (Raise e, w')
  | r => r
  end.
Proof. reflexivity. Qed.

Ltac head_of t :=
  match t with
  | ?g _ => head_of g
  | _ => t
  end.

(** Unfolding a procedure where it stands, as a rewriting step. *)
Tactic Notation "expand" constr(t) "in" hyp(H) :=
  let c := head_of t in
  let t' := eval cbv beta delta [c] in t in
  let Heq := fresh "Heq" in
  assert (Heq : t = t') by reflexivity;
  rewrite Heq in H; clear Heq.

Tactic Notation "expand" constr(t) :=
  let c := head_of t in
  let t' := eval cbv beta delta [c] in t in
  let Heq := fresh "Heq" in
  assert (Heq : t = t') by reflexivity;
  rewrite Heq; clear Heq.

(** *** Invariants of a part of the world *)

Ltac prim :=
  let w := fresh "w" in
  intros w;
  cbv [print input getpass logger get_config put_config write_file read_file
       mkdir raise sys_exit lift subprocess_run];
  repeat case_match; reflexivity.

Section invariants.

Context {S : Type} (f : world -> S) (Q : S -> Prop).

Lemma inv_untouched {A} (m : M A) : untouched f m -> inv_on f Q m.
Proof. intros H w HQ. by rewrite H. Qed.

Lemma inv_ret {A} (a : A) : inv_on f Q (mret a).
Proof. by intros w. Qed.

Lemma inv_raise {A} e : inv_on f Q (raise (A:=A) e).
Proof. by intros w. Qed.

Lemma inv_lift {A} (r : result A) : inv_on f Q (lift r).
Proof. by intros w. Qed.

Lemma inv_bind {A B} (m : M A) (k : A -> M B) :
  inv_on f Q m -> (forall a, inv_on f Q (k a)) -> inv_on f Q (m ≫= k).
Proof.
  intros Hm Hk w HQ. rewrite bind_run. specialize (Hm w HQ).
  destruct (m w) as [[a|e|] w1]; cbn in *; [by apply Hk|done|done].
Qed.

Lemma inv_try {A} (m : M A) catch h :
  inv_on f Q m -> (forall e, inv_on f Q (h e)) -> inv_on f Q (try_except m catch h).
Proof.
  intros Hm Hh w HQ. unfold try_except. specialize (Hm w HQ).
  destruct (m w) as [[a|e|] w1]; cbn in *; [done| |done].
  destruct (catch e); [by apply Hh|done].
Qed.

Lemma inv_loop {A} n (body : M (option A)) : inv_on f Q body -> inv_on f Q (loop n body).
Proof.
  intros Hb. induction n as [|n IH]; [by intros w|].
  cbn [loop]. apply inv_bind; [done|]. intros [a|]; [apply inv_ret|done].
Qed.

Lemma inv_while_true {A} (body : M (option A)) : inv_on f Q body -> inv_on f Q (while_true body).
Proof. intros Hb w. unfold while_true. by apply inv_loop. Qed.

Lemma inv_not c : inv_on f Q c -> inv_on f Q (not_ c).
Proof. intros Hc. apply inv_bind; [done|]. intros b. apply inv_ret. Qed.

Lemma inv_while c body : inv_on f Q c -> inv_on f Q body -> inv_on f Q (while_ c body).
Proof.
  intros Hc Hb. apply inv_while_true, inv_bind; [done|].
  intros []; [|apply inv_ret]. apply inv_bind; [done|]. intros _. apply inv_ret.
Qed.

Lemma inv_for {A} (l : list A) body : (forall x, inv_on f Q (body x)) -> inv_on f Q (for_ l body).
Proof.
  intros Hb. induction l as [|x l IH]; [apply inv_ret|].
  cbn [for_]. apply inv_bind; [done|]. by intros _.
Qed.

Lemma inv_for_fold {A St} (l : list A) (s : St) body :
  (forall s x, inv_on f Q (body s x)) -> inv_on f Q (for_fold l s body).
Proof.
  intros Hb. revert s. induction l as [|x l IH]; intros s; [apply inv_ret|].
  cbn [for_fold]. apply inv_bind; [done|]. intros s'. apply IH.
Qed.

Lemma inv_for_return {A R} (l : list A) (body : A -> M (option R)) :
  (forall x, inv_on f Q (body x)) -> inv_on f Q (for_return l body).
Proof.
  intros Hb. induction l as [|x l IH]; [apply inv_ret|].
  cbn [for_return]. apply inv_bind; [done|]. intros [v|]; [apply inv_ret|done].
Qed.

End invariants.

Create HintDb inv.

#[export] Hint Resolve inv_untouched : inv.

#[export] Hint Extern 1 (untouched _ ?m) =>
  let h := head_of m in
  lazymatch h with
  | @print => idtac | @input => idtac | @getpass => idtac | @logger => idtac
  | @get_config => idtac | @put_config => idtac | @write_file => idtac
  | @read_file => idtac | @mkdir => idtac | @sys_exit => idtac
  | @subprocess_run => idtac
  end; solve [prim] : inv.

Ltac inv_step :=
  lazymatch goal with
  | |- inv_on _ _ (mret _) => apply inv_ret
  | |- inv_on _ _ (raise _) => apply inv_raise
  | |- inv_on _ _ (lift _) => apply inv_lift
  | |- inv_on _ _ (_ ≫= _) => apply inv_bind; [|intros ?]
  | |- inv_on _ _ (try_except _ _ _) => apply inv_try; [|intros ?]
  | |- inv_on _ _ (while_true _) => apply inv_while_true
  | |- inv_on _ _ (while_ _ _) => apply inv_while
  | |- inv_on _ _ (not_ _) => apply inv_not
  | |- inv_on _ _ (for_ _ _) => apply inv_for; intros ?
  | |- inv_on _ _ (for_fold _ _ _) => apply inv_for_fold; intros ? ?
  | |- inv_on _ _ (for_return _ _) => apply inv_for_return; intros ?
  | |- inv_on _ _ (let _ := _ in _) => cbv zeta
  | |- inv_on _ _ (if ?b then _ else _) => destruct b
  | |- inv_on _ _ (match ?x with _ => _ end) => destruct x
  | |- inv_on _ _ ?m =>
      first [ solve [auto with inv]
            | let h := head_of m in progress unfold h ]
  end.

Ltac inv_go := repeat inv_step.

(** *** Answers read *)

Lemma pending_input n prompt : inv_on pending (fun x => x <= n) (input prompt).
Proof.
  intros [c i fs ds cm lg o]. unfold input, pending. destruct i as [|[s|] rest]; cbn; lia.
Qed.

#[export] Hint Resolve pending_input : inv.

Lemma le_in_inv {A} (m : M A) :
  (forall n, inv_on pending (fun x => x <= n) m) -> le_in m.
Proof. intros H w. by apply H. Qed.

Ltac le_go := apply le_in_inv; intros ?; inv_go.

Lemma lt_input prompt : lt_in (input prompt).
Proof.
  intros [c i fs ds cm lg o] a. unfold input, pending.
  destruct i as [|[s|] rest]; cbn; [done| |done]. intros _. lia.
Qed.

Lemma lt_bind_l {A B} (m : M A) (k : A -> M B) :
  lt_in m -> (forall a, le_in (k a)) -> lt_in (m ≫= k).
Proof.
  intros Hm Hk w b. rewrite bind_run. specialize (Hm w).
  destruct (m w) as [[a|e|] w1]; cbn in *; [|done|done].
  intros Hb. specialize (Hm a eq_refl). specialize (Hk a w1). lia.
Qed.

Lemma lt_bind_r {A B} (m : M A) (k : A -> M B) :
  le_in m -> (forall a, lt_in (k a)) -> lt_in (m ≫= k).
Proof.
  intros Hm Hk w b. rewrite bind_run. specialize (Hm w).
  destruct (m w) as [[a|e|] w1]; cbn in *; [|done|done].
  intros Hb. specialize (Hk a w1 b Hb). lia.
Qed.

Lemma lt_loop {A} n (body : M (option A)) : lt_in body -> lt_in (loop n body).
Proof.
  intros Hb. induction n as [|n IH]; [by intros w a|].
  intros w a. cbn [loop]. rewrite bind_run. specialize (Hb w).
  destruct (body w) as [[[x|]|e|] w1]; cbn in *; [| |done|done].
  - intros _. by apply (Hb (Some x)).
  - intros Ha. specialize (IH w1 a Ha). specialize (Hb None eq_refl). lia.
Qed.

Lemma lt_while_true {A} (body : M (option A)) : lt_in body -> lt_in (while_true body).
Proof. intros Hb w. unfold while_true. by apply lt_loop. Qed.

Lemma lt_get_user_input p d r : lt_in (get_user_input p d r).
Proof.
  apply lt_while_true, lt_bind_l; [apply lt_input|]. intros a. le_go.
Qed.

Lemma lt_confirm_action message : lt_in (confirm_action message).
Proof.
  apply lt_while_true, lt_bind_l; [apply lt_input|]. intros a. le_go.
Qed.

(** *** Outcomes: the loops end and nothing leaves through sys.exit *)

Lemma clean_ret {A} (a : A) : clean (mret a).
Proof. by intros w. Qed.

Lemma clean_raise {A} e : is_SystemExit e = false -> clean (raise (A:=A) e).
Proof. by intros H w. Qed.

Lemma clean_lift {A} (r : result A) : fine r -> clean (lift r).
Proof. by intros H w. Qed.

Lemma clean_bind {A B} (m : M A) (k : A -> M B) :
  clean m -> (forall a, clean (k a)) -> clean (m ≫= k).
Proof.
  intros Hm Hk w. rewrite bind_run. specialize (Hm w).
  destruct (m w) as [[a|e|] w1]; cbn in *; [apply Hk|done|done].
Qed.

Lemma clean_try {A} (m : M A) catch h :
  clean m ->
  (forall e, is_SystemExit e = false -> catch e = true -> clean (h e)) ->
  clean (try_except m catch h).
Proof.
  intros Hm Hh w. unfold try_except. specialize (Hm w).
  destruct (m w) as [[a|e|] w1]; cbn in *; [done| |done].
  destruct (catch e) eqn:Hc; [by apply Hh|done].
Qed.

Lemma clean_loop {A} n (body : M (option A)) :
  clean body ->
  (forall w, (body w).1 = Ret None -> pending (body w).2 < pending w) ->
  forall w, pending w < n -> fine (loop n body w).1.
Proof.
  intros Hb Hlt. induction n as [|n IH]; intros w Hn; [lia|].
  cbn [loop]. rewrite bind_run. specialize (Hb w). specialize (Hlt w).
  destruct (body w) as [[[x|]|e|] w1]; cbn in *; [done| |done|done].
  apply IH. specialize (Hlt eq_refl). lia.
Qed.

Lemma clean_while_true {A} (body : M (option A)) :
  clean body -> lt_in body -> clean (while_true body).
Proof.
  intros Hb Hlt w. unfold while_true. apply clean_loop; [done| |unfold pending; lia].
  intros w1. apply Hlt.
Qed.

Lemma clean_not c : clean c -> clean (not_ c).
Proof. intros Hc. apply clean_bind; [done|]. intros b. apply clean_ret. Qed.

Lemma clean_while c body :
  clean c -> le_in c -> clean body -> lt_in body -> clean (while_ c body).
Proof.
  intros Hc Hle Hb Hlt w. unfold while_, while_true.
  apply clean_loop; [| |unfold pending; lia].
  - apply clean_bind; [done|]. intros []; [|apply clean_ret].
    apply clean_bind; [done|]. intros _. apply clean_ret.
  - intros w1. rewrite bind_run. specialize (Hle w1).
    destruct (c w1) as [[[]|e|] w2]; cbn in *; [|done..].
    rewrite bind_run. specialize (Hlt w2).
    destruct (body w2) as [[[]|e|] w3]; cbn in *; [|done..].
    intros _. specialize (Hlt () eq_refl). lia.
Qed.

Lemma clean_for {A} (l : list A) body : (forall x, clean (body x)) -> clean (for_ l body).
Proof.
  intros Hb. induction l as [|x l IH]; [apply clean_ret|].
  cbn [for_]. apply clean_bind; [done|]. by intros _.
Qed.

Lemma clean_for_fold {A St} (l : list A) (s : St) body :
  (forall s x, clean (body s x)) -> clean (for_fold l s body).
Proof.
  intros Hb. revert s. induction l as [|x l IH]; intros s; [apply clean_ret|].
  cbn [for_fold]. apply clean_bind; [done|]. intros s'. apply IH.
Qed.

Lemma clean_for_return {A R} (l : list A) (body : A -> M (option R)) :
  (forall x, clean (body x)) -> clean (for_return l body).
Proof.
  intros Hb. induction l as [|x l IH]; [apply clean_ret|].
  cbn [for_return]. apply clean_bind; [done|]. intros [v|]; [apply clean_ret|done].
Qed.

Lemma clean_prim {A} (m : M A) : (forall w, fine (m w).1) -> clean m.
Proof. done. Qed.

Ltac fine_prim :=
  let w := fresh "w" in
  intros w;
  cbv [print input getpass logger get_config put_config write_file read_file
       mkdir subprocess_run];
  repeat case_match; done.

Create HintDb clean.

#[export] Hint Extern 1 (clean ?m) =>
  let h := head_of m in
  lazymatch h with
  | @print => idtac | @input => idtac | @getpass => idtac | @logger => idtac
  | @get_config => idtac | @put_config => idtac | @write_file => idtac
  | @read_file => idtac | @mkdir => idtac | @subprocess_run => idtac
  end; apply clean_prim; solve [fine_prim] : clean.

Lemma fine_getitem c k : fine (Py.getitem c k).
Proof. destruct c; cbn; try done. by case_match. Qed.

Lemma fine_setitem c k v : fine (Py.setitem c k v).
Proof. by destruct c. Qed.

Lemma fine_get c k d : fine (Py.get c k d).
Proof. by destruct c. Qed.

Lemma fine_contains s c : fine (Py.contains s c).
Proof. by destruct c. Qed.

Lemma fine_iter c : fine (Py.iter c).
Proof. by destruct c. Qed.

Lemma fine_upper c : fine (Py.upper c).
Proof. by destruct c. Qed.

Lemma fine_append c x : fine (Py.append c x).
Proof. by destruct c. Qed.

Lemma fine_as_str c : fine (Py.as_str c).
Proof. by destruct c. Qed.

Lemma fine_validate_email s : fine (validate_email s).
Proof. unfold validate_email. by repeat case_match. Qed.

Lemma fine_rbind {A B} (r : result A) (k : A -> result B) :
  fine r -> (forall a, fine (k a)) -> fine (rbind r k).
Proof. destruct r; cbn; auto. Qed.

Lemma fine_eval_piece c p : fine (eval_piece c p).
Proof.
  destruct p; cbn; [done|..];
    repeat (apply fine_rbind; [auto using fine_getitem, fine_get|intros ?]); done.
Qed.

Lemma fine_format c t : fine (format c t).
Proof.
  induction t as [|p t IH]; [done|]. cbn.
  apply fine_rbind; [apply fine_eval_piece|]. intros s.
  apply fine_rbind; [done|]. by intros.
Qed.

#[export] Hint Resolve fine_getitem fine_setitem fine_get fine_contains fine_iter
  fine_upper fine_append fine_as_str fine_validate_email fine_format : clean.

Ltac lt_go :=
  repeat lazymatch goal with
  | |- lt_in (get_user_input _ _ _) => apply lt_get_user_input
  | |- lt_in (confirm_action _) => apply lt_confirm_action
  | |- lt_in (input _) => apply lt_input
  | |- lt_in (_ ≫= _) =>
      first [ apply lt_bind_l; [solve [lt_go]|intros ?; le_go]
            | apply lt_bind_r; [le_go|intros ?] ]
  end.

Ltac clean_step :=
  lazymatch goal with
  | |- le_in _ => le_go
  | |- lt_in _ => lt_go
  | |- clean (mret _) => apply clean_ret
  | |- clean (raise _) => apply clean_raise; first [done | assumption]
  | |- clean (lift _) => apply clean_lift; solve [auto with clean]
  | |- clean (_ ≫= _) => apply clean_bind; [|intros ?]
  | |- clean (try_except _ _ _) => apply clean_try; [|intros ? ? ?]
  | |- clean (while_true _) => apply clean_while_true
  | |- clean (while_ _ _) => apply clean_while
  | |- clean (not_ _) => apply clean_not
  | |- clean (for_ _ _) => apply clean_for; intros ?
  | |- clean (for_fold _ _ _) => apply clean_for_fold; intros ? ?
  | |- clean (for_return _ _) => apply clean_for_return; intros ?
  | |- clean (let _ := _ in _) => cbv zeta
  | |- clean (if ?b then _ else _) => destruct b
  | |- clean (match ?x with _ => _ end) => destruct x
  | |- clean ?m =>
      first [ solve [auto with clean]
            | let h := head_of m in progress unfold h ]
  end.

Ltac clean_go := repeat clean_step.

Lemma clean_get_user_input p d r : clean (get_user_input p d r).
Proof.
  unfold get_user_input. cbv zeta. apply clean_while_true; [clean_go|].
  apply lt_bind_l; [apply lt_input|]. intros a. le_go.
Qed.

Lemma clean_confirm_action message : clean (confirm_action message).
Proof.
  unfold confirm_action. apply clean_while_true; [clean_go|].
  apply lt_bind_l; [apply lt_input|]. intros a. le_go.
Qed.

#[export] Hint Resolve clean_get_user_input clean_confirm_action : clean.

Lemma clean_run_command E c check : clean (run_command E c check).
Proof. clean_go. Qed.

#[export] Hint Resolve clean_run_command : clean.

Lemma clean_check_prerequisites E : clean (check_prerequisites E).
Proof. clean_go. Qed.

Lemma clean_collect_deployment_config E : clean (collect_deployment_config E).
Proof. clean_go. Qed.

Lemma clean_deploy_components E : clean (deploy_components E).
Proof. clean_go. Qed.

#[export] Hint Resolve clean_check_prerequisites clean_collect_deployment_config
  clean_deploy_components : clean.

(** ** Prompts *)

Lemma input_line prompt w s rest :
  stdin w = Line s :: rest -> input prompt w = (Ret s, asked prompt rest w).
Proof. intros H. unfold input. by rewrite H. Qed.

Lemma confirm_action_line message w s rest :
  stdin w = Line s :: rest ->
  confirm_action message w =
  let w1 := asked (message +:+ " [y/N]: ") rest w in
  if bool_decide (response s ∈ ["y"; "yes"]) then (Ret true, w1)
  else if bool_decide (response s ∈ ["n"; "no"; ""]) then (Ret false, w1)
  else confirm_action message (said "Please enter 'y' for yes or 'n' for no." w1).
Proof.
  intros H. unfold confirm_action at 1, while_true. rewrite H. cbn [length loop].
  rewrite bind_run, bind_run, (input_line _ _ _ _ H). cbv zeta. fold (response s).
  destruct (bool_decide (response s ∈ ["y"; "yes"])); [done|].
  destruct (bool_decide (response s ∈ ["n"; "no"; ""])); [done|].
  reflexivity.
Qed.

Lemma confirm_action_answer message evs :
  forall w, stdin w = evs ->
  match (confirm_action message w).1 with
  | Ret b => answer_of evs = Some b
  | Raise e => answer_of evs = None /\ is_SystemExit e = false
  | Timeout => False
  end.
Proof.
  induction evs as [|[s|] rest IH]; intros w H.
  - unfold confirm_action, while_true, input. rewrite H. cbn [length loop].
    rewrite bind_run, bind_run. by rewrite H.
  - rewrite (confirm_action_line _ _ _ _ H). cbn [answer_of]. cbv zeta.
    destruct (bool_decide (response s ∈ ["y"; "yes"])); [done|].
    destruct (bool_decide (response s ∈ ["n"; "no"; ""])); [done|].
    by apply IH.
  - unfold confirm_action, while_true, input. rewrite H. cbn [length loop].
    rewrite bind_run, bind_run. by rewrite H.
Qed.

(** C8, as the code has it: the answer is lower-cased and stripped of
    surrounding white space first.  If the result is "y" or "yes" the prompt
    returns true, if it is "n", "no" or empty it returns false, and in both
    cases one answer was read; any other answer prints the reminder and the
    prompt asks again, with the remaining answers. *)
Theorem confirm_action_spec message w answer rest :
  stdin w = Line answer :: rest ->
  let w1 := asked (message +:+ " [y/N]: ") rest w in
  (response answer ∈ ["y"; "yes"] -> confirm_action message w = (Ret true, w1)) /\
  (response answer ∈ ["n"; "no"; ""] -> confirm_action message w = (Ret false, w1)) /\
  (response answer ∉ ["y"; "yes"; "n"; "no"; ""] ->
   confirm_action message w =
   confirm_action message (said "Please enter 'y' for yes or 'n' for no." w1)).
Proof.
  intros H w1. rewrite (confirm_action_line _ _ _ _ H). fold w1. cbv zeta.
  split; [|split]; intros Hr.
  - by rewrite bool_decide_eq_true_2.
  - rewrite bool_decide_eq_false_2, bool_decide_eq_true_2; [done..|].
    revert Hr. rewrite !elem_of_cons, !elem_of_nil. intros [->|[->|[->|[]]]]; vm_compute;
      intros [?|[?|[]]]; discriminate.
  - revert Hr. rewrite !not_elem_of_cons. intros (?&?&?&?&?&?).
    rewrite !bool_decide_eq_false_2; [done|..]; rewrite !not_elem_of_cons; auto.
Qed.

Lemma confirm_action_spec_witness :
  confirm_action "Continue?" (Sample.fresh ["YES"])
  = (Ret true, asked "Continue? [y/N]: " [] (Sample.fresh ["YES"])) /\
  confirm_action "Continue?" (Sample.fresh [" No "])
  = (Ret false, asked "Continue? [y/N]: " [] (Sample.fresh [" No "])) /\
  confirm_action "Continue?" (Sample.fresh ["maybe"; "y"])
  = confirm_action "Continue?"
      (said "Please enter 'y' for yes or 'n' for no."
         (asked "Continue? [y/N]: " [Line "y"] (Sample.fresh ["maybe"; "y"]))).
Proof.
  split; [|split].
  - apply (confirm_action_spec "Continue?" (Sample.fresh ["YES"]) "YES" [] eq_refl).
    apply (bool_decide_unpack _). vm_compute. exact I.
  - apply (confirm_action_spec "Continue?" (Sample.fresh [" No "]) " No " [] eq_refl).
    apply (bool_decide_unpack _). vm_compute. exact I.
  - apply (confirm_action_spec "Continue?" (Sample.fresh ["maybe"; "y"]) "maybe"
             [Line "y"] eq_refl).
    apply (bool_decide_unpack _). vm_compute. exact I.
Defined.

(** "N" is none of the seven answers of the claim, yet the prompt returns
    false at once and leaves the next answer unread. *)
Lemma confirm_uppercase_not_reprompted :
  ("N" ∉ ["y"; "Y"; "yes"; "YES"; ""; "n"; "no"]) /\
  (confirm_action "Continue?" (Sample.fresh ["N"; "y"])).1 = Ret false /\
  stdin (confirm_action "Continue?" (Sample.fresh ["N"; "y"])).2 = [Line "y"].
Proof. split; [by apply (bool_decide_unpack _)|by vm_compute]. Qed.

(** White space outside ASCII is stripped as well: a "Y" between two
    no-break spaces is a yes, a no-break space alone is an empty answer,
    and an em space after a menu choice does not count. *)
Lemma no_break_space_stripped :
  let nbsp := Str.bytes [194; 160] in
  let emsp := Str.bytes [226; 128; 131] in
  (confirm_action "Continue?" (Sample.fresh [nbsp +:+ "Y" +:+ nbsp; "n"])).1 = Ret true /\
  (get_user_input "Kubernetes namespace" (Some "magma") true (Sample.fresh [nbsp])).1
  = Ret "magma" /\
  Str.strip ("1" +:+ emsp +:+ " ") = "1" /\
  Str.strip (" a" +:+ nbsp +:+ "b" +:+ nbsp) = "a" +:+ nbsp +:+ "b".
Proof. by vm_compute. Qed.

(** A loop that asks, then decides without reading further. *)
Lemma while_true_input {A} prompt (k : string -> M (option A)) w s rest :
  (forall s Q, inv_on stdin Q (k s)) ->
  stdin w = Line s :: rest ->
  while_true (answer ← input prompt; k answer) w =
  match k s (asked prompt rest w) with
  | (Ret (Some a), w') => (Ret a, w')
  | (Ret None, w') => while_true (answer ← input prompt; k answer) w'
  | (Raise e, w') => (Raise e, w')
  | (Timeout, w') => (Timeout, w')
  end.
Proof.
  intros Hk H. unfold while_true at 1. rewrite H. cbn [length loop].
  rewrite bind_run, bind_run, (input_line _ _ _ _ H).
  pose proof (Hk s (eq rest) (asked prompt rest w) eq_refl) as Hrest.
  destruct (k s (asked prompt rest w)) as [[[a|]|e|] w']; cbn [snd] in Hrest; try done.
  unfold while_true. by rewrite <- Hrest.
Qed.

Lemma get_user_input_line p d r w s rest :
  stdin w = Line s :: rest ->
  get_user_input p d r w =
  let w1 := asked (if truthy d then p +:+ " [" +:+ default "" d +:+ "]: "
                   else p +:+ ": ") rest w in
  if truthy (Some (Str.strip s)) then (Ret (Str.strip s), w1)
  else if truthy d then (Ret (default "" d), w1)
  else if negb r then (Ret "", w1)
  else get_user_input p d r (said "This field is required. Please enter a value." w1).
Proof.
  intros H. unfold get_user_input. cbv zeta.
  rewrite (while_true_input _ _ w s rest); [|intros; cbv beta; inv_go|exact H].
  destruct (truthy (Some (Str.strip s))); [done|].
  destruct (truthy d); [done|]. by destruct (negb r).
Qed.

(** ** The run, from start to exit *)

Lemma main_run E a w :
  main E a w =
  match startup E a w with
  | (Ret _, w1) =>
      (ok ← run_deployment E;
       if ok : bool then
         print (Str.nl +:+ Icon.party +:+ " Deployment completed successfully!");;
         sys_exit 0
       else
         print (Str.nl +:+ Icon.cross +:+ " Deployment failed!");;
         sys_exit 1) w1
  | (Raise e, w1) => (Raise e, w1)
  | (Timeout, w1) => (Timeout, w1)
  end.
Proof.
  expand (main E a). expand (startup E a). rewrite !bind_run.
  destruct (init E w) as [[?|?|] w0]; [|done..].
  rewrite bind_run. by destruct (load_if_provided E a w0) as [[?|?|] ?].
Qed.

Lemma startup_stdin E a Q : inv_on stdin Q (startup E a).
Proof. inv_go. Qed.

Lemma startup_files E a Q : inv_on files Q (startup E a).
Proof. inv_go. Qed.

Lemma init_run E w :
  exists w0, init E w = (Ret (), w0) /\ files w0 = files w /\ stdin w0 = stdin w
             /\ config w0 = PDict [].
Proof. eexists. split; [reflexivity|]. done. Qed.

Lemma load_config_run E path w :
  load_config E path w =
  match files w !! path with
  | Some content =>
      match yaml_safe_load E content with
      | inr v => (Ret (), set_config v w)
      | inl msg => (Raise (YAMLError msg), w)
      end
  | None => (Raise (FileNotFoundError path), w)
  end.
Proof.
  expand (load_config E path). rewrite bind_run. unfold read_file.
  destruct (files w !! path) as [content|]; [|done].
  by destruct (yaml_safe_load E content).
Qed.

Lemma startup_cases E a w :
  (loads E a w /\ exists w1, startup E a w = (Ret (), w1)) \/
  (~ loads E a w /\ exists w1, startup E a w = (Raise (SystemExit 1), w1)).
Proof.
  expand (startup E a). rewrite bind_run.
  destruct (init_run E w) as (w0&->&Hfiles&_&_).
  unfold loads. expand (load_if_provided E a).
  destruct (truthy (args_config a)); [|left; split; [done|by eexists]].
  rewrite try_except_run, bind_run, load_config_run, Hfiles.
  destruct (files w !! default "" (args_config a)) as [content|] eqn:Hf.
  - destruct (yaml_safe_load E content) as [msg|v] eqn:Hy.
    + right. split; [|by eexists].
      intros H. destruct (H eq_refl) as (c'&v&[= <-]&?). congruence.
    + left. split; [eauto|]. rewrite print_run. by eexists.
  - right. split; [|by eexists].
    intros H. by destruct (H eq_refl) as (c'&v&?&?).
Qed.

Lemma welcome_message_outcome w :
  match (welcome_message w).1 with
  | Ret _ => answer_of (stdin w) = Some true
  | Raise e =>
      if is_SystemExit e then e = SystemExit 0 /\ answer_of (stdin w) = Some false
      else answer_of (stdin w) = None
  | Timeout => False
  end.
Proof.
  expand welcome_message. rewrite !print_bind.
  match goal with |- context [_ (said ?s ?w')] => set (w0 := said s w') end.
  rewrite bind_run.
  pose proof (confirm_action_answer "Do you want to continue with the deployment?"
                (stdin w) w0 eq_refl) as H.
  destruct (confirm_action _ w0) as [[[]|e|] w1]; cbn [fst] in H |- *.
  - by rewrite mret_run.
  - by rewrite print_bind.
  - destruct H as [H ->]. done.
  - done.
Qed.

Lemma welcome_files Q : inv_on files Q welcome_message.
Proof. inv_go. Qed.

Lemma deployment_workflow_eq E :
  deployment_workflow E = (welcome_message;; after_welcome E).
Proof. reflexivity. Qed.

Lemma clean_after_welcome E : clean (after_welcome E).
Proof. clean_go. Qed.

Lemma workflow_ret_inv E w w' :
  deployment_workflow E w = (Ret true, w') -> deployment_completes E w.
Proof.
  intros H. expand (deployment_workflow E) in H.
  apply bind_ret_inv in H as ([]&w1&Hwel&H).
  apply bind_ret_inv in H as (ready&w2&Hpre&H).
  rewrite if_negb_run in H.
  destruct ready.
  2:{ rewrite mret_run in H. discriminate H. }
  apply bind_ret_inv in H as ([]&w3&Hcol&H).
  apply bind_ret_inv in H as (go&w4&Hgo&H).
  destruct go.
  - apply bind_ret_inv in H as ([]&w5&Hdep&H).
    exists w1, w2, w3, w4, w5. repeat split; assumption.
  - apply bind_ret_inv in H as (?&?&?&H). rewrite mret_run in H. discriminate H.
Qed.

Lemma workflow_outcome E w :
  match (deployment_workflow E w).1 with
  | Ret true => deployment_completes E w
  | Ret false => answer_of (stdin w) = Some true
  | Raise e =>
      if is_SystemExit e then e = SystemExit 0 /\ answer_of (stdin w) = Some false
      else answer_of (stdin w) <> Some false
  | Timeout => False
  end.
Proof.
  destruct (deployment_workflow E w) as [r w'] eqn:Hrun. cbn [fst].
  destruct r as [[]|e|]; [by eapply workflow_ret_inv|..];
    rewrite deployment_workflow_eq, bind_run in Hrun;
    pose proof (welcome_message_outcome w) as Hw;
    destruct (welcome_message w) as [[[]|e'|] w1]; cbn [fst] in Hw.
  - done.
  - discriminate Hrun.
  - discriminate Hrun.
  - pose proof (clean_after_welcome E w1) as Hc. rewrite Hrun in Hc.
    cbn [fst fine] in Hc. rewrite Hc. congruence.
  - injection Hrun as <- _. destruct (is_SystemExit e'); [done|congruence].
  - discriminate Hrun.
  - pose proof (clean_after_welcome E w1) as Hc. by rewrite Hrun in Hc.
  - discriminate Hrun.
  - done.
Qed.

Lemma deployment_completes_run E w :
  deployment_completes E w -> (deployment_workflow E w).1 = Ret true.
Proof.
  intros (w1&w2&w3&w4&w5&H1&H2&H3&H4&H5). expand (deployment_workflow E).
  rewrite bind_run, H1, bind_run, H2, if_negb_run.
  by rewrite bind_run, H3, bind_run, H4, bind_run, H5.
Qed.

Lemma run_deployment_outcome E w :
  match (run_deployment E w).1 with
  | Ret true => deployment_completes E w
  | Ret false => ~ deployment_completes E w /\ answer_of (stdin w) <> Some false
  | Raise e => e = SystemExit 0 /\ answer_of (stdin w) = Some false
  | Timeout => False
  end.
Proof.
  expand (run_deployment E). rewrite try_except_run.
  pose proof (workflow_outcome E w) as Hw.
  pose proof (deployment_completes_run E w) as Hc.
  destruct (deployment_workflow E w) as [[[]|e|] w1]; cbn [fst] in *; [done| | |done].
  - split; [|congruence]. intros H. by specialize (Hc H).
  - assert (~ deployment_completes E w) as Hn by (intros H; by specialize (Hc H)).
    destruct e; cbn [is_SystemExit is_KeyboardInterrupt is_Exception orb] in *;
      rewrite ?bind_run, ?print_run; cbn [fst]; done.
Qed.

Lemma completes_accepts E w :
  deployment_completes E w -> answer_of (stdin w) = Some true.
Proof.
  intros (w1&w2&w3&w4&w5&H1&_). pose proof (welcome_message_outcome w) as H.
  by rewrite H1 in H.
Qed.

Lemma decline_run E w :
  answer_of (stdin w) = Some false ->
  exists w', run_deployment E w = (Raise (SystemExit 0), w') /\ files w' = files w.
Proof.
  intros Hno. expand (run_deployment E).
  rewrite try_except_run, deployment_workflow_eq, bind_run.
  pose proof (welcome_message_outcome w) as Hw.
  pose proof (welcome_files (eq (files w)) w eq_refl) as Hf.
  destruct (welcome_message w) as [[[]|e|] w1]; cbn [fst snd] in Hw, Hf; [congruence| |done].
  destruct (is_SystemExit e) eqn:He; [|congruence].
  destruct Hw as [-> _]. cbn [is_KeyboardInterrupt is_Exception orb]. eauto.
Qed.

Lemma main_outcome E a w :
  exists code w',
    main E a w = (Raise (SystemExit code), w') /\
    (code = 0%N \/ code = 1%N) /\
    (code = 0%N <->
     exists w1, startup E a w = (Ret (), w1) /\
                (deployment_completes E w1 \/ answer_of (stdin w1) = Some false)).
Proof.
  rewrite main_run.
  destruct (startup_cases E a w) as [[_ [w1 Hs]]|[_ [w1 Hs]]]; rewrite Hs.
  2:{ exists 1%N, w1. split; [done|]. split; [by right|].
      split; [done|]. by intros (w2&[=]&_). }
  rewrite bind_run. pose proof (run_deployment_outcome E w1) as Hrun.
  destruct (run_deployment E w1) as [[[]|e|] w2]; cbn [fst] in Hrun.
  - rewrite print_bind. eexists 0%N, _. split; [reflexivity|].
    split; [by left|]. split; [eauto|done].
  - rewrite print_bind. eexists 1%N, _. split; [reflexivity|].
    split; [by right|]. split; [done|].
    intros (w3&[= <-]&[H|H]); by destruct Hrun.
  - destruct Hrun as [-> Hno]. exists 0%N, w2. split; [done|].
    split; [by left|]. split; [eauto|done].
  - done.
Qed.

(** The fuel of the loops never runs out. *)
Lemma main_terminates E a w : (main E a w).1 <> Timeout.
Proof. destruct (main_outcome E a w) as (code&w'&->&_). done. Qed.

(** C5: two runs that differ only in [--skip-prerequisites] and [--dry-run]
    are the same run: same outcome, same terminal output, same commands,
    same files. *)
Theorem flags_not_consulted E path skip dry skip' dry' w :
  main E (Args path skip dry) w = main E (Args path skip' dry') w.
Proof.
  assert (load_if_provided E (Args path skip dry)
          = load_if_provided E (Args path skip' dry')) as Hload by reflexivity.
  expand (main E (Args path skip dry)). expand (main E (Args path skip' dry')).
  by rewrite Hload.
Qed.

(** C6: when the run reaches the welcome prompt (no configuration file was
    asked for, or it loaded) and the first answer the prompt accepts is a
    declining one, the process exits with status 0 and the files are what
    they were: neither the configuration file nor a script was written. *)
Theorem decline_welcome_exits_0 E a w :
  loads E a w ->
  answer_of (stdin w) = Some false ->
  exit_status (main E a w) = Some 0%N /\ files (main E a w).2 = files w.
Proof.
  intros Hload Hno. rewrite main_run.
  pose proof (startup_stdin E a (eq (stdin w)) w eq_refl) as Hin.
  pose proof (startup_files E a (eq (files w)) w eq_refl) as Hfi.
  destruct (startup_cases E a w) as [[_ [w1 Hs]]|[Hn _]]; [|done].
  rewrite Hs in Hin, Hfi |- *. cbn [snd] in Hin, Hfi.
  rewrite Hin in Hno. destruct (decline_run E w1 Hno) as (w2&Hrun&Hf).
  rewrite bind_run, Hrun. split; [done|]. cbn [snd]. congruence.
Qed.

Lemma decline_welcome_exits_0_witness :
  exit_status (main Sample.E0 Sample.no_flags (Sample.fresh ["perhaps"; "No"])) = Some 0%N /\
  files (main Sample.E0 Sample.no_flags (Sample.fresh ["perhaps"; "No"])).2 = ∅.
Proof.
  apply (decline_welcome_exits_0 Sample.E0 Sample.no_flags (Sample.fresh ["perhaps"; "No"])).
  - intros H. discriminate H.
  - reflexivity.
Defined.

(** C9, as the code has it: the process exits with status 0, 1 or 2.  When
    argparse refuses the command line the status is 2, when the help is
    asked for it is 0, and in both cases nothing else was done.  When the
    arguments are taken, the status is 0 or 1, and 0 exactly when the
    deployment ran to its end or the operator declined at the welcome
    prompt: every other run (configuration that does not load, failed
    prerequisites, interrupt, declined final confirmation, exception)
    exits with 1. *)
Theorem exit_status_cases parse_args E argv w :
  match parse_args argv with
  | UsageError _ =>
      exit_status (main_argv parse_args E argv w) = Some 2%N /\
      untouched_by_parser w (main_argv parse_args E argv w).2 /\
      out (main_argv parse_args E argv w).2 = out w
  | HelpRequested help =>
      exit_status (main_argv parse_args E argv w) = Some 0%N /\
      untouched_by_parser w (main_argv parse_args E argv w).2 /\
      out (main_argv parse_args E argv w).2 = out w ++ [help]
  | Namespace a =>
      (exit_status (main_argv parse_args E argv w) = Some 0%N \/
       exit_status (main_argv parse_args E argv w) = Some 1%N) /\
      (exit_status (main_argv parse_args E argv w) = Some 0%N <->
       exists w1, startup E a w = (Ret (), w1) /\
                  (deployment_completes E w1 \/ answer_of (stdin w1) = Some false))
  end.
Proof.
  unfold main_argv. destruct (parse_args argv) as [a|help|message].
  - destruct (main_outcome E a w) as (code&w'&->&Hcode&Hiff).
    unfold exit_status. cbn [fst]. split.
    + destruct Hcode as [->| ->]; [by left|by right].
    + rewrite <- Hiff. split; [by intros [= ->]|by intros ->].
  - by rewrite print_bind.
  - done.
Qed.

(** Declining at the welcome prompt exits with status 0 although nothing
    was deployed: no command ran and no file was written. *)
Lemma exit_0_without_deployment :
  let w := Sample.fresh ["n"] in
  exit_status (main Sample.E0 Sample.no_flags w) = Some 0%N /\
  cmds (main Sample.E0 Sample.no_flags w).2 = [] /\
  files (main Sample.E0 Sample.no_flags w).2 = ∅ /\
  ~ deployment_completes Sample.E0 (startup Sample.E0 Sample.no_flags w).2.
Proof.
  cbv zeta. split; [by vm_compute|]. split; [by vm_compute|]. split; [by vm_compute|].
  intros (w1&w2&w3&w4&w5&H&_). vm_compute in H. discriminate H.
Qed.

(** ** The questionnaire *)

(** *** The configuration dictionary *)
Lemma dict_get_set_eq d k v : Py.dict_get (Py.dict_set d k v) k = Some v.
Proof.
  induction d as [|[k' v'] d IH]; cbn.
  - by rewrite String.eqb_refl.
  - destruct (String.eqb k' k) eqn:Hk; cbn; rewrite Hk; [done|exact IH].
Qed.

Lemma dict_get_set_ne d k k' v :
  k' <> k -> Py.dict_get (Py.dict_set d k' v) k = Py.dict_get d k.
Proof.
  intros Hne. induction d as [|[k0 v0] d IH]; cbn.
  - by apply String.eqb_neq in Hne as ->.
  - destruct (String.eqb k0 k') eqn:Hk; cbn.
    + apply String.eqb_eq in Hk as ->. by apply String.eqb_neq in Hne as ->.
    + by rewrite IH.
Qed.

Lemma inv_set_cfg (Q : pyval -> Prop) k v :
  (forall d, Q (PDict d) -> Q (PDict (Py.dict_set d k v))) ->
  inv_on config Q (set_cfg k v).
Proof.
  intros H w HQ. unfold set_cfg, get_config, put_config, lift.
  rewrite !bind_run. destruct w as [c i fs ds cm lg o]. cbn in *.
  destruct c; cbn; try done. by apply H.
Qed.

Lemma inv_set_cfg_other k x k' v :
  k' <> k -> inv_on config (fun c => Py.lookup c k = x) (set_cfg k' v).
Proof. intros Hne. apply inv_set_cfg. intros d. cbn. by rewrite dict_get_set_ne. Qed.

Lemma inv_set_cfg_some k k' v :
  inv_on config (fun c => is_Some (Py.lookup c k)) (set_cfg k' v).
Proof.
  apply inv_set_cfg. intros d. cbn. destruct (decide (k' = k)) as [->|Hne].
  - by rewrite dict_get_set_eq.
  - by rewrite dict_get_set_ne.
Qed.

Lemma inv_set_cfg_dict k v : inv_on config is_dict (set_cfg k v).
Proof. by apply inv_set_cfg. Qed.

#[export] Hint Resolve inv_set_cfg_some inv_set_cfg_dict : inv.

#[export] Hint Extern 1 (inv_on config (fun c => Py.lookup c _ = _) (set_cfg _ _)) =>
  apply inv_set_cfg_other; first [discriminate | congruence] : inv.

Lemma set_cfg_ret k v w w' :
  set_cfg k v w = (Ret (), w') ->
  is_dict (config w') /\ Py.lookup (config w') k = Some v.
Proof.
  unfold set_cfg, get_config, put_config, lift. rewrite !bind_run.
  destruct w as [c i fs ds cm lg o]. cbn.
  destruct c; cbn; try done. intros [= <-]. cbn. by rewrite dict_get_set_eq.
Qed.

Lemma cfg_run k w :
  cfg k w = (Py.getitem (config w) k, w).
Proof.
  unfold cfg, get_config, lift. rewrite bind_run. by destruct (Py.getitem (config w) k).
Qed.


(** The menu stores nothing for an answer outside its five choices. *)
Lemma select_components_other w answer rest :
  stdin w = Line answer :: rest ->
  Str.strip answer ∉ [""; "1"; "2"; "3"; "4"; "5"] ->
  exists w1, select_components w = (Ret (), w1) /\ stdin w1 = rest /\
             config w1 = config w.
Proof.
  intros Hin Hch. apply not_elem_of_cons in Hch as [H0 Hch].
  apply not_elem_of_cons in Hch as [H1 Hch]. apply not_elem_of_cons in Hch as [H2 Hch].
  apply not_elem_of_cons in Hch as [H3 Hch]. apply not_elem_of_cons in Hch as [H4 Hch].
  apply not_elem_of_cons in Hch as [H5 _].
  expand select_components. rewrite !print_bind, bind_run.
  erewrite get_user_input_line by exact Hin. cbv zeta.
  assert (truthy (Some (Str.strip answer)) = true) as ->.
  { cbn. by apply String.eqb_neq in H0 as ->. }
  apply String.eqb_neq in H1 as ->. apply String.eqb_neq in H2 as ->.
  apply String.eqb_neq in H3 as ->. apply String.eqb_neq in H4 as ->.
  apply String.eqb_neq in H5 as ->.
  rewrite mret_run. eexists. split; [reflexivity|]. done.
Qed.

(** *** The component sub-records *)
Ltac rest_keeps H Q Hinv :=
  cbv beta in H;
  match type of H with
  | ?m _ = _ => assert (inv_on config Q m) as Hinv by inv_go
  end.










Lemma collect_general_config_other_keys E k x :
  k ∉ ["domain"; "admin_email"; "network"] ->
  inv_on config (fun c => Py.lookup c k = x) (collect_general_config E).
Proof.
  rewrite !not_elem_of_cons. intros (?&?&?&_). inv_go.
Qed.





(** *** An answer outside the menu *)

Lemma collect_general_config_dict E w w' :
  collect_general_config E w = (Ret (), w') -> is_dict (config w').
Proof.
  intros H. expand (collect_general_config E) in H.
  apply bind_ret_inv in H as (v&wa&_&H). apply bind_ret_inv in H as ([]&wb&Hset&H).
  apply set_cfg_ret in Hset as [Hd _].
  rest_keeps H is_dict Hinv. specialize (Hinv wb Hd). by rewrite H in Hinv.
Qed.

Lemma components_missing E w w2 w3 :
  select_components w = (Ret (), w2) ->
  collect_general_config E w2 = (Ret (), w3) ->
  Py.lookup (config w3) "components" = None ->
  collect_deployment_config E w = (Raise (KeyError "components"), w3).
Proof.
  intros Hsel Hgen Hnone. pose proof (collect_general_config_dict _ _ _ Hgen) as Hd.
  expand (collect_deployment_config E). rewrite bind_run, Hsel, bind_run, Hgen.
  expand (collect_component_config E). expand (in_cfg "orchestrator" "components").
  rewrite !bind_run, cfg_run. destruct (config w3) as [| | |d]; try done.
  cbn in Hnone |- *. by rewrite Hnone.
Qed.

(** An exception raised while the configuration is collected ends the
    run with status 1. *)
Lemma collect_failure_exit E a w wa wb w1 e w3 :
  startup E a w = (Ret (), wa) ->
  welcome_message wa = (Ret (), wb) ->
  check_prerequisites E wb = (Ret true, w1) ->
  collect_deployment_config E w1 = (Raise e, w3) ->
  is_Exception e = true ->
  exit_status (main E a w) = Some 1%N /\ config (main E a w).2 = config w3.
Proof.
  intros Hs Hw Hp Hc He. rewrite main_run, Hs, bind_run.
  expand (run_deployment E). rewrite try_except_run, deployment_workflow_eq.
  rewrite bind_run, Hw. expand (after_welcome E).
  rewrite bind_run, Hp, if_negb_run, bind_run, Hc, He, orb_true_r.
  destruct (is_KeyboardInterrupt e) eqn:Hk; [by destruct e|].
  by rewrite logger_bind, !print_bind, mret_run, print_bind.
Qed.

(** C10, as the code has it: the run has reached the menu with a
    configuration that holds no components entry, and the answer, stripped of
    white space, is neither empty nor one of "1" to "5".  Then the menu reads
    that one answer, asks nothing again and stores nothing; and once the
    domain, e-mail and address prompts are answered, the questionnaire raises
    KeyError('components'), the process exits with status 1, and the final
    configuration still has no components entry. *)
Theorem invalid_choice_aborts E a w w1 answer rest :
  (startup E a;; welcome_message;; check_prerequisites E) w = (Ret true, w1) ->
  Py.lookup (config w1) "components" = None ->
  stdin w1 = Line answer :: rest ->
  Str.strip answer ∉ [""; "1"; "2"; "3"; "4"; "5"] ->
  exists w2,
    select_components w1 = (Ret (), w2) /\ stdin w2 = rest /\ config w2 = config w1 /\
    forall w3, collect_general_config E w2 = (Ret (), w3) ->
      collect_deployment_config E w1 = (Raise (KeyError "components"), w3) /\
      exit_status (main E a w) = Some 1%N /\
      Py.lookup (config (main E a w).2) "components" = None.
Proof.
  intros Hrun Hnone Hin Hch.
  apply bind_ret_inv in Hrun as ([]&wa&Hs&Hrun).
  apply bind_ret_inv in Hrun as ([]&wb&Hw&Hp).
  destruct (select_components_other w1 answer rest Hin Hch) as (w2&Hsel&Hrest&Hcfg).
  exists w2. split; [done|]. split; [done|]. split; [done|]. intros w3 Hgen.
  assert (Py.lookup (config w3) "components" = None) as Hnone3.
  { rewrite <- Hcfg in Hnone.
    pose proof (collect_general_config_other_keys E "components" None
                  ltac:(by apply (bool_decide_unpack _)) w2 Hnone) as H.
    by rewrite Hgen in H. }
  pose proof (components_missing E w1 w2 w3 Hsel Hgen Hnone3) as Hc.
  split; [done|].
  destruct (collect_failure_exit E a w wa wb w1 _ w3 Hs Hw Hp Hc eq_refl) as [Hex Hfin].
  split; [done|]. by rewrite Hfin.
Qed.

Lemma invalid_choice_aborts_witness :
  let w := Sample.fresh ["y"; "7"; "example.org"; "ops@example.org"; "10.0.0.1"] in
  exit_status (main Sample.E0 Sample.no_flags w) = Some 1%N /\
  Py.lookup (config (main Sample.E0 Sample.no_flags w).2) "components" = None.
Proof.
  intros w.
  destruct (invalid_choice_aborts Sample.E0 Sample.no_flags w
              ((startup Sample.E0 Sample.no_flags;; welcome_message;;
                check_prerequisites Sample.E0) w).2
              "7" (Line <$> ["example.org"; "ops@example.org"; "10.0.0.1"]))
    as (w2&Hsel&_&_&H).
  - by vm_compute.
  - reflexivity.
  - by vm_compute.
  - by apply (bool_decide_unpack _).
  - apply (H (collect_general_config Sample.E0 w2).2).
    vm_compute in Hsel. injection Hsel as <-. by vm_compute.
Defined.

(** Pressing Enter at the menu is an answer other than "1" to "5", and it
    selects the full stack; and when a configuration file brought a
    components list, an answer outside the menu does not stop the run. *)
Lemma menu_default_and_loaded_components :
  (("" ∉ ["1"; "2"; "3"; "4"; "5"]) /\
   Py.lookup (config (select_components
                        (set_config (PDict []) (Sample.fresh [""]))).2) "components"
   = Some (PList [PStr "orchestrator"; PStr "agw"; PStr "fgw"; PStr "nms"])) /\
  (("7" ∉ ["1"; "2"; "3"; "4"; "5"]) /\
   exit_status
     (main Sample.E0 (Args (Some "site.yaml") false false)
        (set_files {["site.yaml" := Sample.components_document]}
           (Sample.fresh ["y"; "7"; ""; "ops@example.org"; "10.0.0.1";
                          ""; "10.0.0.2"; ""; ""; ""; ""; ""; "y"])))
   = Some 0%N).
Proof.
  split; (split; [by apply (bool_decide_unpack _)|by vm_compute]).
Qed.

(** ** Loading and saving the configuration *)

Lemma save_config_run E w :
  save_config E w =
  (Ret (),
   said (Str.nl +:+ Icon.check +:+ " Configuration saved to " +:+ config_file E)
     (set_files (<[config_file E := yaml_dump E (config w)]> (files w)) w)).
Proof. reflexivity. Qed.

(** ** Script generation *)

(** *** Rendering *)

Lemma nested_mapping_entry d k v :
  nested_mapping (PDict d) = true ->
  k ∈ ["orchestrator"; "agw"; "fgw"] ->
  Py.dict_get d k = Some v -> exists d', v = PDict d'.
Proof.
  cbn [nested_mapping forallb]. rewrite !andb_true_iff, !elem_of_cons, elem_of_nil.
  intros (H1&H2&H3&_) [->|[->|[->|[]]]] Hv; rewrite Hv in *; destruct v; by eauto.
Qed.

Lemma eval_piece_spec d p :
  nested_mapping (PDict d) = true ->
  reads_components p = true ->
  if present (PDict d) p then exists s, eval_piece (PDict d) p = Ret s
  else exists k, eval_piece (PDict d) p = Raise (KeyError k).
Proof.
  intros Hn Hr. destruct p as [s|k|k1 k2|k1 k2 dflt]; cbn in *.
  - eauto.
  - destruct (Py.dict_get d k) as [v|]; cbn; eauto.
  - apply bool_decide_eq_true in Hr.
    destruct (Py.dict_get d k1) as [v|] eqn:Hv; cbn; [|eauto].
    destruct (nested_mapping_entry d k1 v Hn Hr Hv) as [d' ->]. cbn.
    destruct (Py.dict_get d' k2) as [v'|]; cbn; eauto.
  - apply bool_decide_eq_true in Hr.
    destruct (Py.dict_get d k1) as [v|] eqn:Hv; cbn; [|eauto].
    destruct (nested_mapping_entry d k1 v Hn Hr Hv) as [d' ->]. cbn. eauto.
Qed.

Lemma format_spec cfg t :
  nested_mapping cfg = true ->
  forallb reads_components t = true ->
  if forallb (present cfg) t then exists s, format cfg t = Ret s
  else exists k, format cfg t = Raise (KeyError k).
Proof.
  intros Hn. destruct cfg as [| | |d]; try done.
  induction t as [|p t IH]; cbn [forallb format]; [by eauto|].
  rewrite andb_true_iff. intros [Hp Ht].
  pose proof (eval_piece_spec d p Hn Hp) as He. specialize (IH Ht).
  destruct (present (PDict d) p); cbn [andb].
  - destruct He as [s ->]. cbn [rbind].
    destruct (forallb (present (PDict d)) t).
    + destruct IH as [s' ->]. cbn. eauto.
    + destruct IH as [k ->]. cbn. eauto.
  - destruct He as [k ->]. cbn. eauto.
Qed.

Lemma templates_read_components c :
  forallb reads_components (pieces (template c)) = true.
Proof. destruct c; by vm_compute. Qed.

Lemma generate_script_run lines path w :
  generate_script lines path w =
  match format (config w) (pieces lines) with
  | Ret text => (Ret (), set_files (<[path := text]> (files w)) w)
  | Raise e => (Raise e, w)
  | Timeout => (Timeout, w)
  end.
Proof.
  expand (generate_script lines path). rewrite bind_run. unfold get_config.
  rewrite bind_run, lift_run. by destruct (format (config w) (pieces lines)).
Qed.










Lemma format_rendered cfg c :
  nested_mapping cfg = true ->
  forallb (present cfg) (pieces (template c)) = true ->
  format cfg (pieces (template c)) = Ret (rendered cfg c).
Proof.
  intros Hn Hp. pose proof (format_spec cfg _ Hn (templates_read_components c)) as H.
  rewrite Hp in H. destruct H as [s Hs]. unfold rendered. by rewrite Hs.
Qed.


Lemma deploy_component_dispatch E c :
  deploy_component E (PStr (tag c)) =
  (name ← lift (Py.upper (PStr (tag c)));
   print (Str.nl +:+ Icon.package +:+ " Deploying " +:+ name +:+ "...");;
   deploy_of E c;;
   name ← lift (Py.upper (PStr (tag c)));
   print (Icon.check +:+ " " +:+ name +:+ " deployment completed")).
Proof. by destruct c. Qed.



Lemma tag_inj c c' : tag c = tag c' -> c = c'.
Proof. by destruct c, c'. Qed.

Lemma existsb_tag c comps :
  existsb (Py.is_str (tag c)) (PStr ∘ tag <$> comps) = bool_decide (c ∈ comps).
Proof.
  induction comps as [|c' comps IH]; [done|]. cbn [fmap list_fmap existsb compose Py.is_str].
  fold (fmap (M:=list) (PStr ∘ tag) comps). rewrite IH.
  destruct (String.eqb_spec (tag c') (tag c)) as [Heq|Hne].
  - apply tag_inj in Heq as ->. cbn. symmetry. apply bool_decide_eq_true_2, elem_of_cons. by left.
  - cbn. apply bool_decide_ext. rewrite elem_of_cons. split; [by right|].
    intros [->|?]; [done|done].
Qed.

Lemma in_cfg_tag c comps w :
  Py.lookup (config w) "components" = Some (PList (PStr ∘ tag <$> comps)) ->
  in_cfg (tag c) "components" w = (Ret (bool_decide (c ∈ comps)), w).
Proof.
  intros H. expand (in_cfg (tag c) "components"). rewrite bind_run, cfg_run.
  destruct (config w) as [| | |d]; try done. cbn in H |- *. rewrite H, lift_run.
  cbn [Py.contains]. by rewrite existsb_tag.
Qed.

Lemma in_cfg_named s c comps w :
  s = tag c ->
  Py.lookup (config w) "components" = Some (PList (PStr ∘ tag <$> comps)) ->
  in_cfg s "components" w = (Ret (bool_decide (c ∈ comps)), w).
Proof. intros ->. apply in_cfg_tag. Qed.


(** A block [if sel: body] of the summary. *)
Lemma summary_block {B} (sel : bool) (body : M unit) (k : unit -> M B) w :
  (sel = true -> exists w1, body w = (Ret (), w1) /\ config w1 = config w) ->
  exists w1, ((if sel then body else mret ()) ≫= k) w = k () w1 /\ config w1 = config w.
Proof.
  intros H. destruct sel.
  - destruct (H eq_refl) as (w1&H1&Hc). exists w1. by rewrite bind_run, H1.
  - exists w. by rewrite bind_run, mret_run.
Qed.

Section summary.

Context (E : env) (comps : list component) (conf : pyval).

Hypothesis Hc : Py.lookup conf "components" = Some (PList (PStr ∘ tag <$> comps)).

Hypothesis Hp : forall c, c ∈ comps ->
  forallb (present conf) (pieces (template c)) = true.




Tactic Notation "block" constr(C) ident(w1) ident(Hw1) :=
  rewrite bind_run;
  match goal with
  | Hw : config ?w = conf |- context [in_cfg ?s _ ?w] =>
      rewrite (in_cfg_named s C comps w eq_refl) by (by rewrite Hw);
      cbv beta iota;
      match goal with
      | |- context [((if ?s then ?body else mret ()) ≫= ?k) w] =>
          let Heq := fresh "Heq" in
          destruct (summary_block s body k w) as (w1&Heq&Hw1);
          [intros ?%bool_decide_eq_true
          |rewrite Heq; rewrite Hw in Hw1; clear Heq]
      end
  end.


End summary.

Lemma cfg_lookup k w v :
  Py.lookup (config w) k = Some v -> cfg k w = (Ret v, w).
Proof.
  intros H. rewrite cfg_run. destruct (config w); try done. cbn in *. by rewrite H.
Qed.





(** ** The management console alone *)

(** C1 at its scenario: the operator selects the console only, with domain
    "example.org" and e-mail "ops@example.org".  The questionnaire collects
    no orchestrator sub-record, the console template reads
    [self.config['orchestrator']['namespace']], and the generator raises
    KeyError('orchestrator'): no script is written, no console URL is
    printed and the process exits with status 1. *)
Theorem nms_only_run_fails :
  let w := Sample.fresh ["y"; "5"; "n"; "n"; "n"; "y";
                         "example.org"; "ops@example.org"; "10.0.0.1"; "y"] in
  let r := main Sample.E0 Sample.no_flags w in
  exit_status r = Some 1%N /\
  Py.lookup (config r.2) "components" = Some (PList [PStr "nms"]) /\
  Py.lookup (config r.2) "domain" = Some (PStr "example.org") /\
  Py.lookup (config r.2) "admin_email" = Some (PStr "ops@example.org") /\
  (generate Sample.E0 Console r.2).1 = Raise (KeyError "orchestrator") /\
  (map_to_list (files r.2)).*1 =
    ["/opt/magma-deploy/config/deployment_config.yaml"] /\
  forallb (fun line => negb (Str.contains "https://example.org:8080" line)) (out r.2)
  = true /\
  last (logged r.2) = Some (ERROR, "Deployment failed: 'orchestrator'").
Proof. by vm_compute. Qed.

(** * Further properties of the wizard *)

(** ** Prompts, further *)

Lemma get_user_input_stop p d r w :
  match stdin w with Line _ :: _ => False | _ => True end ->
  forall s w', get_user_input p d r w <> (Ret s, w').
Proof.
  intros H s w'. unfold get_user_input, while_true, input. cbv zeta.
  destruct (stdin w) as [|[a|] rest] eqn:Hin; [|done|]; cbn [length loop];
    rewrite bind_run, bind_run, Hin; done.
Qed.

Lemma truthy_nonempty s : truthy (Some s) = true -> s <> "".
Proof. cbn. intros H ->. done. Qed.

Lemma truthy_default d : truthy d = true -> default "" d <> "".
Proof. destruct d as [s|]; [apply truthy_nonempty|done]. Qed.

Lemma get_user_input_required_from p d evs : forall w s w',
  stdin w = evs ->
  get_user_input p d true w = (Ret s, w') ->
  s <> "" /\
  (s = default "" d \/ exists answer, Line answer ∈ evs /\ s = Str.strip answer).
Proof.
  induction evs as [|[a|] rest IH]; intros w s w' Hin Hrun.
  - exfalso. eapply (get_user_input_stop p d true w); [by rewrite Hin|exact Hrun].
  - rewrite (get_user_input_line _ _ _ _ _ _ Hin) in Hrun. cbv zeta in Hrun.
    destruct (truthy (Some (Str.strip a))) eqn:Ha.
    { injection Hrun as <- _. split; [by apply truthy_nonempty|].
      right. exists a. split; [apply elem_of_cons; by left|done]. }
    destruct (truthy d) eqn:Hd.
    { injection Hrun as <- _. split; [by apply truthy_default|by left]. }
    cbn [negb] in Hrun.
    match type of Hrun with
    | get_user_input _ _ _ ?w0 = _ =>
        destruct (IH w0 s w' eq_refl Hrun) as [Hne [Hs|(b&Hb&Hs)]]
    end.
    + split; [done|by left].
    + split; [done|]. right. exists b. split; [apply elem_of_cons; by right|done].
  - exfalso. eapply (get_user_input_stop p d true w); [by rewrite Hin|exact Hrun].
Qed.

(** X1: a required prompt never returns the empty string: the value is the
    default, or an answer that was typed with its surrounding white
    space removed. *)
Theorem get_user_input_required p d w s w' :
  get_user_input p d true w = (Ret s, w') ->
  s <> "" /\
  (s = default "" d \/ exists answer, Line answer ∈ stdin w /\ s = Str.strip answer).
Proof. by apply get_user_input_required_from. Qed.

Lemma get_user_input_required_witness :
  let w := Sample.fresh ["  "; ""; " ops@example.org "] in
  "ops@example.org" <> "" /\
  ("ops@example.org" = default "" None \/
   exists answer, Line answer ∈ stdin w /\ "ops@example.org" = Str.strip answer).
Proof.
  intros w.
  apply (get_user_input_required "Admin email address" None w "ops@example.org"
           (get_user_input "Admin email address" None true w).2).
  by vm_compute.
Defined.

(** ** The run, further *)

(** What [f] is after a run that [m] leaves [f] alone in. *)
Ltac keeps f Hrun H :=
  match type of Hrun with
  | ?m ?w = (_, ?w') =>
      assert (f w' = f w) as H
        by (let Hi := fresh "Hi" in
            assert (inv_on f (eq (f w)) m) as Hi by inv_go;
            specialize (Hi w eq_refl); rewrite Hrun in Hi; symmetry; exact Hi)
  end.

Lemma quiet_refl w : quiet w w.
Proof. done. Qed.

Lemma main_tail E a w w1 r w2 :
  startup E a w = (Ret (), w1) ->
  deployment_workflow E w1 = (r, w2) ->
  r <> Timeout ->
  exists w3,
    quiet w2 w3 /\
    main E a w =
    (Raise (SystemExit match r with
                       | Ret true => 0
                       | Raise (SystemExit c) => c
                       | _ => 1
                       end), w3).
Proof.
  intros Hs Hw Hr. rewrite main_run, Hs, bind_run. expand (run_deployment E).
  rewrite try_except_run, Hw. destruct r as [[]|e|]; [| | |done].
  - rewrite print_bind. eexists. split; [|reflexivity]. done.
  - rewrite print_bind. eexists. split; [|reflexivity]. done.
  - destruct e; cbn [is_KeyboardInterrupt is_Exception orb];
      rewrite ?logger_bind, ?print_bind, ?mret_run, ?print_bind;
      (eexists; split; [|reflexivity]; done).
Qed.

Lemma confirm_action_said message w b :
  answer_of (stdin w) = Some b ->
  exists w', confirm_action message w = (Ret b, w') /\
             config w' = config w /\ files w' = files w /\ cmds w' = cmds w.
Proof.
  intros Hb. pose proof (confirm_action_answer message (stdin w) w eq_refl) as H.
  destruct (confirm_action message w) as [[b'|e|] w'] eqn:Hrun; cbn [fst] in H.
  - keeps config Hrun Hc. keeps files Hrun Hf. keeps cmds Hrun Hm.
    exists w'. split; [congruence|done].
  - destruct H. congruence.
  - done.
Qed.

Lemma startup_loaded E a w path text v :
  args_config a = Some path -> path <> "" ->
  files w !! path = Some text ->
  yaml_safe_load E text = inr v ->
  exists w1, startup E a w = (Ret (), w1) /\ config w1 = v /\ stdin w1 = stdin w.
Proof.
  intros Ha Hp Hf Hv. expand (startup E a). rewrite bind_run.
  destruct (init_run E w) as (w0&->&Hfiles&Hin&_).
  expand (load_if_provided E a). rewrite Ha. cbn [truthy from_option id]. cbv zeta.
  apply String.eqb_neq in Hp as ->. cbn [negb].
  rewrite try_except_run, bind_run, load_config_run, Hfiles, Hf. cbv beta iota.
  rewrite Hv, print_run. eexists. split; [reflexivity|]. by split.
Qed.

(** X2: a configuration file that is missing, or that the YAML reader
    refuses, ends the run at once with status 1: one line is printed, no
    question is asked, no command runs and no file is written. *)
Theorem config_load_error_exits_1 E a w path :
  args_config a = Some path -> path <> "" ->
  (files w !! path = None \/
   exists text msg, files w !! path = Some text /\ yaml_safe_load E text = inl msg) ->
  exists w' reason,
    main E a w = (Raise (SystemExit 1), w') /\
    out w' = out w ++ [Icon.cross +:+ " Error loading configuration: " +:+ reason] /\
    stdin w' = stdin w /\ files w' = files w /\ cmds w' = cmds w /\ logged w' = logged w.
Proof.
  intros Ha Hp Hbad. rewrite main_run. expand (startup E a). rewrite bind_run.
  destruct (init_run E w) as (w0&Hinit&Hfiles&Hin&_). rewrite Hinit.
  assert (out w0 = out w /\ cmds w0 = cmds w /\ logged w0 = logged w) as (Ho&Hc&Hl).
  { injection Hinit as <-. done. }
  expand (load_if_provided E a). rewrite Ha. cbn [truthy from_option id]. cbv zeta.
  apply String.eqb_neq in Hp as ->. cbn [negb].
  rewrite try_except_run, bind_run, load_config_run, Hfiles.
  destruct Hbad as [->|(text&msg&->&Hmsg)]; cbv beta iota; rewrite ?Hmsg;
    cbn [is_Exception]; rewrite print_bind; unfold sys_exit; rewrite raise_run;
    (eexists _, _; split; [reflexivity|]);
    cbn [out stdin files cmds logged said set_out]; by rewrite Ho.
Qed.

Lemma config_load_error_exits_1_witness :
  exists w' reason,
    main Sample.E0 (Args (Some "site.yaml") false false) (Sample.fresh ["y"])
    = (Raise (SystemExit 1), w') /\
    out w' = out (Sample.fresh ["y"])
             ++ [Icon.cross +:+ " Error loading configuration: " +:+ reason] /\
    stdin w' = [Line "y"] /\ files w' = ∅ /\ cmds w' = [] /\ logged w' = [].
Proof.
  apply (config_load_error_exits_1 Sample.E0 (Args (Some "site.yaml") false false)
           (Sample.fresh ["y"]) "site.yaml"); [reflexivity|discriminate|].
  left. reflexivity.
Defined.

Lemma startup_cmds E a Q : inv_on cmds Q (startup E a).
Proof. inv_go. Qed.

Lemma welcome_cmds Q : inv_on cmds Q welcome_message.
Proof. inv_go. Qed.

(** X3: when the welcome prompt gets no answer it accepts (the operator
    interrupts, or the input ends) the run exits with status 1, and it
    has run no command and written no file. *)
Theorem unanswered_welcome_exits_1 E a w :
  loads E a w ->
  answer_of (stdin w) = None ->
  exit_status (main E a w) = Some 1%N /\
  files (main E a w).2 = files w /\ cmds (main E a w).2 = cmds w.
Proof.
  intros Hload Hnone.
  destruct (startup_cases E a w) as [[_ [w1 Hs]]|[Hn _]]; [|done].
  keeps stdin Hs Hin. keeps files Hs Hfi. keeps cmds Hs Hcm.
  rewrite <- Hin in Hnone. pose proof (welcome_message_outcome w1) as Hout.
  destruct (welcome_message w1) as [[[]|e|] w2] eqn:Hwel; cbn [fst] in Hout;
    [congruence| |done].
  destruct (is_SystemExit e) eqn:He; [destruct Hout; congruence|].
  keeps files Hwel Hfi2. keeps cmds Hwel Hcm2.
  destruct (main_tail E a w w1 (Raise e) w2 Hs) as (w3&(_&_&Hf3&Hc3)&Hmain); [|done|].
  { by rewrite deployment_workflow_eq, bind_run, Hwel. }
  rewrite Hmain. unfold exit_status. cbn [fst snd].
  split; [by destruct e|]. split; congruence.
Qed.

Lemma unanswered_welcome_exits_1_witness :
  exit_status (main Sample.E0 Sample.no_flags
                 (set_stdin [Line "maybe"; CtrlC; Line "y"] (Sample.fresh []))) = Some 1%N /\
  files (main Sample.E0 Sample.no_flags
           (set_stdin [Line "maybe"; CtrlC; Line "y"] (Sample.fresh []))).2 = ∅ /\
  cmds (main Sample.E0 Sample.no_flags
          (set_stdin [Line "maybe"; CtrlC; Line "y"] (Sample.fresh []))).2 = [].
Proof.
  apply (unanswered_welcome_exits_1 Sample.E0 Sample.no_flags
           (set_stdin [Line "maybe"; CtrlC; Line "y"] (Sample.fresh []))).
  - intros H. discriminate H.
  - reflexivity.
Defined.

(** X4: when the prerequisite check fails the run exits with status 1 and
    the questionnaire is never started: no further answer is read, and
    the configuration, the files and the commands stay as the check
    left them. *)
Theorem failed_prerequisites_exit_1 E a w w1 :
  (startup E a;; welcome_message;; check_prerequisites E) w = (Ret false, w1) ->
  exists w', main E a w = (Raise (SystemExit 1), w') /\ quiet w1 w'.
Proof.
  intros Hrun. apply bind_ret_inv in Hrun as ([]&wa&Hs&Hrun).
  apply bind_ret_inv in Hrun as ([]&wb&Hw&Hp).
  destruct (main_tail E a w wa (Ret false) w1 Hs) as (w3&Hq&Hmain); [|done|].
  { rewrite deployment_workflow_eq, bind_run, Hw. expand (after_welcome E).
    by rewrite bind_run, Hp. }
  by exists w3.
Qed.

(** X5: when the operator declines the final confirmation the run exits
    with status 1; the configuration collected and its file stay, and
    no deployment command is run nor any script written. *)
Theorem declined_confirmation_exits_1 E a w w1 w3 :
  (startup E a;; welcome_message;; check_prerequisites E) w = (Ret true, w1) ->
  collect_deployment_config E w1 = (Ret (), w3) ->
  answer_of (stdin w3) = Some false ->
  exists w',
    main E a w = (Raise (SystemExit 1), w') /\
    config w' = config w3 /\ files w' = files w3 /\ cmds w' = cmds w3 /\
    last (out w') = Some (Str.nl +:+ Icon.cross +:+ " Deployment failed!").
Proof.
  intros Hrun Hcol Hno. apply bind_ret_inv in Hrun as ([]&wa&Hs&Hrun).
  apply bind_ret_inv in Hrun as ([]&wb&Hw&Hp).
  destruct (confirm_action_said "Do you want to proceed with the deployment?" w3 false Hno)
    as (w4&Hconf&Hc4&Hf4&Hm4).
  rewrite main_run, Hs, bind_run. expand (run_deployment E).
  rewrite try_except_run, deployment_workflow_eq, bind_run, Hw. expand (after_welcome E).
  rewrite bind_run, Hp, if_negb_run, bind_run, Hcol, bind_run, Hconf.
  rewrite print_bind, mret_run, print_bind. unfold sys_exit. rewrite raise_run.
  eexists. split; [reflexivity|].
  cbn [config files cmds out said set_out]. rewrite last_snoc. done.
Qed.

Lemma failed_prerequisites_exit_1_witness :
  let w := Sample.fresh ["y"; "n"] in
  exists w',
    main Sample.E_no_docker Sample.no_flags w = (Raise (SystemExit 1), w') /\
    quiet ((startup Sample.E_no_docker Sample.no_flags;; welcome_message;;
            check_prerequisites Sample.E_no_docker) w).2 w'.
Proof.
  intros w.
  apply (failed_prerequisites_exit_1 Sample.E_no_docker Sample.no_flags w).
  by vm_compute.
Defined.

Lemma declined_confirmation_exits_1_witness :
  let w := Sample.fresh ["y"; "4"; ""; "ops@example.org"; "10.0.0.1";
                         ""; ""; ""; ""; ""; "no"] in
  let w1 := ((startup Sample.E0 Sample.no_flags;; welcome_message;;
              check_prerequisites Sample.E0) w).2 in
  let w3 := (collect_deployment_config Sample.E0 w1).2 in
  exists w',
    main Sample.E0 Sample.no_flags w = (Raise (SystemExit 1), w') /\
    config w' = config w3 /\ files w' = files w3 /\ cmds w' = cmds w3 /\
    last (out w') = Some (Str.nl +:+ Icon.cross +:+ " Deployment failed!").
Proof.
  intros w w1 w3.
  apply (declined_confirmation_exits_1 Sample.E0 Sample.no_flags w w1 w3);
    by vm_compute.
Defined.

(** ** The questionnaire, further *)

Lemma set_cfg_ret_dict k v w w' : set_cfg k v w = (Ret (), w') -> is_dict (config w).
Proof.
  unfold set_cfg, get_config, put_config, lift. rewrite !bind_run.
  destruct w as [c i fs ds cm lg o]. cbn. by destruct c.
Qed.

Lemma inv_set_cfg_not_dict k v : inv_on config (fun c => ~ is_dict c) (set_cfg k v).
Proof. apply inv_set_cfg. intros d H. by destruct H. Qed.

#[export] Hint Resolve inv_set_cfg_not_dict : inv.

Lemma select_components_not_dict : inv_on config (fun c => ~ is_dict c) select_components.
Proof. inv_go. Qed.

Lemma collect_needs_dict E w w' :
  collect_deployment_config E w = (Ret (), w') -> is_dict (config w).
Proof.
  intros H. expand (collect_deployment_config E) in H.
  apply bind_ret_inv in H as ([]&wa&Hsel&H). apply bind_ret_inv in H as ([]&wb&Hgen&_).
  expand (collect_general_config E) in Hgen.
  apply bind_ret_inv in Hgen as (v&wc&Hask&Hgen).
  apply bind_ret_inv in Hgen as ([]&wd&Hset&_).
  apply set_cfg_ret_dict in Hset. keeps config Hask Hc. rewrite Hc in Hset.
  pose proof (select_components_not_dict w) as Hinv. rewrite Hsel in Hinv.
  cbn [snd] in Hinv. destruct (config w); try done; exfalso; (apply Hinv; [by intros []|exact Hset]).
Qed.

(** X6: a configuration file whose document is not a mapping (a list, a
    string, an empty document) never leads to a deployment: unless the
    operator declines at the welcome prompt, the run exits with status 1. *)
Theorem non_mapping_config_exits_1 E a w path text v :
  args_config a = Some path -> path <> "" ->
  files w !! path = Some text ->
  yaml_safe_load E text = inr v ->
  ~ is_dict v ->
  answer_of (stdin w) <> Some false ->
  exit_status (main E a w) = Some 1%N.
Proof.
  intros Ha Hp Hf Hv Hnd Hans.
  destruct (startup_loaded E a w path text v Ha Hp Hf Hv) as (w1&Hs&Hc&Hin).
  destruct (main_outcome E a w) as (code&w'&Hm&Hcode&Hiff).
  rewrite Hm. unfold exit_status. cbn [fst].
  destruct Hcode as [->| ->]; [|done]. exfalso.
  destruct (proj1 Hiff eq_refl) as (w1'&Hs'&Hor).
  assert (w1' = w1) as -> by congruence.
  destruct Hor as [(wa&wb&wc&_&_&Hwel&Hpre&Hcol&_)|Hno]; [|congruence].
  apply collect_needs_dict in Hcol.
  keeps config Hwel Hc1. keeps config Hpre Hc2. apply Hnd. congruence.
Qed.

Lemma non_mapping_config_exits_1_witness :
  exit_status
    (main Sample.E_list (Args (Some "site.yaml") false false)
       (set_files {["site.yaml" := "- agw"]}
          (Sample.fresh ["y"; "3"; "example.org"]))) = Some 1%N.
Proof.
  apply (non_mapping_config_exits_1 Sample.E_list (Args (Some "site.yaml") false false)
           (set_files {["site.yaml" := "- agw"]} (Sample.fresh ["y"; "3"; "example.org"]))
           "site.yaml" "- agw" (PList [PStr "agw"]));
    [reflexivity|discriminate|reflexivity|reflexivity|by intros []|discriminate].
Defined.

(** X7: when the questionnaire ends, the one file it has written is the
    configuration file, and it holds what the YAML writer prints for the
    final configuration, the database password included. *)
Theorem questionnaire_saves_configuration E w w' :
  collect_deployment_config E w = (Ret (), w') ->
  files w' = <[config_file E := yaml_dump E (config w')]> (files w) /\
  cmds w' = cmds w.
Proof.
  intros H. expand (collect_deployment_config E) in H.
  apply bind_ret_inv in H as ([]&wa&Hsel&H). apply bind_ret_inv in H as ([]&wb&Hgen&H).
  apply bind_ret_inv in H as ([]&wc&Hcomp&Hsave).
  keeps files Hsel Hf1. keeps files Hgen Hf2. keeps files Hcomp Hf3.
  keeps cmds Hsel Hc1. keeps cmds Hgen Hc2. keeps cmds Hcomp Hc3.
  rewrite save_config_run in Hsave. injection Hsave as <-.
  cbn [files cmds config said set_out set_files]. split; congruence.
Qed.

Lemma questionnaire_saves_configuration_witness :
  let w := set_config (PDict [])
             (Sample.fresh ["2"; ""; "ops@example.org"; "10.0.0.1";
                            ""; ""; ""; ""; ""; "s3cret"; ""; ""; ""]) in
  let w' := (collect_deployment_config Sample.E0 w).2 in
  files w' = <[config_file Sample.E0 := yaml_dump Sample.E0 (config w')]> (files w) /\
  cmds w' = cmds w.
Proof.
  intros w w'. apply (questionnaire_saves_configuration Sample.E0 w w').
  by vm_compute.
Defined.

(** *** Leaving a validation loop *)

Lemma loop_exit n (c : M bool) (body : M unit) : forall w w',
  loop n (b ← c; if b : bool then body;; mret None else mret (Some ())) w = (Ret (), w') ->
  exists w0, c w0 = (Ret false, w').
Proof.
  induction n as [|n IH]; intros w w' H; [done|].
  cbn [loop] in H. rewrite bind_run, bind_run in H.
  destruct (c w) as [[[]|e|] w1] eqn:Hc; [| |done|done].
  - rewrite bind_run in H. destruct (body w1) as [[[]|e|] w2]; [|done|done].
    rewrite mret_run in H. by apply IH in H.
  - rewrite mret_run, mret_run in H. injection H as <-. by exists w.
Qed.

Lemma while_exit c body w w' :
  while_ c body w = (Ret (), w') -> exists w0, c w0 = (Ret false, w').
Proof. unfold while_, while_true. apply loop_exit. Qed.

Lemma not_false c w w' : not_ c w = (Ret false, w') -> c w = (Ret true, w').
Proof.
  unfold not_. rewrite bind_run. destruct (c w) as [[[]|e|] w1]; [|done..].
  rewrite mret_run. by intros [= <-].
Qed.

Lemma email_ok_true w w' :
  email_ok w = (Ret true, w') ->
  w' = w /\ exists s, Py.lookup (config w) "admin_email" = Some (PStr s) /\
                      validate_email s = Ret true.
Proof.
  unfold email_ok. rewrite bind_run, cfg_run.
  destruct (config w) as [| | |d]; cbn; try done.
  destruct (Py.dict_get d "admin_email") as [v|] eqn:Hv; [|done].
  rewrite bind_run, lift_run. destruct v as [|s| |]; cbn; try done.
  rewrite lift_run. intros [= H <-]. eauto.
Qed.

Lemma ip_ok_true E k1 k2 w w' :
  ip_ok E k1 k2 w = (Ret true, w') ->
  w' = w /\ exists d s, Py.lookup (config w) k1 = Some d /\
                        Py.lookup d k2 = Some (PStr s) /\
                        validate_ip_address E s = true.
Proof.
  unfold ip_ok, cfg2. rewrite !bind_run, cfg_run.
  destruct (config w) as [| | |d]; cbn; try done.
  destruct (Py.dict_get d k1) as [v|]; [|done]. rewrite lift_run.
  destruct v as [| | |d1]; cbn; try done.
  destruct (Py.dict_get d1 k2) as [v|] eqn:Hv; [|done]. rewrite bind_run, lift_run.
  destruct v as [|s| |]; cbn; try done. rewrite mret_run. intros [= H <-].
  split; [done|]. by exists (PDict d1), s.
Qed.

(** What the rest of a procedure keeps of the configuration. *)
Ltac carry Hrun Q H :=
  match type of Hrun with
  | ?m ?w = (_, ?w') =>
      let Hi := fresh "Hi" in
      assert (inv_on config Q m) as Hi by inv_go;
      specialize (Hi w H); rewrite Hrun in Hi; cbn [snd] in Hi; cbv beta in Hi
  end.

(** X8: when the general part of the questionnaire ends, the domain stored
    is not empty, the e-mail address stored is one the validator accepts
    and the external address one the address parser accepts. *)
Theorem general_config_validated E w w' :
  collect_general_config E w = (Ret (), w') ->
  exists domain email network ip,
    Py.lookup (config w') "domain" = Some (PStr domain) /\ domain <> "" /\
    Py.lookup (config w') "admin_email" = Some (PStr email) /\
    validate_email email = Ret true /\
    Py.lookup (config w') "network" = Some network /\
    Py.lookup network "external_ip" = Some (PStr ip) /\
    validate_ip_address E ip = true.
Proof.
  intros H. expand (collect_general_config E) in H.
  apply bind_ret_inv in H as (dom&w1&Hdom&H).
  apply (get_user_input_required_from _ _ _ _ _ _ eq_refl) in Hdom as [Hne _].
  apply bind_ret_inv in H as ([]&w2&Hset&H). apply set_cfg_ret in Hset as [_ Hd].
  carry H (fun c => Py.lookup c "domain" = Some (PStr dom)) Hd.
  apply bind_ret_inv in H as (e0&w3&Hask&H).
  apply bind_ret_inv in H as ([]&w4&Hset2&H).
  apply bind_ret_inv in H as ([]&w5&Hloop&H).
  apply while_exit in Hloop as (w0&Hok).
  apply not_false, email_ok_true in Hok as (->&email&He&Hv).
  carry H (fun c => Py.lookup c "admin_email" = Some (PStr email)) He.
  rewrite print_bind in H.
  apply bind_ret_inv in H as ([]&w6&Hnet&H).
  apply bind_ret_inv in H as (ip0&w7&Hask2&H).
  apply bind_ret_inv in H as ([]&w8&Hset3&H).
  apply while_exit in H as (w9&Hok).
  apply not_false, ip_ok_true in Hok as (->&network&ip&Hn&Hip&Hvalid).
  by exists dom, email, network, ip.
Qed.

Lemma general_config_validated_witness :
  let w := set_config (PDict [])
             (Sample.fresh [""; "ops"; "ops@example"; "ops@example.org";
                            "10.0.0.256"; "10.0.0.1"]) in
  exists domain email network ip,
    Py.lookup (config (collect_general_config Sample.E0 w).2) "domain"
    = Some (PStr domain) /\ domain <> "" /\
    Py.lookup (config (collect_general_config Sample.E0 w).2) "admin_email"
    = Some (PStr email) /\
    validate_email email = Ret true /\
    Py.lookup (config (collect_general_config Sample.E0 w).2) "network" = Some network /\
    Py.lookup network "external_ip" = Some (PStr ip) /\
    validate_ip_address Sample.E0 ip = true.
Proof.
  intros w. apply (general_config_validated Sample.E0 w). by vm_compute.
Defined.

(** *** The components the menu stores *)

Lemma append_cfg_ret k x l w w' :
  Py.lookup (config w) k = Some (PList l) ->
  append_cfg k x w = (Ret (), w') ->
  Py.lookup (config w') k = Some (PList (l ++ [x])).
Proof.
  intros Hl. unfold append_cfg. rewrite bind_run, (cfg_lookup _ _ _ Hl), bind_run, lift_run.
  cbn [Py.append]. intros H. by apply set_cfg_ret in H as [_ H].
Qed.

Lemma custom_selection_loop comps : forall acc w w',
  Py.lookup (config w) "components" = Some (PList (PStr ∘ tag <$> acc)) ->
  for_ (tag <$> comps)
    (fun comp =>
       yes ← confirm_action ("Deploy " +:+ Str.upper comp +:+ "?");
       if yes : bool then append_cfg "components" (PStr comp) else mret ()) w
  = (Ret (), w') ->
  exists picked,
    sublist picked comps /\
    Py.lookup (config w') "components" = Some (PList (PStr ∘ tag <$> acc ++ picked)).
Proof.
  induction comps as [|c comps IH]; intros acc w w' Hacc H.
  - cbn [fmap list_fmap for_] in H. rewrite mret_run in H. injection H as <-.
    exists []. by rewrite app_nil_r.
  - cbn [fmap list_fmap for_] in H.
    apply bind_ret_inv in H as ([]&w1&Hstep&H).
    apply bind_ret_inv in Hstep as (yes&w0&Hconf&Hstep).
    keeps config Hconf Hc0. rewrite <- Hc0 in Hacc. destruct yes.
    + apply (append_cfg_ret _ _ _ _ _ Hacc) in Hstep.
      change [PStr (tag c)] with (PStr ∘ tag <$> [c]) in Hstep.
      rewrite <- fmap_app in Hstep.
      destruct (IH _ _ _ Hstep H) as (picked&Hsub&Hl).
      exists (c :: picked). split; [by apply sublist_skip|]. by rewrite <- app_assoc in Hl.
    + rewrite mret_run in Hstep. injection Hstep as <-.
      destruct (IH _ _ _ Hacc H) as (picked&Hsub&Hl).
      exists picked. split; [by apply sublist_cons|done].
Qed.

(** X9: whatever is answered, the components the menu stores are a
    selection from orchestrator, agw, fgw and nms in that order: no other
    name, none twice.  (An answer outside the menu stores nothing.) *)
Theorem selected_components_known w w' :
  select_components w = (Ret (), w') ->
  Py.lookup (config w') "components" = Py.lookup (config w) "components" \/
  exists comps,
    sublist comps [Orchestrator; AccessGateway; FederatedGateway; Console] /\
    Py.lookup (config w') "components" = Some (PList (PStr ∘ tag <$> comps)).
Proof.
  intros H. expand select_components in H. rewrite !print_bind in H.
  apply bind_ret_inv in H as (choice&w1&Hask&H). keeps config Hask Hc.
  destruct (String.eqb choice "1").
  { apply set_cfg_ret in H as [_ H]. right.
    by exists [Orchestrator; AccessGateway; FederatedGateway; Console]. }
  destruct (String.eqb choice "2").
  { apply set_cfg_ret in H as [_ H]. right. exists [Orchestrator].
    split; [apply sublist_skip, sublist_nil_l|done]. }
  destruct (String.eqb choice "3").
  { apply set_cfg_ret in H as [_ H]. right. exists [AccessGateway].
    split; [|done]. apply sublist_cons, sublist_skip, sublist_nil_l. }
  destruct (String.eqb choice "4").
  { apply set_cfg_ret in H as [_ H]. right. exists [FederatedGateway].
    split; [|done]. apply sublist_cons, sublist_cons, sublist_skip, sublist_nil_l. }
  destruct (String.eqb choice "5").
  { apply bind_ret_inv in H as ([]&w2&Hset&H). apply set_cfg_ret in Hset as [_ Hset].
    cbv zeta in H.
    change ["orchestrator"; "agw"; "fgw"; "nms"]
      with (tag <$> [Orchestrator; AccessGateway; FederatedGateway; Console]) in H.
    destruct (custom_selection_loop _ [] _ _ Hset H) as (picked&Hsub&Hl).
    right. by exists picked. }
  rewrite mret_run in H. injection H as <-. left. by rewrite Hc.
Qed.

Lemma selected_components_known_witness :
  let w := set_config (PDict []) (Sample.fresh ["5"; "n"; "yes"; "n"; "Y"]) in
  Py.lookup (config (select_components w).2) "components"
  = Py.lookup (config w) "components" \/
  exists comps,
    sublist comps [Orchestrator; AccessGateway; FederatedGateway; Console] /\
    Py.lookup (config (select_components w).2) "components"
    = Some (PList (PStr ∘ tag <$> comps)).
Proof.
  intros w. apply (selected_components_known w). by vm_compute.
Defined.

(** *** The sub-records, field by field *)

Lemma dict_set_set d k v v' : Py.dict_set (Py.dict_set d k v) k v' = Py.dict_set d k v'.
Proof.
  induction d as [|[k0 v0] d IH]; cbn.
  - by rewrite String.eqb_refl.
  - destruct (String.eqb k0 k) eqn:Hk; cbn; rewrite Hk; [done|by rewrite IH].
Qed.

Lemma set_cfg_run k v w d :
  config w = PDict d ->
  set_cfg k v w = (Ret (), set_config (PDict (Py.dict_set d k v)) w).
Proof.
  intros H. unfold set_cfg, get_config, put_config, lift. rewrite !bind_run, H. done.
Qed.

Lemma set_cfg2_run k1 k2 v w d d1 :
  config w = PDict (Py.dict_set d k1 (PDict d1)) ->
  set_cfg2 k1 k2 v w
  = (Ret (), set_config (PDict (Py.dict_set d k1 (PDict (Py.dict_set d1 k2 v)))) w).
Proof.
  intros H. unfold set_cfg2. rewrite bind_run, cfg_run, H. cbn [Py.getitem].
  rewrite dict_get_set_eq, bind_run, lift_run. cbn [Py.setitem].
  rewrite (set_cfg_run _ _ _ _ H). by rewrite dict_set_set.
Qed.

Lemma get_user_input_default p dflt r w a rest :
  truthy (Some dflt) = true ->
  stdin w = Line a :: rest ->
  get_user_input p (Some dflt) r w
  = (Ret (pick a dflt), asked (p +:+ " [" +:+ dflt +:+ "]: ") rest w).
Proof.
  intros Hd Hin. rewrite (get_user_input_line _ _ _ _ _ _ Hin), Hd. cbv zeta.
  unfold pick. by destruct (truthy (Some (Str.strip a))).
Qed.

(** One field of a sub-record: the question, then the assignment. *)
Lemma ask_store {B} p dflt r k1 k2 (g : string -> pyval) (K : M B) w a rest d d1 :
  truthy (Some dflt) = true ->
  stdin w = Line a :: rest ->
  config w = PDict (Py.dict_set d k1 (PDict d1)) ->
  exists w1,
    (v ← get_user_input p (Some dflt) r; set_cfg2 k1 k2 (g v);; K) w = K w1 /\
    stdin w1 = rest /\
    config w1 = PDict (Py.dict_set d k1 (PDict (Py.dict_set d1 k2 (g (pick a dflt))))).
Proof.
  intros Hd Hin Hc. rewrite bind_run, (get_user_input_default _ _ _ _ _ _ Hd Hin), bind_run.
  erewrite set_cfg2_run by exact Hc. eexists. split; [reflexivity|]. done.
Qed.

Lemma ask_store_end p dflt r k1 k2 (g : string -> pyval) w a rest d d1 :
  truthy (Some dflt) = true ->
  stdin w = Line a :: rest ->
  config w = PDict (Py.dict_set d k1 (PDict d1)) ->
  exists w1,
    (v ← get_user_input p (Some dflt) r; set_cfg2 k1 k2 (g v)) w = (Ret (), w1) /\
    stdin w1 = rest /\
    config w1 = PDict (Py.dict_set d k1 (PDict (Py.dict_set d1 k2 (g (pick a dflt))))).
Proof.
  intros Hd Hin Hc. rewrite bind_run, (get_user_input_default _ _ _ _ _ _ Hd Hin).
  erewrite set_cfg2_run by exact Hc. eexists. split; [reflexivity|]. done.
Qed.

Lemma password_store {B} p k1 k2 (K : M B) w a rest d d1 :
  stdin w = Line a :: rest ->
  config w = PDict (Py.dict_set d k1 (PDict d1)) ->
  exists w1,
    (v ← get_password p; set_cfg2 k1 k2 (PStr v);; K) w = K w1 /\
    stdin w1 = rest /\
    config w1 = PDict (Py.dict_set d k1 (PDict (Py.dict_set d1 k2 (PStr a)))).
Proof.
  intros Hin Hc. unfold get_password, getpass.
  rewrite bind_run, (input_line _ _ _ _ Hin), bind_run.
  erewrite set_cfg2_run by exact Hc. eexists. split; [reflexivity|]. done.
Qed.

Ltac ask_field Hin Hc :=
  lazymatch goal with
  | |- context [(get_user_input ?p (Some ?dflt) ?r
                   ≫= (fun v => set_cfg2 ?k1 ?k2 (@?g v) ≫= (fun _ => ?K))) ?w] =>
      let w1 := fresh "w" in
      let Heq := fresh "Heq" in
      let Hin1 := fresh "Hin" in
      let Hc1 := fresh "Hc" in
      edestruct (ask_store p dflt r k1 k2 g K w) as (w1&Heq&Hin1&Hc1);
      [reflexivity|exact Hin|exact Hc|];
      rewrite Heq; clear Heq Hin Hc; rename Hin1 into Hin; rename Hc1 into Hc
  end.

(** X10: the orchestrator sub-record, for nine answers: the nine fields in
    the order they are asked, each the answer without its surrounding
    white space or, for a blank answer, the default; the password is kept
    as it was typed. *)
Theorem orchestrator_record w d a1 a2 a3 a4 a5 a6 a7 a8 a9 rest :
  config w = PDict d ->
  stdin w = Line a1 :: Line a2 :: Line a3 :: Line a4 :: Line a5 :: Line a6
            :: Line a7 :: Line a8 :: Line a9 :: rest ->
  exists w',
    collect_orchestrator_config w = (Ret (), w') /\
    stdin w' = rest /\
    config w' =
    PDict (Py.dict_set d "orchestrator"
             (PDict [("namespace", PStr (pick a1 "magma"));
                     ("storage_class", PStr (pick a2 "standard"));
                     ("db_host", PStr (pick a3 "postgresql"));
                     ("db_port", PStr (pick a4 "5432"));
                     ("db_user", PStr (pick a5 "magma"));
                     ("db_password", PStr a6);
                     ("db_name", PStr (pick a7 "magma"));
                     ("tls_cert_path", PStr (pick a8 "/opt/magma/certs/tls.crt"));
                     ("tls_key_path", PStr (pick a9 "/opt/magma/certs/tls.key"))])).
Proof.
  intros Hc Hin. expand collect_orchestrator_config.
  rewrite print_bind, bind_run.
  erewrite set_cfg_run by exact Hc.
  match goal with
  | |- context [_ (set_config ?c (said ?s w))] =>
      assert (config (set_config c (said s w)) = c) as Hc0 by reflexivity;
      assert (stdin (set_config c (said s w)) = stdin w) as Hin0 by reflexivity;
      set (w0 := set_config c (said s w)) in *
  end.
  rewrite Hin in Hin0. clearbody w0. clear Hc Hin.
  ask_field Hin0 Hc0. ask_field Hin0 Hc0. ask_field Hin0 Hc0.
  ask_field Hin0 Hc0. ask_field Hin0 Hc0.
  lazymatch goal with
  | |- context [(get_password ?p ≫= (fun v => _ ≫= (fun _ => ?K))) ?w] =>
      edestruct (password_store p "orchestrator" "db_password" K w)
        as (w6&Heq&Hin6&Hc6); [exact Hin0|exact Hc0|rewrite Heq; clear Heq]
  end.
  ask_field Hin6 Hc6. ask_field Hin6 Hc6.
  edestruct (ask_store_end "TLS key path" "/opt/magma/certs/tls.key" false
               "orchestrator" "tls_key_path" PStr) as (w9&Heq&Hin9&Hc9);
    [reflexivity|exact Hin6|exact Hc6|].
  exists w9. split; [exact Heq|]. split; [exact Hin9|]. rewrite Hc9. reflexivity.
Qed.

Lemma orchestrator_record_witness :
  let w := set_config (PDict [("components", PList [PStr "orchestrator"])])
             (Sample.fresh [" orc8r "; ""; ""; "5433"; ""; " s3cret "; ""; ""; " "; "y"]) in
  exists w',
    collect_orchestrator_config w = (Ret (), w') /\
    stdin w' = [Line "y"] /\
    config w' =
    PDict (Py.dict_set [("components", PList [PStr "orchestrator"])] "orchestrator"
             (PDict [("namespace", PStr (pick " orc8r " "magma"));
                     ("storage_class", PStr (pick "" "standard"));
                     ("db_host", PStr (pick "" "postgresql"));
                     ("db_port", PStr (pick "5433" "5432"));
                     ("db_user", PStr (pick "" "magma"));
                     ("db_password", PStr " s3cret ");
                     ("db_name", PStr (pick "" "magma"));
                     ("tls_cert_path", PStr (pick "" "/opt/magma/certs/tls.crt"));
                     ("tls_key_path", PStr (pick " " "/opt/magma/certs/tls.key"))])).
Proof.
  intros w.
  apply (orchestrator_record w [("components", PList [PStr "orchestrator"])]); reflexivity.
Defined.

(** ** Commands *)

Lemma run_command_run E c check w :
  run_command E c check w =
  let w0 := noted INFO ("Executing command: " +:+ c) w in
  match sh E w0 c with
  | Interrupted => (Raise KeyboardInterrupt, ran c w0)
  | Completed rc so se =>
      if check && negb (N.eqb rc 0)
      then (Raise (CalledProcessError c rc se),
            noted ERROR ("Error output: " +:+ se)
              (noted ERROR ("Command failed: "
                            +:+ str_exn (CalledProcessError c rc se)) (ran c w0)))
      else (Ret (Proc rc so se),
            if truthy (Some so) then noted INFO ("Command output: " +:+ so) (ran c w0)
            else ran c w0)
  end.
Proof.
  expand (run_command E c check). rewrite logger_bind, try_except_run, bind_run.
  unfold subprocess_run. cbv zeta. fold (noted INFO ("Executing command: " +:+ c) w).
  destruct (sh E _ c) as [rc so se|]; [|reflexivity].
  destruct (check && negb (N.eqb rc 0)).
  - cbn [is_CalledProcessError]. by rewrite logger_bind, logger_bind, raise_run.
  - rewrite bind_run. cbn [stdout].
    destruct (truthy (Some so)); [by rewrite logger_run, mret_run|by rewrite !mret_run].
Qed.

(** X11: a command that ends with an exit status.  [run_command] writes
    its text to the log, hands exactly that one command to the shell, and
    changes neither the configuration, the files nor the pending answers;
    it prints nothing on standard output (its records go to the log).
    With the status 0, or with [check] unset, it returns the status and
    the captured output, after a record of the standard output when that
    is not empty.  With [check] set and another status it records the
    failure and the error output, and raises [CalledProcessError] with the
    command, the status and the error output. *)
Theorem run_command_contract E c check w rc so se :
  sh E (noted INFO ("Executing command: " +:+ c) w) c = Completed rc so se ->
  let r := run_command E c check w in
  cmds r.2 = cmds w ++ [c] /\
  config r.2 = config w /\ files r.2 = files w /\ stdin r.2 = stdin w /\
  out r.2 = out w /\
  if check && negb (N.eqb rc 0)
  then r.1 = Raise (CalledProcessError c rc se) /\
       logged r.2
       = logged w ++ [(INFO, "Executing command: " +:+ c);
                      (ERROR, "Command failed: Command '" +:+ c
                              +:+ "' returned non-zero exit status "
                              +:+ Str.of_N rc +:+ ".");
                      (ERROR, "Error output: " +:+ se)]
  else r.1 = Ret (Proc rc so se) /\
       logged r.2
       = logged w ++ (INFO, "Executing command: " +:+ c)
                  :: (if String.eqb so "" then []
                      else [(INFO, "Command output: " +:+ so)]).
Proof.
  intros Hsh. cbv zeta. rewrite run_command_run. cbv zeta. rewrite Hsh.
  destruct (check && negb (N.eqb rc 0)).
  - cbn. repeat split. by rewrite <- !app_assoc.
  - cbn [truthy]. destruct (String.eqb so ""); cbn; repeat split.
    by rewrite <- !app_assoc.
Qed.

Lemma run_command_contract_witness :
  let w := Sample.fresh [] in
  let r := run_command Sample.E_no_docker "which docker" true w in
  cmds r.2 = cmds w ++ ["which docker"] /\
  config r.2 = config w /\ files r.2 = files w /\ stdin r.2 = stdin w /\
  out r.2 = out w /\
  r.1 = Raise (CalledProcessError "which docker" 1 "") /\
  logged r.2
  = logged w ++ [(INFO, "Executing command: which docker");
                 (ERROR, "Command failed: Command 'which docker' returned "
                         +:+ "non-zero exit status 1.");
                 (ERROR, "Error output: ")].
Proof.
  intros w.
  apply (run_command_contract Sample.E_no_docker "which docker" true w 1 "" "").
  reflexivity.
Defined.

(** ** Prerequisites *)

Lemma check_prerequisites_eq E :
  check_prerequisites E =
  (print (Str.nl +:+ Icon.glass +:+ " Checking prerequisites...");;
   missing_deps ← for_fold prerequisites [] (probe E);
   after_probes E missing_deps).
Proof. reflexivity. Qed.

Lemma commands_never_interrupted E : commands_succeed E -> never_interrupted E.
Proof. intros H w c. destruct (H w c) as (so&se&->). eauto. Qed.

Lemma probe_step E missing cmd desc w :
  never_interrupted E ->
  exists w0 rc so se w',
    sh E w0 ("which " +:+ cmd) = Completed rc so se /\
    probe E missing (cmd, desc) w
    = (Ret (if N.eqb rc 0 then missing else missing ++ [cmd]), w') /\
    cmds w' = cmds w ++ ["which " +:+ cmd] /\
    stdin w' = stdin w /\ config w' = config w /\ files w' = files w.
Proof.
  intros Hni. unfold probe. rewrite try_except_run, bind_run, run_command_run. cbv zeta.
  match goal with |- context [sh E ?w0 ?c] =>
    exists w0; destruct (Hni w0 c) as (rc&so&se&Hsh); rewrite Hsh; exists rc, so, se
  end.
  cbn [andb returncode].
  destruct (truthy (Some so)); destruct (N.eqb rc 0);
    rewrite print_bind, mret_run; eexists; (split; [reflexivity|]); by split.
Qed.

Lemma probe_all E l : forall missing w,
  never_interrupted E ->
  exists missing' w',
    for_fold l missing (probe E) w = (Ret missing', w') /\
    cmds w' = cmds w ++ probes l /\
    stdin w' = stdin w /\ config w' = config w /\ files w' = files w /\
    (forall t, t ∈ missing -> t ∈ missing') /\
    (forall t, t ∈ l.*1 -> missing_tool E t -> t ∈ missing') /\
    (commands_succeed E -> missing' = missing).
Proof.
  induction l as [|[cmd desc] l IH]; intros missing w Hni.
  - exists missing, w. cbn [for_fold probes fmap list_fmap].
    rewrite mret_run, app_nil_r. repeat split; try done. by intros t Ht%elem_of_nil.
  - cbn [for_fold]. rewrite bind_run.
    destruct (probe_step E missing cmd desc w Hni)
      as (w0&rc&so&se&w1&Hsh&->&Hc1&Hi1&Hg1&Hf1).
    destruct (IH (if N.eqb rc 0 then missing else missing ++ [cmd]) w1 Hni)
      as (missing'&w'&->&Hc&Hi&Hg&Hf&Hkeep&Hmiss&Hall).
    exists missing', w'. split; [done|]. split.
    { rewrite Hc, Hc1, <- app_assoc. done. }
    split; [congruence|]. split; [congruence|]. split; [congruence|].
    split; [|split].
    + intros t Ht. apply Hkeep. destruct (N.eqb rc 0); [done|].
      apply elem_of_app. by left.
    + intros t Ht Hmt. cbn [fmap list_fmap fst] in Ht.
      apply elem_of_cons in Ht as [->|Ht]; [|by apply Hmiss].
      apply Hkeep. destruct (Hmt w0) as (rc'&so'&se'&Hsh'&Hne).
      rewrite Hsh in Hsh'. injection Hsh' as -> _ _.
      apply N.eqb_neq in Hne as ->. apply elem_of_app. right. apply elem_of_cons. by left.
    + intros Hok. rewrite (Hall Hok). destruct (Hok w0 ("which " +:+ cmd)) as (so'&se'&Hsh').
      rewrite Hsh in Hsh'. by injection Hsh' as -> _ _.
Qed.

(** X12: on a machine where every command succeeds the check finds the five
    tools: it returns true after exactly the five probes, in their
    order, without asking anything. *)
Theorem prerequisites_all_found E w :
  commands_succeed E ->
  exists w',
    check_prerequisites E w = (Ret true, w') /\
    cmds w' = cmds w ++ ["which docker"; "which docker-compose"; "which kubectl";
                         "which helm"; "which git"] /\
    stdin w' = stdin w /\ config w' = config w /\ files w' = files w.
Proof.
  intros Hok. rewrite check_prerequisites_eq, print_bind, bind_run.
  match goal with |- context [for_fold _ _ _ ?w0] =>
    destruct (probe_all E prerequisites [] w0 (commands_never_interrupted E Hok))
      as (missing&w1&->&Hc&Hi&Hg&Hf&_&_&Hall)
  end.
  rewrite (Hall Hok). cbn [after_probes]. rewrite print_bind, mret_run.
  eexists. split; [reflexivity|]. by repeat split.
Qed.

Lemma prerequisites_all_found_witness :
  exists w',
    check_prerequisites Sample.E0 (Sample.fresh []) = (Ret true, w') /\
    cmds w' = cmds (Sample.fresh [])
              ++ ["which docker"; "which docker-compose"; "which kubectl";
                  "which helm"; "which git"] /\
    stdin w' = stdin (Sample.fresh []) /\ config w' = config (Sample.fresh []) /\
    files w' = files (Sample.fresh []).
Proof.
  apply (prerequisites_all_found Sample.E0 (Sample.fresh [])).
  intros w c. by do 2 eexists.
Defined.

(** X13: when a tool is missing and the operator declines the automatic
    installation, the check returns false, and it has run the five
    probes and nothing else: no installation command. *)
Theorem missing_tool_declined E w tool :
  never_interrupted E ->
  tool ∈ ["docker"; "docker-compose"; "kubectl"; "helm"; "git"] ->
  missing_tool E tool ->
  answer_of (stdin w) = Some false ->
  exists w',
    check_prerequisites E w = (Ret false, w') /\
    cmds w' = cmds w ++ ["which docker"; "which docker-compose"; "which kubectl";
                         "which helm"; "which git"] /\
    config w' = config w /\ files w' = files w.
Proof.
  intros Hni Htool Hmiss Hno. rewrite check_prerequisites_eq, print_bind, bind_run.
  match goal with |- context [for_fold _ _ _ ?w0] =>
    destruct (probe_all E prerequisites [] w0 Hni)
      as (missing&w1&->&Hc&Hi&Hg&Hf&_&Hin&_)
  end.
  specialize (Hin tool Htool Hmiss). destruct missing as [|t missing].
  { by apply elem_of_nil in Hin. }
  cbn [after_probes]. rewrite print_bind, bind_run.
  match goal with |- context [confirm_action ?m ?w2] =>
    destruct (confirm_action_said m w2 false) as (w3&->&Hg3&Hf3&Hc3)
  end.
  { cbn [stdin said set_out]. by rewrite Hi. }
  rewrite print_bind, mret_run. eexists. split; [reflexivity|].
  cbn [cmds config files said set_out] in *. repeat split; try congruence. by rewrite Hc3, Hc.
Qed.

Lemma missing_tool_declined_witness :
  exists w',
    check_prerequisites Sample.E_no_docker (Sample.fresh ["n"]) = (Ret false, w') /\
    cmds w' = cmds (Sample.fresh ["n"])
              ++ ["which docker"; "which docker-compose"; "which kubectl";
                  "which helm"; "which git"] /\
    config w' = config (Sample.fresh ["n"]) /\ files w' = files (Sample.fresh ["n"]).
Proof.
  apply (missing_tool_declined Sample.E_no_docker (Sample.fresh ["n"]) "docker").
  - intros w c. cbn. destruct (String.eqb c "which docker"); by do 3 eexists.
  - apply elem_of_cons. by left.
  - intros w. by exists 1%N, "", "".
  - reflexivity.
Defined.

(** *** The installer *)

(** X14: when [/etc/os-release] cannot be read (the command fails or is
    interrupted: the bare [except] takes both) or names no system the
    installer knows, [install_prerequisites] returns false and has run
    that one command only: nothing is installed. *)
Theorem undetected_os_installs_nothing E deps w :
  (forall w0, match sh E w0 "cat /etc/os-release" with
              | Completed 0%N os_release _ => supported_os os_release = false
              | _ => True
              end) ->
  exists w',
    install_prerequisites E deps w = (Ret false, w') /\
    cmds w' = cmds w ++ ["cat /etc/os-release"] /\
    config w' = config w /\ files w' = files w /\ stdin w' = stdin w.
Proof.
  intros Hos. expand (install_prerequisites E deps).
  rewrite print_bind, bind_run, try_except_run, bind_run, run_command_run. cbv zeta.
  match goal with |- context [sh E ?w0 ?c] =>
    specialize (Hos w0); destruct (sh E w0 c) as [[|p] so se|]
  end.
  - cbn [andb negb N.eqb stdout]. unfold supported_os in Hos.
    apply orb_false_elim in Hos as [Hos Hr]. apply orb_false_elim in Hos as [Hos Hc].
    rewrite Hos, Hc, Hr. cbn [orb].
    rewrite print_bind, mret_run, mret_run. eexists. split; [reflexivity|].
    by destruct (truthy (Some so)).
  - cbn [andb negb N.eqb]. rewrite print_bind, mret_run, mret_run.
    eexists. split; [reflexivity|]. done.
  - rewrite print_bind, mret_run, mret_run. eexists. split; [reflexivity|]. done.
Qed.

Lemma undetected_os_installs_nothing_witness :
  exists w',
    install_prerequisites Sample.E_arch ["docker"; "git"] (Sample.fresh [])
    = (Ret false, w') /\
    cmds w' = cmds (Sample.fresh []) ++ ["cat /etc/os-release"] /\
    config w' = config (Sample.fresh []) /\ files w' = files (Sample.fresh []) /\
    stdin w' = stdin (Sample.fresh []).
Proof.
  apply (undetected_os_installs_nothing Sample.E_arch ["docker"; "git"] (Sample.fresh [])).
  intros w0. reflexivity.
Defined.

(** ** Deployment, further *)

Lemma run_command_zero E c check w :
  (forall w0, exists so se, sh E w0 c = Completed 0 so se) ->
  exists p w',
    run_command E c check w = (Ret p, w') /\
    config w' = config w /\ files w' = files w /\ cmds w' = cmds w ++ [c].
Proof.
  intros Hsh. rewrite run_command_run. cbv zeta.
  match goal with |- context [sh E ?w0 c] => destruct (Hsh w0) as (so&se&->) end.
  rewrite andb_false_r. do 2 eexists. split; [reflexivity|].
  by destruct (truthy (Some so)).
Qed.

Lemma cfg2_lookup k1 k2 w d v :
  Py.lookup (config w) k1 = Some d -> Py.lookup d k2 = Some v ->
  cfg2 k1 k2 w = (Ret v, w).
Proof.
  intros H1 H2. unfold cfg2. rewrite bind_run, (cfg_lookup _ _ _ H1), lift_run.
  destruct d; try done. cbn in *. by rewrite H2.
Qed.

Lemma generate_then_run E lines path text w :
  (forall w0, exists so se, sh E w0 ("chmod +x " +:+ path) = Completed 0 so se) ->
  format (config w) (pieces lines) = Ret text ->
  exists w1,
    (forall B (K : M B),
       (generate_script lines path;;
        run_command E ("chmod +x " +:+ path) true;; K) w = K w1) /\
    config w1 = config w /\ files w1 = <[path := text]> (files w) /\
    cmds w1 = cmds w ++ ["chmod +x " +:+ path].
Proof.
  intros Hch Hf.
  destruct (run_command_zero E ("chmod +x " +:+ path) true
              (set_files (<[path := text]> (files w)) w) Hch) as (p&w1&H1&Hc1&Hf1&Hm1).
  exists w1. split; [|done].
  intros B K. by rewrite bind_run, generate_script_run, Hf, bind_run, H1.
Qed.

Lemma create_namespace_step E w orc ns :
  Py.lookup (config w) "orchestrator" = Some orc ->
  Py.lookup orc "namespace" = Some ns ->
  (forall w0, sh E w0 ("kubectl create namespace " +:+ Py.str ns) <> Interrupted) ->
  exists w1,
    try_except
      (ns ← cfg2 "orchestrator" "namespace";
       run_command E ("kubectl create namespace " +:+ Py.str ns) true;;
       mret ())
      is_CalledProcessError
      (fun _ => print "Namespace already exists or error creating it") w
    = (Ret (), w1) /\
    config w1 = config w /\ files w1 = files w /\
    cmds w1 = cmds w ++ ["kubectl create namespace " +:+ Py.str ns].
Proof.
  intros Horc Hns Hni.
  rewrite try_except_run, bind_run, (cfg2_lookup _ _ _ _ _ Horc Hns), bind_run.
  rewrite run_command_run. cbv zeta.
  match goal with |- context [sh E ?w0 ?c] =>
    specialize (Hni w0); destruct (sh E w0 c) as [[|p] so se|]; [| |done]
  end.
  - cbn [andb negb N.eqb]. rewrite mret_run. eexists. split; [reflexivity|].
    by destruct (truthy (Some so)).
  - cbn [andb negb N.eqb is_CalledProcessError]. rewrite print_run.
    eexists. split; [reflexivity|]. done.
Qed.

(** X15: a namespace that is there already does not stop the orchestrator:
    whatever status [kubectl create namespace] ends with, the script is
    generated, made executable and run. *)
Theorem existing_namespace_tolerated E w orc ns :
  nested_mapping (config w) = true ->
  forallb (present (config w)) (pieces (template Orchestrator)) = true ->
  Py.lookup (config w) "orchestrator" = Some orc ->
  Py.lookup orc "namespace" = Some ns ->
  (forall w0, sh E w0 ("kubectl create namespace " +:+ Py.str ns) <> Interrupted) ->
  (forall w0 c, c ∈ ["chmod +x " +:+ script_path E Orchestrator;
                     script_path E Orchestrator] ->
                exists so se, sh E w0 c = Completed 0 so se) ->
  exists w',
    deploy_orchestrator E w = (Ret (), w') /\
    files w' = <[script_path E Orchestrator := rendered (config w) Orchestrator]> (files w) /\
    cmds w' = cmds w ++ ["kubectl create namespace " +:+ Py.str ns;
                         "chmod +x " +:+ script_path E Orchestrator;
                         script_path E Orchestrator] /\
    config w' = config w.
Proof.
  intros Hn Hp Horc Hns Hni Hok. pose proof (format_rendered _ Orchestrator Hn Hp) as Hf.
  expand (deploy_orchestrator E). rewrite print_bind, bind_run.
  destruct (create_namespace_step E (said "Setting up Orchestrator..." w) orc ns
              Horc Hns Hni) as (w1&->&Hc1&Hf1&Hm1).
  cbv zeta. expand generate_orchestrator_script.
  change (path_join (scripts_dir E) "deploy_orchestrator.sh")
    with (script_path E Orchestrator).
  destruct (generate_then_run E orchestrator_template (script_path E Orchestrator)
              (rendered (config w) Orchestrator) w1) as (w2&Heq&Hc2&Hf2&Hm2).
  { intros w0. apply Hok, elem_of_cons. by left. }
  { by rewrite Hc1. }
  destruct (run_command_zero E (script_path E Orchestrator) true w2)
    as (p&w3&H3&Hc3&Hf3&Hm3).
  { intros w0. apply Hok, elem_of_cons. right. apply elem_of_cons. by left. }
  rewrite Heq, bind_run, H3, mret_run. exists w3. split; [done|].
  split; [by rewrite Hf3, Hf2, Hf1|]. split; [|by rewrite Hc3, Hc2, Hc1].
  rewrite Hm3, Hm2, Hm1. cbn [cmds said set_out]. by rewrite <- !app_assoc.
Qed.

Lemma existing_namespace_tolerated_witness :
  let E := Sample.E_namespace_exists in
  let w := (collect_deployment_config E
              (set_config (PDict [])
                 (Sample.fresh ["2"; ""; "ops@example.org"; "10.0.0.1";
                                ""; ""; ""; ""; ""; "s3cret"; ""; ""; ""]))).2 in
  exists w',
    deploy_orchestrator E w = (Ret (), w') /\
    files w' = <[script_path E Orchestrator := rendered (config w) Orchestrator]> (files w) /\
    cmds w' = cmds w ++ ["kubectl create namespace " +:+ Py.str (PStr "magma");
                         "chmod +x " +:+ script_path E Orchestrator;
                         script_path E Orchestrator] /\
    config w' = config w.
Proof.
  intros E w.
  apply (existing_namespace_tolerated E w
           (default PNone (Py.lookup (config w) "orchestrator")) (PStr "magma")).
  - by vm_compute.
  - by vm_compute.
  - by vm_compute.
  - by vm_compute.
  - intros w0. by vm_compute.
  - intros w0 c Hc. apply elem_of_cons in Hc as [->|Hc]; [by do 2 eexists|].
    apply elem_of_cons in Hc as [->|Hc]; [by do 2 eexists|]. by apply elem_of_nil in Hc.
Defined.

(** X16: a script that ends with a status other than 0 stops the whole
    deployment at that component: [CalledProcessError] goes up, the
    script stays on disk, and nothing is generated or run for the
    components that come after it. *)
Theorem failed_script_stops_deployment E w c later rc :
  c ∈ [AccessGateway; FederatedGateway; Console] ->
  nested_mapping (config w) = true ->
  forallb (present (config w)) (pieces (template c)) = true ->
  Py.lookup (config w) "components" = Some (PList (PStr (tag c) :: later)) ->
  (forall w0, exists so se,
     sh E w0 ("chmod +x " +:+ script_path E c) = Completed 0 so se) ->
  rc <> 0%N ->
  (forall w0, exists so se, sh E w0 (script_path E c) = Completed rc so se) ->
  exists se w',
    deploy_components E w = (Raise (CalledProcessError (script_path E c) rc se), w') /\
    files w' = <[script_path E c := rendered (config w) c]> (files w) /\
    cmds w' = cmds w ++ ["chmod +x " +:+ script_path E c; script_path E c].
Proof.
  intros Hc Hn Hp Hcomps Hch Hrc Hrun. pose proof (format_rendered _ c Hn Hp) as Hf.
  expand (deploy_components E). rewrite !print_bind.
  match goal with |- context [_ (said ?s ?w')] => set (w0 := said s w') end.
  rewrite bind_run, (cfg_lookup "components" w0 _ Hcomps), bind_run, lift_run.
  cbn [Py.iter for_]. rewrite bind_run, bind_run, deploy_component_dispatch.
  rewrite bind_run, lift_run. cbn [Py.upper]. rewrite print_bind, bind_run.
  match goal with |- context [deploy_of E c ?x] => set (w1 := x) end.
  assert (exists se w2,
    deploy_of E c w1 = (Raise (CalledProcessError (script_path E c) rc se), w2) /\
    files w2 = <[script_path E c := rendered (config w) c]> (files w) /\
    cmds w2 = cmds w ++ ["chmod +x " +:+ script_path E c; script_path E c])
    as (se&w2&->&Hf2&Hm2).
  { assert (forall lines wx,
      config wx = config w -> files wx = files w -> cmds wx = cmds w ->
      format (config w) (pieces lines) = Ret (rendered (config w) c) ->
      exists se w2,
        (generate_script lines (script_path E c);;
         run_command E ("chmod +x " +:+ script_path E c) true;;
         run_command E (script_path E c) true;; mret ()) wx
        = (Raise (CalledProcessError (script_path E c) rc se), w2) /\
        files w2 = <[script_path E c := rendered (config w) c]> (files w) /\
        cmds w2 = cmds w ++ ["chmod +x " +:+ script_path E c; script_path E c]) as Hgen.
    { intros lines wx Hcx Hfx Hmx Hfl. rewrite <- Hcx in Hfl.
      destruct (generate_then_run E lines (script_path E c) _ wx Hch Hfl)
        as (w2&Heq&Hc2&Hf2&Hm2). rewrite Hfx in Hf2. rewrite Hmx in Hm2.
      rewrite Heq, bind_run, run_command_run. cbv zeta.
      match goal with |- context [sh E ?w3 _] => destruct (Hrun w3) as (so&se&->) end.
      apply N.eqb_neq in Hrc as ->. cbn [andb negb].
      exists se. eexists. split; [reflexivity|].
      cbn [files cmds noted ran set_logged set_cmds]. rewrite Hf2, Hm2.
      rewrite Hcx. split; [done|]. by rewrite <- app_assoc. }
    rewrite !elem_of_cons, elem_of_nil in Hc. destruct Hc as [->|[->|[->|[]]]];
      cbn [deploy_of].
    - expand (deploy_agw E). rewrite print_bind. cbv zeta. expand generate_agw_script.
      by apply Hgen.
    - expand (deploy_fgw E). rewrite print_bind. cbv zeta. expand generate_fgw_script.
      by apply Hgen.
    - expand (deploy_nms E). rewrite print_bind. cbv zeta. expand generate_nms_script.
      by apply Hgen. }
  by exists se, w2.
Qed.

Lemma failed_script_stops_deployment_witness :
  let E := Sample.E_agw_fails in
  let w := (collect_deployment_config E
              (set_config (PDict [])
                 (Sample.fresh ["5"; "n"; "y"; "y"; "n"; ""; "ops@example.org"; "10.0.0.1";
                                ""; "10.0.0.2"; ""; ""; ""; ""; "";
                                ""; ""; ""; ""; ""]))).2 in
  exists se w',
    deploy_components E w
    = (Raise (CalledProcessError (script_path E AccessGateway) 2 se), w') /\
    files w' = <[script_path E AccessGateway := rendered (config w) AccessGateway]> (files w) /\
    cmds w' = cmds w ++ ["chmod +x " +:+ script_path E AccessGateway;
                         script_path E AccessGateway].
Proof.
  intros E w.
  apply (failed_script_stops_deployment E w AccessGateway [PStr "fgw"] 2).
  - apply elem_of_cons. by left.
  - by vm_compute.
  - by vm_compute.
  - by vm_compute.
  - intros w0. by do 2 eexists.
  - discriminate.
  - intros w0. by do 2 eexists.
Defined.

(** ** The scripts, further *)

Lemma template_head c :
  exists t, pieces (template c)
            = Lit "#!/bin/bash" :: Lit Str.nl :: Lit "set -e" :: Lit Str.nl :: t.
Proof. destruct c; eexists; reflexivity. Qed.

Lemma format_lit cfg s t text :
  format cfg (Lit s :: t) = Ret text -> exists rest, format cfg t = Ret rest /\ text = s +:+ rest.
Proof.
  cbn [format eval_piece rbind]. destruct (format cfg t) as [rest| |]; [|done..].
  cbn [rbind]. intros [= <-]. eauto.
Qed.

(** X17: whatever the configuration, a script that is generated starts with
    the interpreter line and with [set -e]: it stops at the first command
    that fails. *)
Theorem scripts_stop_at_first_error c cfg text :
  format cfg (pieces (template c)) = Ret text ->
  exists rest, text = "#!/bin/bash" +:+ Str.nl +:+ "set -e" +:+ Str.nl +:+ rest.
Proof.
  destruct (template_head c) as [t ->]. intros H.
  apply format_lit in H as (r1&H&->). apply format_lit in H as (r2&H&->).
  apply format_lit in H as (r3&H&->). apply format_lit in H as (r4&H&->).
  by exists r4.
Qed.

Lemma scripts_stop_at_first_error_witness :
  let cfg := PDict [("domain", PStr "example.org");
                    ("admin_email", PStr "ops@example.org");
                    ("orchestrator", PDict [("namespace", PStr "magma")])] in
  exists rest,
    rendered cfg Console = "#!/bin/bash" +:+ Str.nl +:+ "set -e" +:+ Str.nl +:+ rest.
Proof.
  intros cfg. apply (scripts_stop_at_first_error Console cfg). reflexivity.
Defined.

(** ** The summary *)

Lemma in_cfg_lookup s k w v :
  Py.lookup (config w) k = Some v -> in_cfg s k w = (Py.contains s v, w).
Proof.
  intros H. unfold in_cfg. by rewrite bind_run, (cfg_lookup _ _ _ H), lift_run.
Qed.

Ltac sel H :=
  match goal with
  | |- context [in_cfg ?s ?k ?w0] => rewrite (in_cfg_lookup s k w0 _ H)
  end.

Ltac field_at H :=
  match goal with
  | |- context [cfg ?k ?w0] => rewrite (cfg_lookup k w0 _ H)
  end.

(** X18: for a deployment of the console alone the summary reads the domain
    and the e-mail address only, and prints the portal at port 8080 of
    the domain; it changes nothing but the terminal. *)
Theorem console_summary E w domain email :
  Py.lookup (config w) "components" = Some (PList [PStr "nms"]) ->
  Py.lookup (config w) "domain" = Some (PStr domain) ->
  Py.lookup (config w) "admin_email" = Some (PStr email) ->
  exists w',
    display_deployment_summary E w = (Ret (), w') /\
    out w' = out w ++
      [Str.nl +:+ Icon.party +:+ " DEPLOYMENT SUMMARY";
       Str.repeat "=" 40;
       Icon.laptop +:+ " NMS Portal: https://" +:+ domain +:+ ":8080";
       "   Admin Email: " +:+ email;
       Str.nl +:+ Icon.clipboard +:+ " Next Steps:";
       "1. Verify all services are running";
       "2. Configure your network devices to connect to the gateways";
       "3. Access the NMS portal to manage your network";
       "4. Monitor logs for any issues";
       Str.nl +:+ Icon.folder +:+ " Configuration saved in: " +:+ config_dir E;
       Icon.folder +:+ " Logs available in: magma_deploy.log"] /\
    config w' = config w /\ files w' = files w /\ cmds w' = cmds w /\
    logged w' = logged w /\ stdin w' = stdin w.
Proof.
  intros Hc Hd He. expand (display_deployment_summary E). rewrite !print_bind.
  rewrite bind_run. sel Hc.
  change (Py.contains "orchestrator" (PList [PStr "nms"])) with (Ret (A:=bool) false).
  cbv iota. rewrite bind_run, mret_run, bind_run. sel Hc.
  change (Py.contains "nms" (PList [PStr "nms"])) with (Ret (A:=bool) true).
  cbv iota. rewrite bind_run, bind_run. field_at Hd. rewrite print_bind, bind_run.
  field_at He. rewrite print_run, bind_run. sel Hc.
  change (Py.contains "agw" (PList [PStr "nms"])) with (Ret (A:=bool) false).
  cbv iota. rewrite bind_run, mret_run, bind_run. sel Hc.
  change (Py.contains "fgw" (PList [PStr "nms"])) with (Ret (A:=bool) false).
  cbv iota. rewrite bind_run, mret_run, !print_bind, print_run.
  eexists. split; [reflexivity|].
  cbn [out config files cmds logged stdin said set_out Py.str]. rewrite <- !app_assoc.
  by repeat split.
Qed.

Lemma console_summary_witness :
  let w := set_config (PDict [("components", PList [PStr "nms"]);
                              ("domain", PStr "example.org");
                              ("admin_email", PStr "ops@example.org")])
             (Sample.fresh []) in
  exists w',
    display_deployment_summary Sample.E0 w = (Ret (), w') /\
    out w' = out w ++
      [Str.nl +:+ Icon.party +:+ " DEPLOYMENT SUMMARY";
       Str.repeat "=" 40;
       Icon.laptop +:+ " NMS Portal: https://" +:+ "example.org" +:+ ":8080";
       "   Admin Email: " +:+ "ops@example.org";
       Str.nl +:+ Icon.clipboard +:+ " Next Steps:";
       "1. Verify all services are running";
       "2. Configure your network devices to connect to the gateways";
       "3. Access the NMS portal to manage your network";
       "4. Monitor logs for any issues";
       Str.nl +:+ Icon.folder +:+ " Configuration saved in: " +:+ config_dir Sample.E0;
       Icon.folder +:+ " Logs available in: magma_deploy.log"] /\
    config w' = config w /\ files w' = files w /\ cmds w' = cmds w /\
    logged w' = logged w /\ stdin w' = stdin w.
Proof.
  intros w. apply (console_summary Sample.E0 w "example.org" "ops@example.org");
    reflexivity.
Defined.

(** *** The gateways *)

(** X19: the sub-record of the federated gateway, for five answers: the
    served networks are the answer cut at its commas, a list of strings;
    the other four fields are strings. *)
Theorem fgw_record w d a1 a2 a3 a4 a5 rest :
  config w = PDict d ->
  stdin w = Line a1 :: Line a2 :: Line a3 :: Line a4 :: Line a5 :: rest ->
  exists w',
    collect_fgw_config w = (Ret (), w') /\
    stdin w' = rest /\
    config w' =
    PDict (Py.dict_set d "fgw"
             (PDict [("federation_id", PStr (pick a1 "fgw01"));
                     ("served_network_ids",
                      PList (PStr <$> Str.split "," (pick a2 "network1,network2")));
                     ("diameter_host", PStr (pick a3 "fgw.magma.local"));
                     ("diameter_realm", PStr (pick a4 "magma.local"));
                     ("diameter_port", PStr (pick a5 "3868"))])).
Proof.
  intros Hc Hin. expand collect_fgw_config.
  rewrite print_bind, bind_run.
  erewrite set_cfg_run by exact Hc.
  match goal with
  | |- context [_ (set_config ?c (said ?s w))] =>
      assert (config (set_config c (said s w)) = c) as Hc0 by reflexivity;
      assert (stdin (set_config c (said s w)) = stdin w) as Hin0 by reflexivity;
      set (w0 := set_config c (said s w)) in *
  end.
  rewrite Hin in Hin0. clearbody w0. clear Hc Hin.
  ask_field Hin0 Hc0. ask_field Hin0 Hc0. ask_field Hin0 Hc0. ask_field Hin0 Hc0.
  edestruct (ask_store_end "Diameter port" "3868" true "fgw" "diameter_port" PStr)
    as (w5&Heq&Hin5&Hc5); [reflexivity|exact Hin0|exact Hc0|].
  exists w5. split; [exact Heq|]. split; [exact Hin5|]. rewrite Hc5. reflexivity.
Qed.

Lemma fgw_record_witness :
  let w := set_config (PDict []) (Sample.fresh [""; "lab, field"; ""; ""; "3869"]) in
  exists w',
    collect_fgw_config w = (Ret (), w') /\
    stdin w' = [] /\
    config w' =
    PDict (Py.dict_set [] "fgw"
             (PDict [("federation_id", PStr (pick "" "fgw01"));
                     ("served_network_ids",
                      PList (PStr <$> Str.split "," (pick "lab, field" "network1,network2")));
                     ("diameter_host", PStr (pick "" "fgw.magma.local"));
                     ("diameter_realm", PStr (pick "" "magma.local"));
                     ("diameter_port", PStr (pick "3869" "3868"))])).
Proof.
  intros w. apply (fgw_record w []); reflexivity.
Defined.

Lemma inv_set_cfg2_field k1 k2 k2' x v :
  k2' <> k2 ->
  inv_on config (fun c => exists d, Py.lookup c k1 = Some d /\ Py.lookup d k2 = Some x)
    (set_cfg2 k1 k2' v).
Proof.
  intros Hne w (d&H1&H2). unfold set_cfg2.
  rewrite bind_run, (cfg_lookup _ _ _ H1), bind_run, lift_run.
  destruct d as [| | |dd]; try done. cbn [Py.setitem].
  destruct (config w) as [| | |c0] eqn:Hc; try done.
  rewrite (set_cfg_run _ _ _ _ Hc). cbn [snd config set_config Py.lookup].
  eexists. split; [apply dict_get_set_eq|]. cbn [Py.lookup].
  by rewrite dict_get_set_ne.
Qed.

#[export] Hint Extern 1 (inv_on config _ (set_cfg2 _ _ _)) =>
  apply inv_set_cfg2_field; discriminate : inv.

(** X20: when the questions of the access gateway end, the address stored
    for it is one the address parser accepts. *)
Theorem agw_address_validated E w w' :
  collect_agw_config E w = (Ret (), w') ->
  exists agw ip,
    Py.lookup (config w') "agw" = Some agw /\
    Py.lookup agw "ip_address" = Some (PStr ip) /\
    validate_ip_address E ip = true.
Proof.
  intros H. expand (collect_agw_config E) in H. rewrite print_bind in H.
  apply bind_ret_inv in H as ([]&w1&_&H).
  apply bind_ret_inv in H as (v1&w2&_&H). apply bind_ret_inv in H as ([]&w3&_&H).
  apply bind_ret_inv in H as (v2&w4&_&H). apply bind_ret_inv in H as ([]&w5&_&H).
  apply bind_ret_inv in H as ([]&w6&Hloop&H).
  apply while_exit in Hloop as (w0&Hok).
  apply not_false, ip_ok_true in Hok as (->&agw&ip&Ha&Hip&Hvalid).
  assert (exists d, Py.lookup (config w0) "agw" = Some d /\
                    Py.lookup d "ip_address" = Some (PStr ip)) as Hq by eauto.
  carry H (fun c => exists d, Py.lookup c "agw" = Some d /\
                              Py.lookup d "ip_address" = Some (PStr ip)) Hq.
  destruct Hi as (d&Hd&Hdi). by exists d, ip.
Qed.

Lemma agw_address_validated_witness :
  let w := set_config (PDict [])
             (Sample.fresh [""; "10.0.0"; "ten"; "10.0.0.2"; ""; ""; ""; ""; ""]) in
  exists agw ip,
    Py.lookup (config (collect_agw_config Sample.E0 w).2) "agw" = Some agw /\
    Py.lookup agw "ip_address" = Some (PStr ip) /\
    validate_ip_address Sample.E0 ip = true.
Proof.
  intros w. apply (agw_address_validated Sample.E0 w). by vm_compute.
Defined.

(** ** The installer, command by command *)

Lemma until_failure_app ok l1 l2 :
  until_failure ok (l1 ++ l2)
  = if forallb ok l1 then l1 ++ until_failure ok l2 else until_failure ok l1.
Proof.
  induction l1 as [|c l1 IH]; [done|]. cbn. destruct (ok c); cbn; [|done].
  rewrite IH. by destruct (forallb ok l1).
Qed.

Lemma until_failure_all ok l : forallb ok l = true -> until_failure ok l = l.
Proof.
  induction l as [|c l IH]; [done|]. cbn. destruct (ok c); [|done].
  cbn. intros H. by rewrite IH.
Qed.

Section installer.

Context (E : env) (rc : string -> N) (so se : string -> string).

(** The shell answers by the command alone. *)
Hypothesis Hsh : forall w c, sh E w c = Completed (rc c) (so c) (se c).

Let ok (c : string) : bool := N.eqb (rc c) 0.

Lemma runs_nothing (m : M unit) :
  (forall w, exists w', m w = (Ret (), w') /\ cmds w' = cmds w /\ config w' = config w /\
                        files w' = files w /\ stdin w' = stdin w) ->
  runs_in_order E ok [] m.
Proof.
  intros H w. destruct (H w) as (w'&Hm&Hc&Hg&Hf&Hi). exists w'.
  cbn [until_failure forallb]. rewrite app_nil_r. done.
Qed.

Lemma runs_cons c l (K : CompletedProcess -> M unit) :
  (rc c = 0%N -> runs_in_order E ok l (K (Proc 0 (so c) (se c)))) ->
  runs_in_order E ok (c :: l) (run_command E c true ≫= K).
Proof.
  intros HK w. rewrite bind_run, run_command_run. cbv zeta. rewrite Hsh.
  cbn [andb until_failure forallb]. unfold ok at 1 3.
  destruct (N.eqb_spec (rc c) 0) as [Hz|Hne]; cbn [negb andb].
  - match goal with |- context [K _ ?w1] => destruct (HK Hz w1) as (w'&Hc&Hg&Hf&Hi&Hrun) end.
    exists w'. rewrite Hz. split.
    { rewrite Hc. by destruct (truthy (Some (so c))); cbn; rewrite <- app_assoc. }
    split; [by destruct (truthy (Some (so c)))|].
    split; [by destruct (truthy (Some (so c)))|].
    split; [by destruct (truthy (Some (so c)))|]. exact Hrun.
  - eexists. split; [|split; [|split; [|split]]]; [..|by eexists _, _, _]; done.
Qed.

Lemma runs_app l1 l2 (m1 m2 : M unit) :
  runs_in_order E ok l1 m1 -> runs_in_order E ok l2 m2 ->
  runs_in_order E ok (l1 ++ l2) (m1;; m2).
Proof.
  intros H1 H2 w. destruct (H1 w) as (w1&Hc1&Hg1&Hf1&Hi1&Hr1).
  rewrite bind_run, until_failure_app, forallb_app.
  destruct (forallb ok l1) eqn:Hall; cbn [andb].
  - rewrite Hr1. destruct (H2 w1) as (w2&Hc2&Hg2&Hf2&Hi2&Hr2). exists w2.
    rewrite (until_failure_all _ _ Hall) in Hc1.
    split; [by rewrite Hc2, Hc1, app_assoc|]. split; [congruence|].
    split; [congruence|]. split; [congruence|]. exact Hr2.
  - destruct Hr1 as (c&r&s&->). exists w1. repeat split; try done. by eexists _, _, _.
Qed.

Lemma runs_list l :
  runs_in_order E ok l (for_ l (fun c => run_command E c true;; mret ())).
Proof.
  induction l as [|c l IH].
  - apply runs_nothing. intros w. by exists w.
  - cbn [for_]. change (c :: l) with ([c] ++ l). apply runs_app; [|exact IH].
    apply runs_cons. intros _. apply runs_nothing. intros w. by exists w.
Qed.

Lemma runs_print s : runs_in_order E ok [] (print s).
Proof. apply runs_nothing. intros w. eexists. split; [apply print_run|]. done. Qed.

Lemma runs_ret : runs_in_order E ok [] (mret ()).
Proof. apply runs_nothing. intros w. by exists w. Qed.

Let username : string := Str.strip (so "whoami").

Lemma install_docker_runs pm :
  runs_in_order E ok (install_commands pm username "docker") (install_docker E pm).
Proof.
  unfold install_docker. cbv zeta.
  unfold install_commands. rewrite String.eqb_refl. cbv iota.
  apply runs_app; [apply runs_list|].
  apply runs_cons. intros _. apply runs_cons. intros _. apply runs_cons. intros _.
  cbn [stdout]. apply runs_cons. intros _. apply runs_print.
Qed.

Lemma install_one_runs pm dep :
  runs_in_order E ok (install_commands pm username dep)
    (if String.eqb dep "docker" then install_docker E pm
     else if String.eqb dep "docker-compose" then install_docker_compose E
     else if String.eqb dep "kubectl" then install_kubectl E
     else if String.eqb dep "helm" then install_helm E
     else if String.eqb dep "git" then
       (if String.eqb pm "apt"
        then run_command E "sudo apt-get update && sudo apt-get install -y git" true
        else run_command E "sudo yum install -y git" true);;
       mret ()
     else mret ()).
Proof.
  unfold install_commands.
  destruct (String.eqb dep "docker"); [apply install_docker_runs|].
  destruct (String.eqb dep "docker-compose").
  { unfold install_docker_compose. apply runs_cons. intros _. apply runs_cons. intros _.
    apply runs_ret. }
  destruct (String.eqb dep "kubectl"); [apply runs_list|].
  destruct (String.eqb dep "helm"); [apply runs_list|].
  destruct (String.eqb dep "git"); [|apply runs_ret].
  destruct (String.eqb pm "apt"); apply runs_cons; intros _; apply runs_ret.
Qed.

Lemma install_loop_runs pm deps : forall w,
  exists w',
    for_return deps (fun dep =>
      try_except
        ((if String.eqb dep "docker" then install_docker E pm
          else if String.eqb dep "docker-compose" then install_docker_compose E
          else if String.eqb dep "kubectl" then install_kubectl E
          else if String.eqb dep "helm" then install_helm E
          else if String.eqb dep "git" then
            (if String.eqb pm "apt"
             then run_command E "sudo apt-get update && sudo apt-get install -y git" true
             else run_command E "sudo yum install -y git" true);;
            mret ()
          else mret ());;
         mret None)
        is_Exception
        (fun e =>
           logger ERROR ("Failed to install " +:+ dep +:+ ": " +:+ str_exn e);;
           mret (Some false))) w
    = (Ret (if forallb ok (concat (install_commands pm username <$> deps))
            then None else Some false), w') /\
    cmds w' = cmds w ++ until_failure ok (concat (install_commands pm username <$> deps)) /\
    config w' = config w /\ files w' = files w /\ stdin w' = stdin w.
Proof.
  induction deps as [|dep deps IH]; intros w.
  - exists w. cbn. rewrite app_nil_r. done.
  - cbn [for_return fmap list_fmap concat]. rewrite bind_run, try_except_run, bind_run.
    rewrite until_failure_app, forallb_app.
    destruct (install_one_runs pm dep w) as (w1&Hc1&Hg1&Hf1&Hi1&Hr1).
    destruct (forallb ok (install_commands pm username dep)) eqn:Hall; cbn [andb].
    + rewrite Hr1, mret_run. rewrite (until_failure_all _ _ Hall) in Hc1.
      destruct (IH w1) as (w2&->&Hc2&Hg2&Hf2&Hi2). exists w2.
      split; [done|]. split; [by rewrite Hc2, Hc1, app_assoc|].
      split; [congruence|]. split; congruence.
    + destruct Hr1 as (c&r&s&->). cbn [is_Exception]. rewrite logger_bind, mret_run, mret_run.
      eexists. split; [reflexivity|]. done.
Qed.

End installer.

(** X21: on a system the installer knows, with a shell that answers by the
    command alone, [install_prerequisites] runs the commands of the
    missing tools in their order, tool after tool, and stops at the first
    command that fails: it returns true when all of them succeeded and
    false otherwise.  The user it adds to the docker group is what
    [whoami] printed, without the surrounding white space. *)
Theorem installer_runs_in_order E rc so se deps w pm :
  (forall w c, sh E w c = Completed (rc c) (so c) (se c)) ->
  rc "cat /etc/os-release" = 0%N ->
  package_manager_of (so "cat /etc/os-release") = Some pm ->
  let ok := fun c => N.eqb (rc c) 0 in
  let all := concat (install_commands pm (Str.strip (so "whoami")) <$> deps) in
  exists w',
    install_prerequisites E deps w = (Ret (forallb ok all), w') /\
    cmds w' = cmds w ++ "cat /etc/os-release" :: until_failure ok all /\
    config w' = config w /\ files w' = files w /\ stdin w' = stdin w.
Proof.
  intros Hsh Hcat Hpm ok all. expand (install_prerequisites E deps).
  rewrite print_bind, bind_run, try_except_run, bind_run, run_command_run. cbv zeta.
  rewrite Hsh, Hcat. cbn [andb negb N.eqb stdout].
  unfold package_manager_of in Hpm.
  assert (exists w1 : world,
            cmds w1 = cmds w ++ ["cat /etc/os-release"] /\ config w1 = config w /\
            files w1 = files w /\ stdin w1 = stdin w /\
            (if truthy (Some (so "cat /etc/os-release"))
             then noted INFO ("Command output: " +:+ so "cat /etc/os-release")
                    (ran "cat /etc/os-release"
                       (noted INFO ("Executing command: " +:+ "cat /etc/os-release")
                          (said (Str.nl +:+ Icon.package +:+ " Installing prerequisites...") w)))
             else ran "cat /etc/os-release"
                    (noted INFO ("Executing command: " +:+ "cat /etc/os-release")
                       (said (Str.nl +:+ Icon.package +:+ " Installing prerequisites...") w)))
            = w1) as (w1&Hc1&Hg1&Hf1&Hi1&->).
  { eexists. split; [|split; [|split; [|split; [|reflexivity]]]];
      by destruct (truthy (Some (so "cat /etc/os-release"))). }
  destruct (Str.contains "ubuntu" (Str.lower (so "cat /etc/os-release"))
            || Str.contains "debian" (Str.lower (so "cat /etc/os-release"))).
  - injection Hpm as <-. rewrite mret_run. cbv iota. rewrite bind_run.
    destruct (install_loop_runs E rc so se Hsh "apt" deps w1) as (w2&->&Hc2&Hg2&Hf2&Hi2).
    rewrite mret_run. exists w2. fold ok all in Hc2 |- *. split.
    { by destruct (forallb ok all). }
    split; [by rewrite Hc2, Hc1, <- app_assoc|]. split; [congruence|]. split; congruence.
  - destruct (Str.contains "centos" (Str.lower (so "cat /etc/os-release"))
              || Str.contains "rhel" (Str.lower (so "cat /etc/os-release"))); [|done].
    injection Hpm as <-. rewrite mret_run. cbv iota. rewrite bind_run.
    destruct (install_loop_runs E rc so se Hsh "yum" deps w1) as (w2&->&Hc2&Hg2&Hf2&Hi2).
    rewrite mret_run. exists w2. fold ok all in Hc2 |- *. split.
    { by destruct (forallb ok all). }
    split; [by rewrite Hc2, Hc1, <- app_assoc|]. split; [congruence|]. split; congruence.
Qed.

Lemma installer_runs_in_order_witness :
  let deps := ["docker"; "kubectl"; "helm"] in
  let ok := fun c => N.eqb (Sample.ubuntu_rc c) 0 in
  let all := concat (install_commands "apt" (Str.strip (Sample.ubuntu_so "whoami")) <$> deps) in
  exists w',
    install_prerequisites Sample.E_ubuntu deps (Sample.fresh []) = (Ret (forallb ok all), w') /\
    cmds w' = cmds (Sample.fresh []) ++ "cat /etc/os-release" :: until_failure ok all /\
    config w' = config (Sample.fresh []) /\ files w' = files (Sample.fresh []) /\
    stdin w' = stdin (Sample.fresh []).
Proof.
  intros deps.
  apply (installer_runs_in_order Sample.E_ubuntu Sample.ubuntu_rc Sample.ubuntu_so
           (fun _ => "") deps (Sample.fresh []) "apt").
  - intros w c. reflexivity.
  - reflexivity.
  - by vm_compute.
Defined.

(** ** A configuration that was loaded *)





